(** * Polybet: the temporal market resolver

    A shallow embedding of [src/backend/utils.py], of
    [src/backend/clob_client.py] (class [PolymarketClient]: the fetch of
    markets, the details of a market, the orders) and of the endpoints of
    [src/backend/app.py] that call them, and what holds of them.

    Conventions of the embedding.
    - A Python [str] is a [string]; a character is a code point below 256
      and the classifications ([isspace], [isdigit], [lower]) are those of
      Python on that range.
    - A Python [int] is a [Z], without the limit some interpreters put on
      the number of digits [int] reads.  A clock instant is a number of
      microseconds since the Unix epoch, the resolution of [datetime].
    - A Python [float] is a binary64 number, a [float] of Rocq.
    - A decoded JSON document is a value of [py]; a [dict] is an association
      list in insertion order.
    - Code that may raise lives in [result] (no effect) or in the monad [M]:
      a state, the requests sent so far and the number of clock reads,
      threaded through a result that is a value or an exception.
    - The methods that place orders and the endpoints live in [St]: a
      state, the calls made on the authenticated client or the world of [M],
      threaded through a result that is a value or a [failure], which is an
      exception of [M], an [Exception] with its message or an
      [HTTPException].
    - The listing service, the clock, the CLOB client and the interpreter's
      decoders ([json.loads], [float], [repr]) are parameters.  The service
      answers a request knowing the requests it has received before.
    - Of a call to the logger only what can raise is kept: the slice of a
      value that may not be a string.

    The file has the model first (utils.py, then clob_client.py, then
    app.py), then the vocabulary of the statements and the scenarios they
    are tried on, then the facts: those about the resolver first, source
    file by source file, then those about the rest of the client and about
    the endpoints. *)

From Stdlib Require Import ZArith NArith List String Ascii Bool Lia.
From Stdlib Require Import Decimal DecimalString DecimalZ DecimalN.
From Stdlib Require Import PrimFloat.
From Stdlib Require Import Permutation Sorted.
Import ListNotations.

#[local] Open Scope string_scope.
#[local] Open Scope Z_scope.

(** ** Python strings *)

Definition code (c : ascii) : N := N_of_ascii c.

(** [c.isspace()] on code points below 256. *)
Definition isspace_char (c : ascii) : bool :=
  let n := code c in
  (((9 <=? n) && (n <=? 13)) || ((28 <=? n) && (n <=? 32))
   || (n =? 133) || (n =? 160))%N.

(** [c.isdigit()]: the decimal digits and the superscripts U+00B2, U+00B3,
    U+00B9, which [isdigit] accepts and [int] rejects. *)
Definition isdigit_char (c : ascii) : bool :=
  let n := code c in
  (((48 <=? n) && (n <=? 57)) || (n =? 178) || (n =? 179) || (n =? 185))%N.

Definition lower_char (c : ascii) : ascii :=
  let n := code c in
  if (((65 <=? n) && (n <=? 90))
      || ((192 <=? n) && (n <=? 222) && negb (n =? 215)))%N
  then ascii_of_N (n + 32) else c.

Fixpoint lower (s : string) : string :=
  match s with
  | EmptyString => EmptyString
  | String c r => String (lower_char c) (lower r)
  end.

Fixpoint all_chars (p : ascii -> bool) (s : string) : bool :=
  match s with
  | EmptyString => true
  | String c r => p c && all_chars p r
  end.

(** [s.isdigit()]: at least one character, all of them digits. *)
Definition isdigit (s : string) : bool :=
  match s with
  | EmptyString => false
  | _ => all_chars isdigit_char s
  end.

Fixpoint lstrip (s : string) : string :=
  match s with
  | EmptyString => EmptyString
  | String c r => if isspace_char c then lstrip r else s
  end.

Fixpoint rstrip (s : string) : string :=
  match s with
  | EmptyString => EmptyString
  | String c r =>
      match rstrip r with
      | EmptyString => if isspace_char c then EmptyString else String c EmptyString
      | r' => String c r'
      end
  end.

(** [s.strip()] *)
Definition strip (s : string) : string := lstrip (rstrip s).

(** [s.startswith(p)] *)
Definition startswith (s p : string) : bool := String.prefix p s.

(** [sub in s] *)
Fixpoint contains (sub s : string) : bool :=
  String.prefix sub s
  || match s with
     | EmptyString => false
     | String _ r => contains sub r
     end.

(** [s.split(sep)] for a one-character separator: never empty. *)
Fixpoint split (sep : ascii) (s : string) : list string :=
  match s with
  | EmptyString => [EmptyString]
  | String c r =>
      if Ascii.eqb c sep then EmptyString :: split sep r
      else match split sep r with
           | p :: ps => String c p :: ps
           | [] => [String c EmptyString]
           end
  end.

(** [sep.join(parts)] *)
Definition join (sep : string) (parts : list string) : string :=
  String.concat sep parts.

(** [str(n)] for an [int]. *)
Definition str_of_int (z : Z) : string := NilEmpty.string_of_int (Z.to_int z).

(** [int(s)] on a string that passed [isdigit]: [None] is [ValueError]
    (a superscript digit), which the caller catches. *)
Definition int_of_str (s : string) : option Z :=
  option_map Z.of_uint (NilEmpty.uint_of_string s).

(** [c.upper()] as code points: the upper-case form of a character below
    256 may lie above 255 (U+00B5, U+00FF) or be two characters
    (U+00DF). *)
Definition upper_char (c : ascii) : list N :=
  let n := code c in
  (if ((97 <=? n) && (n <=? 122)) || ((224 <=? n) && (n <=? 254) && negb (n =? 247))
   then [n - 32]
   else if n =? 181 then [924]
   else if n =? 223 then [83; 83]
   else if n =? 255 then [376]
   else [n])%N.

(** [s.upper()], as code points. *)
Definition upper (s : string) : list N := flat_map upper_char (list_ascii_of_string s).

(** The code points of a string. *)
Definition code_points (s : string) : list N := map code (list_ascii_of_string s).

(** [s.upper() == t] *)
Definition upper_is (s t : string) : bool :=
  if list_eq_dec N.eq_dec (upper s) (code_points t) then true else false.

(** ** utils.py *)

(** An aware UTC [datetime].  The calendar fields year, month, day and hour,
    which the code never touches, are kept as the count of whole hours since
    the epoch. *)
Record datetime : Type := mk_datetime {
  dt_hours : Z;
  dt_minute : Z;
  dt_second : Z;
  dt_microsecond : Z
}.

(** [datetime.now(timezone.utc)] when the clock shows [now] microseconds. *)
Definition datetime_of_instant (now : Z) : datetime :=
  {| dt_hours := now / 3600000000;
     dt_minute := (now / 60000000) mod 60;
     dt_second := (now / 1000000) mod 60;
     dt_microsecond := now mod 1000000 |}.

(** [d.replace(minute=m, second=s, microsecond=u)] *)
Definition replace_minute_second_microsecond (d : datetime) (m s u : Z) : datetime :=
  {| dt_hours := dt_hours d; dt_minute := m; dt_second := s; dt_microsecond := u |}.

(** The instant of [d], in microseconds: [d - epoch] as a [timedelta]. *)
Definition instant_of_datetime (d : datetime) : Z :=
  ((dt_hours d * 60 + dt_minute d) * 60 + dt_second d) * 1000000 + dt_microsecond d.

(** [int(td.total_seconds())] of a [timedelta] of [us] microseconds: [int]
    truncates towards zero.  (The quotient [us / 10**6] is exact here; the
    rounding of [total_seconds] to a double is not modelled.) *)
Definition int_total_seconds (us : Z) : Z := Z.quot us 1000000.

Definition get_current_15min_timestamp (now : Z) : Z :=
  let d := datetime_of_instant now in
  let minutes := (dt_minute d / 15) * 15 in
  let rounded := replace_minute_second_microsecond d minutes 0 0 in
  int_total_seconds (instant_of_datetime rounded).

(** [get_next_15min_timestamp]: [now] is the clock read inside
    [get_current_15min_timestamp]. *)
Definition get_next_15min_timestamp (now : Z) : Z :=
  get_current_15min_timestamp now + 900.

Definition extract_timestamp_from_slug (slug : string) : option Z :=
  let parts := split "-" slug in
  match parts with
  | [] => None
  | _ =>
      let timestamp_str := last parts EmptyString in
      if isdigit timestamp_str then int_of_str timestamp_str else None
  end.

Definition update_slug_with_current_timestamp (now : Z) (base_slug : string) : string :=
  let parts := split "-" base_slug in
  let base_parts :=
    if (1 <? Z.of_nat (List.length parts)) && isdigit (last parts EmptyString)
    then removelast parts else parts in
  let current_timestamp := get_current_15min_timestamp now in
  join "-" base_parts ++ "-" ++ str_of_int current_timestamp.

Definition is_15min_interval_market (condition_id_or_slug : string) : bool :=
  let slug_lower := lower condition_id_or_slug in
  contains "-15m-" slug_lower
  || startswith slug_lower "btc-updown-15m"
  || startswith slug_lower "eth-updown-15m".

(** [get_seconds_until_next_15min] reads the clock twice: [now] on its first
    line, [now'] inside [get_current_15min_timestamp]. *)
Definition get_seconds_until_next_15min (now now' : Z) : Z :=
  let current_timestamp := get_current_15min_timestamp now' in
  let next_timestamp := current_timestamp + 900 in
  let next_dt := next_timestamp * 1000000 in
  let delta := next_dt - now in
  int_total_seconds delta.

(** ** Python values *)

(** A decoded JSON document, or any value the code builds from one. *)
#[warnings="-register-all"]
Inductive py : Type :=
| PyNone
| PyBool (b : bool)
| PyInt (z : Z)
| PyFloat (f : float)
| PyStr (s : string)
| PyList (l : list py)
| PyDict (d : list (string * py)).

(** A [dict] with string keys, in insertion order. *)
Definition pydict : Type := list (string * py).

Fixpoint dict_lookup (d : pydict) (k : string) : option py :=
  match d with
  | [] => None
  | (k', v) :: r => if String.eqb k' k then Some v else dict_lookup r k
  end.

(** [d.get(k, default)] *)
Definition dict_get (d : pydict) (k : string) (default : py) : py :=
  match dict_lookup d k with
  | Some v => v
  | None => default
  end.

(** [d[k] = v] *)
Fixpoint dict_set (d : pydict) (k : string) (v : py) : pydict :=
  match d with
  | [] => [(k, v)]
  | (k', v') :: r =>
      if String.eqb k' k then (k, v) :: r else (k', v') :: dict_set r k v
  end.

(** Truth value of a value in a condition. *)
Definition truthy (v : py) : bool :=
  match v with
  | PyNone => false
  | PyBool b => b
  | PyInt z => negb (z =? 0)
  | PyFloat f => negb (PrimFloat.eqb f 0%float)
  | PyStr s => negb (String.eqb s EmptyString)
  | PyList l => match l with [] => false | _ => true end
  | PyDict d => match d with [] => false | _ => true end
  end.

(** [a or b], [a and b], [not a] *)
Definition py_or (a b : py) : py := if truthy a then a else b.
Definition py_and (a b : py) : py := if truthy a then b else a.
Definition py_not (a : py) : py := PyBool (negb (truthy a)).

(** Truth value of an [Optional[Dict]]. *)
Definition truthy_market (m : option pydict) : bool :=
  match m with
  | Some (_ :: _) => true
  | _ => false
  end.

(** [market.get("active", True) and not market.get("closed", False)] *)
Definition is_active_expr (market : pydict) : py :=
  py_and (dict_get market "active" (PyBool true))
         (py_not (dict_get market "closed" (PyBool false))).

Definition chars (s : string) : list py :=
  map (fun c => PyStr (String c EmptyString)) (list_ascii_of_string s).

(** ** Exceptions and results *)

Inductive exn : Type :=
| HTTPError (status : Z)
| ConnectionError
| JSONDecodeError
| TypeError
| ValueError
| AttributeError
| KeyError
| OverflowError
| ClobError.

Inductive result (A : Type) : Type :=
| Ok (a : A)
| Raise (e : exn).

Arguments Ok {A} a.
Arguments Raise {A} e.

Definition rbind {A B : Type} (r : result A) (k : A -> result B) : result B :=
  match r with
  | Ok a => k a
  | Raise e => Raise e
  end.

(** [try: r except: d] for a computation without effects. *)
Definition or_default {A : Type} (r : result A) (d : A) : A :=
  match r with
  | Ok a => a
  | Raise _ => d
  end.

(** [v.get(...)], [v.keys()]: only a [dict] has them. *)
Definition as_dict (v : py) : result pydict :=
  match v with
  | PyDict d => Ok d
  | _ => Raise AttributeError
  end.

(** [v.lower()], [v.strip()]: only a [str] has them. *)
Definition as_str (v : py) : result string :=
  match v with
  | PyStr s => Ok s
  | _ => Raise AttributeError
  end.

(** [v[:n]] in a log line: the value is dropped, the [TypeError] is not. *)
Definition slice_prefix (v : py) : result unit :=
  match v with
  | PyStr _ | PyList _ => Ok tt
  | _ => Raise TypeError
  end.

(** [len(v)] *)
Definition py_len (v : py) : result Z :=
  match v with
  | PyList l => Ok (Z.of_nat (List.length l))
  | PyStr s => Ok (Z.of_nat (String.length s))
  | PyDict d => Ok (Z.of_nat (List.length d))
  | _ => Raise TypeError
  end.

(** The items [for x in v] runs through. *)
Definition py_iter (v : py) : result (list py) :=
  match v with
  | PyList l => Ok l
  | PyStr s => Ok (chars s)
  | PyDict d => Ok (map (fun kv => PyStr (fst kv)) d)
  | _ => Raise TypeError
  end.

(** [l[:n]] on a list. *)
Definition slice_to {A : Type} (n : Z) (l : list A) : list A :=
  if 0 <=? n then firstn (Z.to_nat n) l
  else firstn (Z.to_nat (Z.of_nat (List.length l) + n)) l.

(** ** The interpreter's decoders *)

Record PyRuntime : Type := mk_runtime {
  (** [json.loads(s)]; [None] is [JSONDecodeError]. *)
  json_loads : string -> option py;
  (** [float(s)] for a [str]; [None] is [ValueError]. *)
  float_of_str : string -> option float;
  (** [float(n)] for an [int]; [None] is [OverflowError]. *)
  float_of_int : Z -> option float;
  (** [str(v)] for a [float], a [list] or a [dict]. *)
  repr : py -> string
}.

(** ** The world outside *)

(** The three endpoints of the listing service the client calls:
    [GET /markets/slug/{slug}], [GET /markets?condition_ids=...],
    [GET /markets?limit=...]. *)
Inductive request : Type :=
| GetMarketBySlug (slug : string)
| GetMarketsByConditionIds (condition_ids : string)
| GetMarkets (limit : Z).

Record response : Type := mk_response {
  status_code : Z;
  (** [response.json()]; [None] when the body is not JSON. *)
  json_body : option py
}.

Inductive reply : Type :=
| NoReply   (** connection failure or timeout: [requests.get] raises *)
| Reply (r : response).

(** What a run has done so far: the requests sent, oldest first, and the
    number of times the clock was read. *)
Record world : Type := mk_world {
  sent : list request;
  clock_reads : nat
}.

Definition M (A : Type) : Type := world -> result A * world.

Definition ret {A : Type} (a : A) : M A := fun w => (Ok a, w).

Definition bind {A B : Type} (m : M A) (k : A -> M B) : M B :=
  fun w => match m w with
           | (Ok a, w') => k a w'
           | (Raise e, w') => (Raise e, w')
           end.

Definition lift {A : Type} (r : result A) : M A := fun w => (r, w).

(** [try: body except Exception as e: handler e] *)
Definition try_except {A : Type} (body : M A) (handler : exn -> M A) : M A :=
  fun w => match body w with
           | (Ok a, w') => (Ok a, w')
           | (Raise e, w') => handler e w'
           end.

Notation "x <- c ;; k" := (bind c (fun x => k))
  (at level 61, c at next level, right associativity).
Notation "x <~ c ;; k" := (rbind c (fun x => k))
  (at level 61, c at next level, right associativity).

(** A [for] loop whose body may [return]: [Some b] leaves with [b]. *)
Fixpoint for_return {A B : Type} (l : list A) (body : A -> M (option B)) : M (option B) :=
  match l with
  | [] => ret None
  | x :: r =>
      o <- body x ;;
      match o with
      | Some b => ret (Some b)
      | None => for_return r body
      end
  end.

(** A [for] loop that updates a local variable. *)
Fixpoint for_fold {A S : Type} (l : list A) (body : A -> S -> M S) (s : S) : M S :=
  match l with
  | [] => ret s
  | x :: r => s' <- body x s ;; for_fold r body s'
  end.

Fixpoint rfor_fold {A S : Type} (l : list A) (body : A -> S -> result S) (s : S) : result S :=
  match l with
  | [] => Ok s
  | x :: r => s' <~ body x s ;; rfor_fold r body s'
  end.

Definition raise_for_status (r : response) : result unit :=
  if (400 <=? status_code r) && (status_code r <? 600)
  then Raise (HTTPError (status_code r)) else Ok tt.

Definition response_json (r : response) : result py :=
  match json_body r with
  | Some v => Ok v
  | None => Raise JSONDecodeError
  end.

(** ** clob_client.py: [PolymarketClient._format_market] *)

Section FormatMarket.

Variable rt : PyRuntime.

(** [json.loads(s)] *)
Definition py_json_loads (s : string) : result py :=
  match json_loads rt s with
  | Some v => Ok v
  | None => Raise JSONDecodeError
  end.

(** [float(v)] *)
Definition py_float (v : py) : result float :=
  match v with
  | PyFloat f => Ok f
  | PyInt z =>
      match float_of_int rt z with
      | Some f => Ok f
      | None => Raise OverflowError
      end
  | PyBool b => Ok (if b then 1%float else 0%float)
  | PyStr s =>
      match float_of_str rt s with
      | Some f => Ok f
      | None => Raise ValueError
      end
  | PyNone | PyList _ | PyDict _ => Raise TypeError
  end.

(** [str(v)] *)
Definition py_str (v : py) : string :=
  match v with
  | PyStr s => s
  | PyInt z => str_of_int z
  | PyNone => "None"
  | PyBool true => "True"
  | PyBool false => "False"
  | _ => repr rt v
  end.

(** The token ids of the Gamma shape, lines 449-455: [clobTokenIds] as a
    comma-separated string or as a list. *)
Definition token_ids_of (clob_token_ids : py) : list string :=
  match clob_token_ids with
  | PyStr s =>
      map strip
          (filter (fun tid => negb (String.eqb (strip tid) EmptyString)) (split "," s))
  | PyList l => map (fun tid => strip (py_str tid)) (filter truthy l)
  | _ => []
  end.

(** The parse of [outcomes], lines 464-472, and of [shortOutcomes], lines
    476-483: JSON first, a comma-separated string next; [current] is the
    value of [outcome_list] before the parse. *)
Definition parse_outcomes (current field : py) : py :=
  match field with
  | PyStr s =>
      match py_json_loads s with
      | Ok v => v
      | Raise _ => PyList (map (fun outcome => PyStr (strip outcome)) (split "," s))
      end
  | PyList _ => field
  | _ => current
  end.

(** Lines 458-487: [outcome_list] when the loop over the token ids starts. *)
Definition outcome_list_of (market : pydict) : py :=
  let outcomes := dict_get market "outcomes" (PyStr "") in
  let short_outcomes := dict_get market "shortOutcomes" (PyStr "") in
  let outcome_list := PyList [] in
  let outcome_list :=
    if truthy outcomes then parse_outcomes outcome_list outcomes else outcome_list in
  let outcome_list :=
    if negb (truthy outcome_list) && truthy short_outcomes
    then parse_outcomes outcome_list short_outcomes else outcome_list in
  if negb (truthy outcome_list) then PyList [PyStr "Yes"; PyStr "No"] else outcome_list.

(** [outcome_list[i] if i < len(outcome_list) else f"Outcome {i+1}"] *)
Definition outcome_at (outcome_list : py) (i : nat) : result py :=
  n <~ py_len outcome_list ;;
  if Z.of_nat i <? n then
    match outcome_list with
    | PyList l => Ok (nth i l PyNone)
    | PyStr s => Ok (nth i (chars s) PyNone)
    | _ => Raise KeyError
    end
  else Ok (PyStr ("Outcome " ++ str_of_int (Z.of_nat i + 1))).

(** [outcome in prices] for a [dict]: a list or a dict cannot be hashed. *)
Definition dict_contains (prices : pydict) (outcome : py) : result (option py) :=
  match outcome with
  | PyList _ | PyDict _ => Raise TypeError
  | PyStr s => Ok (dict_lookup prices s)
  | _ => Ok None
  end.

(** The price of token [i], lines 493-504: the whole lookup sits in
    [try: ... except: pass]. *)
Definition price_at (market : pydict) (i : nat) (outcome : py) : float :=
  let outcome_prices := dict_get market "outcomePrices" (PyStr "") in
  let price := 0.5%float in
  if truthy outcome_prices then
    or_default
      (prices <~ match outcome_prices with
                 | PyStr s => py_json_loads s
                 | _ => Ok outcome_prices
                 end ;;
       match prices with
       | PyList l =>
           if Z.of_nat i <? Z.of_nat (List.length l)
           then py_float (nth i l PyNone) else Ok price
       | PyDict d =>
           found <~ dict_contains d outcome ;;
           match found with
           | Some v => py_float v
           | None => Ok price
           end
       | _ => Ok price
       end)
      price
  else price.

(** The dict appended to [tokens], by either method. *)
Definition token_dict (token_id outcome : py) (price : float) (winner : py) : py :=
  PyDict [("token_id", token_id); ("outcome", outcome);
          ("price", PyFloat price); ("winner", winner)].

(** Method 1, lines 490-511: the loop over [enumerate(token_ids)]. *)
Fixpoint gamma_tokens (market : pydict) (outcome_list : py)
    (i : nat) (token_ids : list string) (tokens : list py) : result (list py) :=
  match token_ids with
  | [] => Ok tokens
  | token_id :: rest =>
      outcome <~ outcome_at outcome_list i ;;
      let price := price_at market i outcome in
      gamma_tokens market outcome_list (S i) rest
        (tokens ++ [token_dict (PyStr token_id) outcome price (PyBool false)])%list
  end.

(** Method 2, lines 515-530: the body of the loop over
    [market.get("tokens", [])]; [float] is applied to the price as it
    comes. *)
Definition clob_token (token : py) (tokens : list py) : result (list py) :=
  match token with
  | PyDict t =>
      price <~ py_float (dict_get t "price" (PyFloat 0.5%float)) ;;
      Ok (tokens ++ [token_dict (dict_get t "token_id" (PyStr ""))
                                (dict_get t "outcome" (PyStr ""))
                                price
                                (dict_get t "winner" (PyBool false))])%list
  | PyStr s =>
      Ok (tokens ++ [token_dict (PyStr s)
                       (PyStr ("Outcome " ++ str_of_int (Z.of_nat (List.length tokens) + 1)))
                       0.5%float (PyBool false)])%list
  | _ => Ok tokens
  end.

(** The [formatted] dict that ends [_format_market], lines 537-548. *)
Definition formatted_dict (market : pydict) (condition_id : py) (tokens : list py) : pydict :=
  [("condition_id", condition_id);
   ("question", dict_get market "question" (PyStr "Unknown Market"));
   ("description", dict_get market "description" (PyStr ""));
   ("tokens", PyList tokens);
   ("active", dict_get market "active" (PyBool true));
   ("closed", dict_get market "closed" (PyBool false));
   ("end_date", py_or (dict_get market "end_date_iso" (PyStr ""))
                      (dict_get market "endDate" (PyStr "")));
   ("slug", py_or (dict_get market "slug" PyNone)
                  (dict_get market "eventSlug" (PyStr "")));
   ("eventSlug", py_or (dict_get market "eventSlug" PyNone)
                       (dict_get market "slug" (PyStr "")))].

(** Lines 533-535: [not tokens and condition_id], then the warning that
    slices [condition_id]. *)
Definition warn_no_tokens (tokens : list py) (condition_id : py) : result unit :=
  if match tokens with [] => true | _ => false end && truthy condition_id
  then slice_prefix condition_id else Ok tt.

Definition _format_market (market : pydict) : result pydict :=
  let condition_id := dict_get market "condition_id" (PyStr "") in
  let tokens := [] in
  let clob_token_ids := dict_get market "clobTokenIds" (PyStr "") in
  tokens <~
    (if truthy clob_token_ids then
       let token_ids := token_ids_of clob_token_ids in
       let outcome_list := outcome_list_of market in
       gamma_tokens market outcome_list 0 token_ids tokens
     else if truthy (dict_get market "tokens" PyNone) then
       items <~ py_iter (dict_get market "tokens" (PyList [])) ;;
       rfor_fold items clob_token tokens
     else Ok tokens) ;;
  _ <~ warn_no_tokens tokens condition_id ;;
  Ok (formatted_dict market condition_id tokens).

End FormatMarket.

(** ** The ranking of the fallback search *)

(** One entry of [matching_markets], lines 226-232. *)
Record match_entry : Type := mk_match {
  m_market : pydict;
  m_slug : string;
  m_timestamp : option Z;
  m_active : py;
  m_closed : py
}.

(** The sort key [x["timestamp"] or 0]. *)
Definition rank_key (x : match_entry) : Z :=
  match m_timestamp x with
  | Some t => if t =? 0 then 0 else t
  | None => 0
  end.

(** [l.sort(key=key, reverse=True)]: the sort is stable, elements with equal
    keys keep their order. *)
Fixpoint insert_reverse {A : Type} (key : A -> Z) (x : A) (l : list A) : list A :=
  match l with
  | [] => [x]
  | y :: r => if key x <? key y then y :: insert_reverse key x r else x :: l
  end.

Definition sort_reverse {A : Type} (key : A -> Z) (l : list A) : list A :=
  fold_right (insert_reverse key) [] l.

(** [m["active"] and not m["closed"]] *)
Definition entry_active (m : match_entry) : bool :=
  truthy (py_and (m_active m) (py_not (m_closed m))).

(** The body of the loop that fills [matching_markets], lines 214-232. *)
Definition match_step (base_pattern : string) (market : py)
    (matching_markets : list match_entry) : result (list match_entry) :=
  d <~ as_dict market ;;
  let slug := dict_get d "slug" (PyStr "") in
  if negb (truthy slug) then Ok matching_markets
  else
    s <~ as_str slug ;;
    let slug_lower := lower s in
    let pattern_lower := lower base_pattern in
    if contains pattern_lower slug_lower || startswith slug_lower pattern_lower
    then
      let is_active := is_active_expr d in
      let timestamp := extract_timestamp_from_slug s in
      Ok (matching_markets ++
          [{| m_market := d; m_slug := s; m_timestamp := timestamp;
              m_active := is_active;
              m_closed := dict_get d "closed" (PyBool false) |}])%list
    else Ok matching_markets.

Definition matching_markets_of (base_pattern : string) (all_markets : list py)
  : result (list match_entry) :=
  rfor_fold all_markets (match_step base_pattern) [].

(** [matching_markets] after the sort of line 239. *)
Definition ranked_matches (matching_markets : list match_entry) : list match_entry :=
  sort_reverse rank_key matching_markets.

(** Lines 212-253 of [_fetch_active_market_by_pattern]: filter, rank, keep
    the active entries, return the first. *)
Definition fallback_search (base_pattern : string) (all_markets : list py)
  : result (option pydict) :=
  matching_markets <~ matching_markets_of base_pattern all_markets ;;
  match matching_markets with
  | [] => Ok None
  | _ =>
      let matching_markets := ranked_matches matching_markets in
      let active_matches := filter entry_active matching_markets in
      match active_matches with
      | best_match :: _ => Ok (Some (m_market best_match))
      | [] => Ok None
      end
  end.

(** The base pattern of a slug pattern, lines 158-163: the slug without its
    last segment when that segment is a number. *)
Definition base_pattern_of (slug_pattern : string) : string :=
  if contains "-" slug_pattern && isdigit (last (split "-" slug_pattern) EmptyString)
  then join "-" (removelast (split "-" slug_pattern))
  else slug_pattern.

(** [f"{base_pattern}-{timestamp}"] *)
Definition slug_at (base_pattern : string) (timestamp : Z) : string :=
  base_pattern ++ "-" ++ str_of_int timestamp.

(** ** clob_client.py: the fetch cascade *)

Section Client.

(** The listing service: its reply to a request, given the requests it has
    already received. *)
Variable gamma : list request -> request -> reply.

(** The clock: what its [n]-th reading shows, in microseconds. *)
Variable clock : nat -> Z.

(** [read_client.get_simplified_markets()] of the CLOB client, given the
    requests sent so far: a value, or [None] when the call raises. *)
Variable simplified_markets : list request -> option py.

Variable rt : PyRuntime.

(** [requests.get(url, ...)] *)
Definition requests_get (r : request) : M response :=
  fun w =>
    let w' := {| sent := sent w ++ [r]; clock_reads := clock_reads w |} in
    match gamma (sent w) r with
    | NoReply => (Raise ConnectionError, w')
    | Reply resp => (Ok resp, w')
    end.

(** [datetime.now(timezone.utc)], as an instant. *)
Definition datetime_now : M Z :=
  fun w => (Ok (clock (clock_reads w)),
            {| sent := sent w; clock_reads := S (clock_reads w) |}).

(** [self.read_client.get_simplified_markets()] *)
Definition get_simplified_markets : M py :=
  fun w => match simplified_markets (sent w) with
           | Some v => (Ok v, w)
           | None => (Raise ClobError, w)
           end.

Definition _fetch_market_by_slug (slug : string) : M (option pydict) :=
  try_except
    (let slug_clean := strip slug in
     response <- requests_get (GetMarketBySlug slug_clean) ;;
     if status_code response =? 404 then ret None
     else
       _ <- lift (raise_for_status response) ;;
       market <- lift (response_json response) ;;
       market <- lift (as_dict market) ;;
       _ <- lift (slice_prefix (dict_get market "question" (PyStr "Unknown"))) ;;
       ret (Some market))
    (fun e =>
       match e with
       | HTTPError _ => ret None
       | _ => ret None
       end).

(** One probe of [_fetch_active_market_by_pattern], lines 172-178 and
    191-196: the record when it is there and active. *)
Definition probe (test_slug : string) : M (option pydict) :=
  market <- _fetch_market_by_slug test_slug ;;
  match market with
  | Some m =>
      if truthy_market market && truthy (is_active_expr m)
      then ret (Some m) else ret None
  | None => ret None
  end.

Definition _fetch_active_market_by_pattern (slug_pattern : string) : M (option pydict) :=
  try_except
    (let base_pattern := base_pattern_of slug_pattern in
     now <- datetime_now ;;
     let current_timestamp := get_current_15min_timestamp now in
     let current_slug := slug_at base_pattern current_timestamp in
     hit <- probe current_slug ;;
     match hit with
     | Some market => ret (Some market)
     | None =>
         hit <- for_return [-900; -1800; 0; 900]
                  (fun offset =>
                     let test_timestamp := current_timestamp + offset in
                     let test_slug := slug_at base_pattern test_timestamp in
                     probe test_slug) ;;
         match hit with
         | Some market => ret (Some market)
         | None =>
             response <- requests_get (GetMarkets 500) ;;
             _ <- lift (raise_for_status response) ;;
             all_markets <- lift (response_json response) ;;
             let all_markets :=
               match all_markets with
               | PyList _ => all_markets
               | PyDict d => dict_get d "data" (PyList [])
               | _ => PyList []
               end in
             _ <- lift (py_len all_markets) ;;
             items <- lift (py_iter all_markets) ;;
             lift (fallback_search base_pattern items)
         end
     end)
    (fun _ => ret None).

(** The condition-id lookup of [_fetch_market_by_slug_or_condition_id],
    lines 301-316, with its own [try: ... except: pass]; [Some d] is
    [return d]. *)
Definition condition_id_lookup (identifier_clean : string) : M (option pydict) :=
  try_except
    (response <- requests_get (GetMarketsByConditionIds identifier_clean) ;;
     if status_code response =? 200 then
       data <- lift (response_json response) ;;
       match data with
       | PyList ((_ :: _) as l) =>
           ds <- lift (rfor_fold l (fun m acc => d <~ as_dict m ;; Ok (acc ++ [d])%list) []) ;;
           let active_markets := filter (fun d => truthy (is_active_expr d)) ds in
           match active_markets with
           | m :: _ => ret (Some m)
           | [] => ret (hd_error ds)
           end
       | PyDict d => ret (Some d)
       | _ => ret None
       end
     else ret None)
    (fun _ => ret None).

Definition _fetch_market_by_slug_or_condition_id (identifier : string) : M (option pydict) :=
  try_except
    (let identifier_clean := strip identifier in
     hit <- (if is_15min_interval_market identifier_clean then
               market <- _fetch_active_market_by_pattern identifier_clean ;;
               if truthy_market market then ret market else ret None
             else ret None) ;;
     match hit with
     | Some market => ret (Some market)
     | None =>
         let is_slug := contains "-" identifier_clean
                        && negb (startswith identifier_clean "0x") in
         market <- (if is_slug then _fetch_market_by_slug identifier_clean else ret None) ;;
         if is_slug && truthy_market market
            && match market with
               | Some m => truthy (dict_get m "active" (PyBool true))
                           && negb (truthy (dict_get m "closed" (PyBool false)))
               | None => false
               end
         then ret market
         else if negb (truthy_market market)
                 || match market with
                    | Some m => negb (truthy (dict_get m "active" (PyBool true)))
                                || truthy (dict_get m "closed" (PyBool false))
                    | None => true
                    end
         then condition_id_lookup identifier_clean
         else ret None
     end)
    (fun e =>
       match e with
       | HTTPError _ => ret None
       | _ => ret None
       end).

(** The body of the loop of [get_featured_markets] over the configured
    identifiers, lines 353-399; [featured] is the list built so far.  The two log lines
    after [featured.append] can raise into the handler of the same [try],
    which leaves the appended entry in place. *)
Definition featured_step (condition_id : string) (featured : list pydict) : M (list pydict) :=
  let cid := strip condition_id in
  market <- _fetch_market_by_slug_or_condition_id cid ;;
  match market with
  | Some ((_ :: _) as m) =>
      try_except
        (let is_active := is_active_expr m in
         skip <- (if negb (truthy is_active) then
                    _ <- lift (slice_prefix (dict_get m "question" (PyStr "Unknown"))) ;;
                    ret (is_15min_interval_market condition_id)
                  else ret false) ;;
         if skip then ret featured
         else
           formatted <- lift (_format_market rt m) ;;
           let formatted :=
             if is_15min_interval_market condition_id
             then dict_set (dict_set formatted "_original_pattern" (PyStr condition_id))
                           "_is_15min_interval" (PyBool true)
             else formatted in
           if truthy (py_and (dict_get formatted "active" (PyBool true))
                             (py_not (dict_get formatted "closed" (PyBool false))))
           then
             let featured := (featured ++ [formatted])%list in
             try_except
               (_ <- lift (slice_prefix (dict_get formatted "question" (PyStr "Unknown"))) ;;
                _ <- lift (slice_prefix (dict_get formatted "slug" (PyStr "N/A"))) ;;
                ret featured)
               (fun _ => ret featured)
           else ret featured)
        (fun _ => ret featured)
  | _ => ret featured
  end.

(** The report after the loop, lines 404-405: it slices [condition_id] and
    [question] of every entry. *)
Definition report_step (m : pydict) (_ : unit) : result unit :=
  _ <~ slice_prefix (dict_get m "condition_id" (PyStr "N/A")) ;;
  slice_prefix (dict_get m "question" (PyStr "Unknown")).

(** ["data" in v] *)
Definition has_data (v : py) : result bool :=
  match v with
  | PyDict d => Ok (match dict_lookup d "data" with Some _ => true | None => false end)
  | PyStr s => Ok (contains "data" s)
  | PyList l =>
      Ok (existsb (fun x => match x with PyStr s => String.eqb s "data" | _ => false end) l)
  | _ => Raise TypeError
  end.

(** [v["data"]] *)
Definition get_data (v : py) : result py :=
  match v with
  | PyDict d =>
      match dict_lookup d "data" with
      | Some x => Ok x
      | None => Raise KeyError
      end
  | _ => Raise TypeError
  end.

(** [for market in markets_data[:limit]] *)
Definition popular_items (markets_data : py) (limit : Z) : result (list py) :=
  match markets_data with
  | PyList l => Ok (slice_to limit l)
  | PyStr s => Ok (slice_to limit (chars s))
  | _ => Raise TypeError
  end.

(** Lines 420-425: an entry that cannot be formatted is passed over. *)
Definition popular_step (market : py) (featured : list pydict) : result (list pydict) :=
  Ok (or_default
        (d <~ as_dict market ;;
         formatted <~ _format_market rt d ;;
         Ok (featured ++ [formatted])%list)
        featured).

Definition get_featured_markets (featured_conditions : list string) (limit : Z)
  : M (list pydict) :=
  try_except
    (let featured := [] in
     match featured_conditions with
     | _ :: _ =>
         featured <- for_fold featured_conditions featured_step featured ;;
         match featured with
         | _ :: _ =>
             _ <- lift (rfor_fold featured report_step tt) ;;
             ret featured
         | [] => ret []
         end
     | [] =>
         markets_response <- get_simplified_markets ;;
         featured <-
           (if truthy markets_response then
              present <- lift (has_data markets_response) ;;
              if (present : bool) then
                markets_data <- lift (get_data markets_response) ;;
                items <- lift (popular_items markets_data limit) ;;
                lift (rfor_fold items popular_step featured)
              else ret featured
            else ret featured) ;;
         ret featured
     end)
    (fun _ => ret []).

End Client.

(** ** clob_client.py: [PolymarketClient.__init__] *)

(** Lines 72-76 and 86: [self.featured_conditions], read off the value
    [featured_env] of [os.getenv("FEATURED_MARKETS", "")]. *)
Definition featured_conditions (featured_env : string) : list string :=
  if negb (String.eqb featured_env EmptyString) then
    map strip
        (filter (fun cid => negb (String.eqb (strip cid) EmptyString))
                (split "," featured_env))
  else [].

(** Lines 80-82 and 87: [self.has_15min_markets]. *)
Definition has_15min_markets (featured_env : string) : bool :=
  if negb (String.eqb featured_env EmptyString) then
    existsb is_15min_interval_market (featured_conditions featured_env)
  else false.

(** ** clob_client.py: [PolymarketClient.get_market_details] *)

(** An [OrderBookSummary] of the CLOB client, as far as the code reads
    it. *)
Record OrderBookSummary : Type := mk_order_book {
  ob_market : py;
  ob_bids : py;
  ob_asks : py
}.

(** The read-only CLOB client: what each call returns for its arguments,
    [Raise] when it raises.  [get_market_details] makes each call once. *)
Record ReadClient : Type := mk_read_client {
  (** [get_order_book(token_id)]; [None] is Python's [None]. *)
  get_order_book : string -> result (option OrderBookSummary);
  (** [get_price(token_id, side=side)] *)
  get_price : string -> string -> result py;
  get_midpoint : string -> result py;
  get_last_trade_price : string -> result py
}.

Section MarketDetails.

Variable rt : PyRuntime.
Variable read_client : ReadClient.

(** [float(v) if v else 0.5] *)
Definition float_or_half (v : py) : result float :=
  if truthy v then py_float rt v else Ok 0.5%float.

(** [len(order_book.bids) if order_book else 0], and the same of
    [asks]. *)
Definition book_depth (order_book : option OrderBookSummary)
    (side : OrderBookSummary -> py) : result Z :=
  match order_book with
  | Some ob => py_len (side ob)
  | None => Ok 0
  end.

(** The record returned when anything has raised, lines 620-627. *)
Definition default_details (token_id : string) : pydict :=
  [("token_id", PyStr token_id);
   ("buy_price", PyFloat 0.5%float);
   ("sell_price", PyFloat 0.5%float);
   ("midpoint", PyFloat 0.5%float);
   ("last_trade", PyFloat 0.5%float);
   ("order_book",
    PyDict [("market", PyStr token_id); ("bids", PyInt 0); ("asks", PyInt 0)])].

(** Lines 581-627: the four calls, the last of them in a [try] of its own,
    then the [details] dict, all of it in [try: ... except Exception]. *)
Definition get_market_details (token_id : string) : pydict :=
  or_default
    (order_book <~ get_order_book read_client token_id ;;
     buy_price <~ get_price read_client token_id "BUY" ;;
     sell_price <~ get_price read_client token_id "SELL" ;;
     midpoint <~ get_midpoint read_client token_id ;;
     let last_trade := or_default (get_last_trade_price read_client token_id) midpoint in
     buy <~ float_or_half buy_price ;;
     sell <~ float_or_half sell_price ;;
     mid <~ float_or_half midpoint ;;
     last <~ float_or_half last_trade ;;
     let market := match order_book with
                   | Some ob => ob_market ob
                   | None => PyStr token_id
                   end in
     bids <~ book_depth order_book ob_bids ;;
     asks <~ book_depth order_book ob_asks ;;
     Ok [("token_id", PyStr token_id);
         ("buy_price", PyFloat buy);
         ("sell_price", PyFloat sell);
         ("midpoint", PyFloat mid);
         ("last_trade", PyFloat last);
         ("order_book",
          PyDict [("market", market); ("bids", PyInt bids); ("asks", PyInt asks)])])
    (default_details token_id).

End MarketDetails.

(** ** clob_client.py: orders *)

(** [BUY] and [SELL] of [py_clob_client.order_builder.constants]. *)
Inductive order_side : Type := BUY | SELL.

(** [OrderType.GTC] and [OrderType.FOK]. *)
Inductive OrderType : Type := GTC | FOK.

Record OrderArgs : Type := mk_order_args {
  oa_token_id : string;
  oa_price : float;
  oa_size : float;
  oa_side : order_side
}.

Record MarketOrderArgs : Type := mk_market_order_args {
  mo_token_id : string;
  mo_amount : float;
  mo_side : order_side;
  mo_order_type : OrderType
}.

(** The calls the code makes on the authenticated CLOB client;
    [get_orders] is [get_orders(OpenOrderParams())], [get_trades_call] is
    [get_trades()]. *)
Inductive trade_call : Type :=
| create_order (order : OrderArgs)
| create_market_order (order : MarketOrderArgs)
| post_order (signed_order : py) (order_type : OrderType)
| get_orders
| cancel (order_id : string)
| cancel_all
| get_trades_call.

(** The authenticated client: what a call returns, given the calls made
    before it; [Raise] when it raises. *)
Definition TradeClient : Type := list trade_call -> trade_call -> result py.

(** What a method of the client or an endpoint can raise. *)
Inductive failure : Type :=
| Exn (e : exn)                  (** an exception of the interpreter or of a library *)
| Exception (message : string)   (** [raise Exception(message)] *)
| HTTPException (status : Z) (detail : string).

(** A computation over a state [S] that returns or raises. *)
Definition St (S A : Type) : Type := S -> (A + failure) * S.

Definition st_ret {S A : Type} (a : A) : St S A := fun s => (inl a, s).

Definition st_raise {S A : Type} (f : failure) : St S A := fun s => (inr f, s).

Definition st_bind {S A B : Type} (m : St S A) (k : A -> St S B) : St S B :=
  fun s => match m s with
           | (inl a, s') => k a s'
           | (inr f, s') => (inr f, s')
           end.

(** [try: body except Exception as e: handler e] *)
Definition st_try {S A : Type} (body : St S A) (handler : failure -> St S A) : St S A :=
  fun s => match body s with
           | (inl a, s') => (inl a, s')
           | (inr f, s') => handler f s'
           end.

Definition st_lift {S A : Type} (r : result A) : St S A :=
  fun s => match r with
           | Ok a => (inl a, s)
           | Raise e => (inr (Exn e), s)
           end.

Notation "x <-- c ;; k" := (st_bind c (fun x => k))
  (at level 61, c at next level, right associativity).

(** [v[:n]] *)
Definition py_slice_to (n : Z) (v : py) : result py :=
  match v with
  | PyList l => Ok (PyList (slice_to n l))
  | PyStr s => Ok (PyStr (string_of_list_ascii (slice_to n (list_ascii_of_string s))))
  | _ => Raise TypeError
  end.

Section Orders.

(** [self.trade_client]: [None] when the credentials are missing or the
    client could not be built. *)
Variable trade_client : option TradeClient.

(** One call on the authenticated client. *)
Definition trade (tc : TradeClient) (c : trade_call) : St (list trade_call) py :=
  fun calls => match tc calls c with
               | Ok v => (inl v, calls ++ [c])
               | Raise e => (inr (Exn e), calls ++ [c])
               end%list.

Definition not_initialized : failure :=
  Exception "Trading client not initialized. Check credentials.".

(** [BUY if side.upper() == "BUY" else SELL] *)
Definition order_side_of (side : string) : order_side :=
  if upper_is side "BUY" then BUY else SELL.

(** Lines 629-682.  The handler logs and raises again: it changes nothing.
    The log line after [post_order] reads [response.get]. *)
Definition place_limit_order (token_id side : string) (price size : float)
  : St (list trade_call) py :=
  match trade_client with
  | None => st_raise not_initialized
  | Some tc =>
      let order_side := order_side_of side in
      let order := {| oa_token_id := token_id; oa_price := price;
                      oa_size := size; oa_side := order_side |} in
      signed_order <-- trade tc (create_order order) ;;
      response <-- trade tc (post_order signed_order GTC) ;;
      _ <-- st_lift (as_dict response) ;;
      st_ret response
  end.

(** Lines 684-728. *)
Definition place_market_order (token_id side : string) (amount : float)
  : St (list trade_call) py :=
  match trade_client with
  | None => st_raise not_initialized
  | Some tc =>
      let order_side := order_side_of side in
      let order := {| mo_token_id := token_id; mo_amount := amount;
                      mo_side := order_side; mo_order_type := FOK |} in
      signed_order <-- trade tc (create_market_order order) ;;
      response <-- trade tc (post_order signed_order FOK) ;;
      st_ret response
  end.

(** Lines 730-751: the log line takes [len(orders)]. *)
Definition get_open_orders : St (list trade_call) py :=
  match trade_client with
  | None => st_raise not_initialized
  | Some tc =>
      st_try
        (orders <-- trade tc get_orders ;;
         _ <-- st_lift (py_len orders) ;;
         st_ret orders)
        (fun _ => st_ret (PyList []))
  end.

(** Lines 753-777. *)
Definition cancel_order (order_id : string) : St (list trade_call) py :=
  match trade_client with
  | None => st_raise not_initialized
  | Some tc => trade tc (cancel order_id)
  end.

(** Lines 779-800. *)
Definition cancel_all_orders : St (list trade_call) py :=
  match trade_client with
  | None => st_raise not_initialized
  | Some tc => trade tc cancel_all
  end.

(** Lines 802-821. *)
Definition get_trades (limit : Z) : St (list trade_call) py :=
  st_try
    (trades <-- match trade_client with
                | Some tc => trade tc get_trades_call
                | None => st_ret (PyList [])
                end ;;
     st_lift (py_slice_to limit trades))
    (fun _ => st_ret (PyList [])).

End Orders.

(** ** app.py: the endpoints that call the client *)

(** The body of [POST /order], validated by pydantic: every field has the
    type the model declares. *)
Record OrderRequest : Type := mk_order_request {
  or_session_id : string;
  or_token_id : string;
  or_side : string;
  or_price : float;
  or_size : float
}.

(** The body of [POST /cancel]; [order_id] is optional. *)
Record CancelOrderRequest : Type := mk_cancel_request {
  co_session_id : string;
  co_order_id : option string
}.

(** [k in d] *)
Definition dict_has (d : pydict) (k : string) : bool :=
  match dict_lookup d k with
  | Some _ => true
  | None => false
  end.

(** An [M] computation inside an endpoint. *)
Definition of_M {A : Type} (m : M A) : St world A :=
  fun w => match m w with
           | (Ok a, w') => (inl a, w')
           | (Raise e, w') => (inr (Exn e), w')
           end.

Module app.

Section Endpoints.

(** The module's [sessions] dict: no endpoint modelled here writes it. *)
Variable sessions : pydict.

(** [polymarket_client]: its listing service, clock and CLOB clients, and
    the attributes its constructor has set. *)
Variable gamma : list request -> request -> reply.
Variable clock : nat -> Z.
Variable simplified_markets : list request -> option py.
Variable trade_client : option TradeClient.
Variable featured_conditions : list string.
Variable has_15min_markets : bool.

Variable rt : PyRuntime.

(** [str(e)] *)
Variable exception_str : failure -> string.

(** [datetime.fromtimestamp(t, timezone.utc).isoformat()]; it raises on a
    year it cannot represent. *)
Variable isoformat : Z -> result string.

(** [except Exception as e: raise HTTPException(status_code=500,
    detail=str(e))], the handler of every endpoint: an [HTTPException]
    raised in the body is an [Exception] too. *)
Definition internal_error {S A : Type} (e : failure) : St S A :=
  st_raise (HTTPException 500 (exception_str e)).

(** [GET /markets], lines 172-196. *)
Definition get_markets : St world pydict :=
  st_try
    (markets <-- of_M (get_featured_markets gamma clock simplified_markets rt
                         featured_conditions 10) ;;
     st_ret [("success", PyBool true); ("markets", PyList (map PyDict markets))])
    internal_error.

(** [GET /markets/next-refresh], lines 199-231.  The three functions of
    utils.py read the clock once, twice and twice. *)
Definition get_next_refresh_time : St world pydict :=
  st_try
    (now <-- of_M (datetime_now clock) ;;
     let current_timestamp := get_current_15min_timestamp now in
     _ <-- of_M (datetime_now clock) ;;
     now <-- of_M (datetime_now clock) ;;
     let next_timestamp := get_next_15min_timestamp now in
     now <-- of_M (datetime_now clock) ;;
     now' <-- of_M (datetime_now clock) ;;
     let seconds_until := get_seconds_until_next_15min now now' in
     current_time <-- st_lift (isoformat current_timestamp) ;;
     next_time <-- st_lift (isoformat next_timestamp) ;;
     st_ret [("success", PyBool true);
             ("current_interval",
              PyDict [("timestamp", PyInt current_timestamp);
                      ("datetime", PyStr current_time)]);
             ("next_interval",
              PyDict [("timestamp", PyInt next_timestamp);
                      ("datetime", PyStr next_time)]);
             ("seconds_until_next", PyInt seconds_until);
             ("minutes_until_next", PyInt (seconds_until / 60));
             ("has_15min_markets", PyBool has_15min_markets)])
    internal_error.

(** [POST /order], lines 306-355. *)
Definition place_order (request : OrderRequest) : St (list trade_call) pydict :=
  st_try
    (if negb (dict_has sessions (or_session_id request))
     then st_raise (HTTPException 401 "Invalid session")
     else if negb (String.eqb (or_side request) "BUY" || String.eqb (or_side request) "SELL")
     then st_raise (HTTPException 400 "Side must be BUY or SELL")
     else if negb (PrimFloat.ltb 0 (or_price request) && PrimFloat.ltb (or_price request) 1)
     then st_raise (HTTPException 400 "Price must be between 0 and 1")
     else if PrimFloat.leb (or_size request) 0
     then st_raise (HTTPException 400 "Size must be positive")
     else
       order_response <-- place_limit_order trade_client (or_token_id request)
                            (or_side request) (or_price request) (or_size request) ;;
       _ <-- st_lift (as_dict order_response) ;;
       st_ret [("success", PyBool true);
               ("order", order_response);
               ("message",
                PyStr (or_side request ++ " order placed for "
                       ++ py_str rt (PyFloat (or_size request)) ++ " @ $"
                       ++ py_str rt (PyFloat (or_price request))))])
    internal_error.

(** [POST /cancel], lines 358-387: [if request.order_id:] takes an empty
    id for a missing one. *)
Definition cancel_order (request : CancelOrderRequest) : St (list trade_call) pydict :=
  st_try
    (if negb (dict_has sessions (co_session_id request))
     then st_raise (HTTPException 401 "Invalid session")
     else
       done <-- match co_order_id request with
                | Some ((String _ _) as order_id) =>
                    result <-- cancel_order trade_client order_id ;;
                    st_ret (result, "Order " ++ order_id ++ " cancelled")
                | _ =>
                    result <-- cancel_all_orders trade_client ;;
                    st_ret (result, "All orders cancelled")
                end ;;
       st_ret [("success", PyBool true);
               ("result", fst done);
               ("message", PyStr (snd done))])
    internal_error.

(** [GET /orders], lines 390-413; the header [session_id] may be
    missing. *)
Definition get_orders (session_id : option string) : St (list trade_call) pydict :=
  st_try
    (if negb match session_id with
             | Some s => dict_has sessions s
             | None => false
             end
     then st_raise (HTTPException 401 "Invalid session")
     else
       orders <-- get_open_orders trade_client ;;
       _ <-- st_lift (py_len orders) ;;
       st_ret [("success", PyBool true); ("orders", orders)])
    internal_error.

End Endpoints.

End app.

(** * The vocabulary of the statements *)

(** ** Strings *)

(** No character of [s] is [sep]. *)
Definition no_char (sep : ascii) (s : string) : bool :=
  all_chars (fun c => negb (Ascii.eqb c sep)) s.

Definition is_decimal_char (c : ascii) : bool :=
  ((48 <=? code c) && (code c <=? 57))%N.

(** A hexadecimal digit. *)
Definition is_hex_char (c : ascii) : bool :=
  let n := code c in
  (((48 <=? n) && (n <=? 57)) || ((65 <=? n) && (n <=? 70))
   || ((97 <=? n) && (n <=? 102)))%N.

(** The parts [update_slug_with_current_timestamp] keeps of a slug. *)
Definition base_parts_of (base_slug : string) : list string :=
  let parts := split "-" base_slug in
  if (1 <? Z.of_nat (List.length parts)) && isdigit (last parts EmptyString)
  then removelast parts else parts.

(** ** Requests and replies *)

(** The world after one more request. *)
Definition send (q : request) (w : world) : world :=
  {| sent := sent w ++ [q]; clock_reads := clock_reads w |}.

(** The world after one more reading of the clock. *)
Definition tick (w : world) : world :=
  {| sent := sent w; clock_reads := S (clock_reads w) |}.

(** What [_fetch_market_by_slug] makes of the service's reply. *)
Definition market_of_reply (r : reply) : option pydict :=
  match r with
  | NoReply => None
  | Reply resp =>
      if status_code resp =? 404 then None
      else if (400 <=? status_code resp) && (status_code resp <? 600) then None
      else match json_body resp with
           | Some (PyDict d) =>
               match slice_prefix (dict_get d "question" (PyStr "Unknown")) with
               | Ok _ => Some d
               | Raise _ => None
               end
           | _ => None
           end
  end.

(** The record a probe keeps: there, not empty, and active. *)
Definition active_market_of_reply (r : reply) : option pydict :=
  match market_of_reply r with
  | Some m =>
      if truthy_market (Some m) && truthy (is_active_expr m) then Some m else None
  | None => None
  end.

(** The request a probe of [slug] sends. *)
Definition probe_request (slug : string) : request := GetMarketBySlug (strip slug).

(** The slugs [_fetch_active_market_by_pattern] probes, in the order of the
    code: the current window, then the offsets of its loop. *)
Definition probe_slugs (base_pattern : string) (W : Z) : list string :=
  slug_at base_pattern W
  :: map (fun offset => slug_at base_pattern (W + offset)) [-900; -1800; 0; 900].

(** The candidate slugs as the specification words them: the window offsets
    0, -1, -2 and +1, in that order. *)
Definition spec_candidates (base_pattern : string) (W : Z) : list string :=
  map (fun k => slug_at base_pattern (W + k * 900)) [0; -1; -2; 1].

(** The reply to the [j]-th request of [reqs] when they are sent in order
    from the world [w]. *)
Definition reply_at (gamma : list request -> request -> reply)
    (w : world) (reqs : list request) (j : nat) : reply :=
  gamma (sent w ++ firstn j reqs)%list (nth j reqs (GetMarkets 0)).

(** The probes of a list of slugs, one after the other, up to the first that
    finds an active record. *)
Fixpoint probes_run (gamma : list request -> request -> reply)
    (slugs : list string) (w : world) : option pydict * world :=
  match slugs with
  | [] => (None, w)
  | s :: rest =>
      match active_market_of_reply (gamma (sent w) (probe_request s)) with
      | Some m => (Some m, send (probe_request s) w)
      | None => probes_run gamma rest (send (probe_request s) w)
      end
  end.

(** What [_fetch_active_market_by_pattern] makes of the reply to its listing
    request. *)
Definition listing_result (base_pattern : string) (r : reply) : option pydict :=
  match r with
  | NoReply => None
  | Reply response =>
      or_default
        (_ <~ raise_for_status response ;;
         all_markets <~ response_json response ;;
         let all_markets :=
           match all_markets with
           | PyList _ => all_markets
           | PyDict d => dict_get d "data" (PyList [])
           | _ => PyList []
           end in
         _ <~ py_len all_markets ;;
         items <~ py_iter all_markets ;;
         fallback_search base_pattern items)
        None
  end.

(** ** The fallback search *)

(** The entry the search keeps for the record [d] with slug [s]. *)
Definition entry_of (d : pydict) (s : string) : match_entry :=
  {| m_market := d; m_slug := s;
     m_timestamp := extract_timestamp_from_slug s;
     m_active := is_active_expr d;
     m_closed := dict_get d "closed" (PyBool false) |}.

(** The entries a record of the listing contributes: one when its slug is a
    non-empty string that contains the pattern, case apart, none otherwise. *)
Definition record_entries (base_pattern : string) (v : py) : list match_entry :=
  match v with
  | PyDict d =>
      match dict_get d "slug" (PyStr "") with
      | PyStr s =>
          if negb (String.eqb s EmptyString)
             && contains (lower base_pattern) (lower s)
          then [entry_of d s] else []
      | _ => []
      end
  | _ => []
  end.

(** A raw market record as the listing service sends it: an object whose
    slug, when it has one, is a string (or a null, zero or empty value). *)
Definition record_ok (v : py) : bool :=
  match v with
  | PyDict d =>
      match dict_get d "slug" (PyStr "") with
      | PyStr _ => true
      | slug => negb (truthy slug)
      end
  | _ => false
  end.

(** Descending order of the keys. *)
Definition ge_key {A : Type} (key : A -> Z) (a b : A) : Prop := key b <= key a.

(** ** The batch *)

(** The two keys [get_featured_markets] adds to the entry of a 15-minute
    identifier. *)
Definition tag_15min (condition_id : string) (formatted : pydict) : pydict :=
  if is_15min_interval_market condition_id
  then dict_set (dict_set formatted "_original_pattern" (PyStr condition_id))
                "_is_15min_interval" (PyBool true)
  else formatted.

Definition sliceable (v : py) : bool :=
  match v with
  | PyStr _ | PyList _ => true
  | _ => false
  end.

(** The final report goes through: [condition_id] and [question] of every
    entry can be sliced. *)
Definition report_ok (featured : list pydict) : bool :=
  forallb (fun m => sliceable (dict_get m "condition_id" (PyStr "N/A"))
                    && sliceable (dict_get m "question" (PyStr "Unknown")))
          featured.

Definition option_list {A : Type} (o : option A) : list A :=
  match o with
  | Some a => [a]
  | None => []
  end.

(** The resolution of one configured identifier: the entry it adds to
    [featured], if any, and the world after it. *)
Definition resolve_identifier (gamma : list request -> request -> reply)
    (clock : nat -> Z) (rt : PyRuntime) (condition_id : string) (w : world)
  : option pydict * world :=
  match _fetch_market_by_slug_or_condition_id gamma clock (strip condition_id) w with
  | (Ok (Some ((_ :: _) as m)), w') =>
      if truthy (is_active_expr m) then
        match _format_market rt m with
        | Ok formatted => (Some (tag_15min condition_id formatted), w')
        | Raise _ => (None, w')
        end
      else (None, w')
  | (_, w') => (None, w')
  end.

(** The batch as the specification words it: every identifier, in order,
    either adds its market to [resolved] or is recorded in [misses];
    [resolve] is the resolution of one identifier. *)
Fixpoint resolve_batch (resolve : string -> world -> option pydict * world)
    (identifiers : list string) (w : world) : list pydict * list string * world :=
  match identifiers with
  | [] => ([], [], w)
  | identifier :: rest =>
      let (r, w1) := resolve identifier w in
      let '(resolved, misses, w2) := resolve_batch resolve rest w1 in
      match r with
      | Some m => (m :: resolved, misses, w2)
      | None => (resolved, identifier :: misses, w2)
      end
  end.

(** ** Canonical markets *)

(** A token of a canonical market: the four keys, the price a float. *)
Definition canonical_token (t : py) : Prop :=
  exists token_id outcome price winner, t = token_dict token_id outcome price winner.

(** What a second normalization makes of a canonical market [c]. *)
Definition refed (c : pydict) : pydict :=
  dict_set
    (dict_set
       (dict_set c "end_date" (PyStr ""))
       "slug" (py_or (dict_get c "slug" PyNone) (dict_get c "eventSlug" PyNone)))
    "eventSlug" (py_or (dict_get c "eventSlug" PyNone) (dict_get c "slug" PyNone)).

(** ** More vocabulary: the resolver *)

(** What an entry of [matching_markets] keeps of its record. *)
Definition entry_faithful (e : match_entry) : Prop :=
  m_active e = is_active_expr (m_market e) /\ m_market e <> [].

(** The service cannot be reached: no request is answered. *)
Definition unreachable (gamma : list request -> request -> reply) : Prop :=
  forall history q, gamma history q = NoReply.

(** The keys of a canonical market, in the order [_format_market] writes
    them. *)
Definition canonical_keys : list string :=
  ["condition_id"; "question"; "description"; "tokens"; "active"; "closed";
   "end_date"; "slug"; "eventSlug"].

(** An entry of the featured list: the canonical keys, then the two tags
    when it has them; open for trading. *)
Definition featured_entry (f : pydict) : Prop :=
  (map fst f = canonical_keys
   \/ map fst f = (canonical_keys ++ ["_original_pattern"; "_is_15min_interval"])%list)
  /\ truthy (dict_get f "active" (PyBool true)) = true
  /\ truthy (dict_get f "closed" (PyBool false)) = false.

(** An identifier as the constructor keeps it: not empty, without outer
    blanks, without a comma. *)
Definition clean_identifier (cid : string) : Prop :=
  cid <> EmptyString /\ strip cid = cid /\ no_char "," cid = true.

(** ** More vocabulary: tokens *)

(** A token of the structured array whose price [float] accepts. *)
Definition price_ok (rt : PyRuntime) (token : py) : Prop :=
  match token with
  | PyDict t => exists f, py_float rt (dict_get t "price" (PyFloat 0.5%float)) = Ok f
  | _ => True
  end.

(** The [token_id] of a token. *)
Definition token_id_of (t : py) : py :=
  match t with
  | PyDict d => dict_get d "token_id" PyNone
  | _ => PyNone
  end.

(** The outcome of the [i]-th token when the record names none. *)
Definition default_outcome (i : nat) : string :=
  match i with
  | O => "Yes"
  | S O => "No"
  | _ => "Outcome " ++ str_of_int (Z.of_nat i + 1)
  end.

(** The tokens of a record that has token ids and nothing else, the first
    of them the [i]-th. *)
Fixpoint default_tokens (i : nat) (token_ids : list string) : list py :=
  match token_ids with
  | [] => []
  | token_id :: rest =>
      token_dict (PyStr token_id) (PyStr (default_outcome i)) 0.5%float (PyBool false)
      :: default_tokens (S i) rest
  end.

(** ** More vocabulary: details, orders and endpoints *)

(** The shape of a details record. *)
Definition details_record (token_id : string) (r : pydict) : Prop :=
  exists buy sell mid last market bids asks,
    r = [("token_id", PyStr token_id);
         ("buy_price", PyFloat buy);
         ("sell_price", PyFloat sell);
         ("midpoint", PyFloat mid);
         ("last_trade", PyFloat last);
         ("order_book",
          PyDict [("market", market); ("bids", PyInt bids); ("asks", PyInt asks)])]
    /\ 0 <= bids /\ 0 <= asks.

(** One of the two cases of a letter. *)
Definition letter (l u : ascii) (c : ascii) : Prop := c = l \/ c = u.

(** The order [place_limit_order] builds. *)
Definition limit_order (token_id side : string) (price size : float) : OrderArgs :=
  {| oa_token_id := token_id; oa_price := price; oa_size := size;
     oa_side := order_side_of side |}.

(** An endpoint's answer: a response, or the error 500. *)
Definition answer_or_500 {A : Type} (r : A + failure) : Prop :=
  (exists a, r = inl a) \/ (exists detail, r = inr (HTTPException 500 detail)).

(** The value under [key] of the object under [section] of a response. *)
Definition field_of (r : pydict) (section key : string) : py :=
  match dict_get r section PyNone with
  | PyDict d => dict_get d key PyNone
  | _ => PyNone
  end.

(** Lines 285-319 of [_fetch_market_by_slug_or_condition_id]: the lookup by
    slug, and the lookup by condition id after it. *)
Definition direct_lookup (gamma : list request -> request -> reply)
    (identifier_clean : string) : M (option pydict) :=
  let is_slug := contains "-" identifier_clean
                 && negb (startswith identifier_clean "0x") in
  market <- (if is_slug then _fetch_market_by_slug gamma identifier_clean else ret None) ;;
  if is_slug && truthy_market market
     && match market with
        | Some m => truthy (dict_get m "active" (PyBool true))
                    && negb (truthy (dict_get m "closed" (PyBool false)))
        | None => false
        end
  then ret market
  else if negb (truthy_market market)
          || match market with
             | Some m => negb (truthy (dict_get m "active" (PyBool true)))
                         || truthy (dict_get m "closed" (PyBool false))
             | None => true
             end
  then condition_id_lookup gamma identifier_clean
  else ret None.

(** * Scenarios *)

(** The decoders as far as the scenarios below need them: no record of
    theirs carries an encoded string, a price that is not a float or a
    token id that is not a string, so no decoder is ever reached; each
    answers as on an input it rejects. *)
Definition scenario_runtime : PyRuntime :=
  {| json_loads := fun _ => None;
     float_of_str := fun _ => None;
     float_of_int := fun _ => None;
     repr := fun _ => EmptyString |}.

(** A CLOB client whose listing call raises. *)
Definition no_simplified_markets : list request -> option py := fun _ => None.

(** A clock stopped at 2025-10-31 14:40:50 UTC, in the window that starts
    at 1761921000. *)
Definition clock_1761921650 : nat -> Z := fun _ => 1761921650000000.

Definition fresh_world : world := {| sent := []; clock_reads := 0 |}.

Definition not_found : reply := Reply {| status_code := 404; json_body := None |}.

Definition ok_reply (market : pydict) : reply :=
  Reply {| status_code := 200; json_body := Some (PyDict market) |}.

(** A service that knows no market: every request is answered 404. *)
Definition gamma_404 : list request -> request -> reply := fun _ _ => not_found.

(** A service that is out of order: every request is answered 503. *)
Definition gamma_503 : list request -> request -> reply :=
  fun _ _ => Reply {| status_code := 503; json_body := None |}.

(** A service that cannot be reached. *)
Definition gamma_down : list request -> request -> reply := fun _ _ => NoReply.

Definition token (token_id outcome : string) (price : float) : py :=
  PyDict [("token_id", PyStr token_id); ("outcome", PyStr outcome);
          ("price", PyFloat price); ("winner", PyBool false)].

Definition market_record (condition_id question slug end_date : string)
    (active closed : bool) : pydict :=
  [("condition_id", PyStr condition_id); ("question", PyStr question);
   ("slug", PyStr slug); ("active", PyBool active); ("closed", PyBool closed);
   ("endDate", PyStr end_date);
   ("tokens", PyList [token "101" "Yes" 0.625%float; token "102" "No" 0.375%float])].

Definition market_btc_100k : pydict :=
  market_record "0x1a2b" "Will BTC close above 100k?" "will-btc-close-above-100k"
                "2025-12-31T00:00:00Z" true false.

Definition market_fed_cut : pydict :=
  market_record "0x3c4d" "Will the Fed cut rates?" "fed-rate-cut-2025"
                "2025-12-10T19:00:00Z" true false.

Definition market_btc_window (condition_id slug end_date : string) (closed : bool) : pydict :=
  market_record condition_id "BTC up or down?" slug end_date true closed.

(** A service that lists two static markets under their slugs. *)
Definition gamma_two_markets : list request -> request -> reply :=
  fun _ q =>
    match q with
    | GetMarketBySlug slug =>
        if String.eqb slug "will-btc-close-above-100k" then ok_reply market_btc_100k
        else if String.eqb slug "fed-rate-cut-2025" then ok_reply market_fed_cut
        else not_found
    | _ => not_found
    end.

Definition three_identifiers : list string :=
  ["will-btc-close-above-100k"; "no-such-market"; "fed-rate-cut-2025"].

Definition resolve_scenario : string -> world -> option pydict * world :=
  resolve_identifier gamma_two_markets clock_1761921650 scenario_runtime.

(** A record of the structured-array shape whose second token has no
    numeric price. *)
Definition market_null_price : pydict :=
  [("condition_id", PyStr "0x1a2b"); ("question", PyStr "Will BTC close above 100k?");
   ("active", PyBool true); ("closed", PyBool false);
   ("tokens", PyList [token "101" "Yes" 0.625%float;
                      PyDict [("token_id", PyStr "102"); ("outcome", PyStr "No");
                              ("price", PyNone); ("winner", PyBool false)]])].

(** The same record in the delimited-string shape. *)
Definition market_null_price_gamma : pydict :=
  [("condition_id", PyStr "0x1a2b"); ("question", PyStr "Will BTC close above 100k?");
   ("active", PyBool true); ("closed", PyBool false);
   ("clobTokenIds", PyStr "101,102");
   ("outcomePrices", PyList [PyFloat 0.625%float; PyNone])].

(** A record of the delimited-string shape with two token ids and neither
    outcomes nor prices. *)
Definition market_two_token_ids : pydict :=
  [("question", PyStr "Will BTC close above 100k?"); ("clobTokenIds", PyStr "101,102")].

(** A record whose token ids come as a list, with a blank string and a zero
    among them. *)
Definition market_blank_token_id : pydict :=
  [("question", PyStr "Will BTC close above 100k?");
   ("clobTokenIds", PyList [PyStr " "; PyStr "7"; PyInt 0])].

(** A listing of four records: three of the family, the newest of them
    closed, and a stranger. *)
Definition listing_btc : list py :=
  [PyDict (market_btc_window "0xa1" "btc-updown-15m-1761920100" "2025-10-31T14:30:00Z" false);
   PyDict (market_btc_window "0xa3" "btc-updown-15m-1761921900" "2025-10-31T15:00:00Z" true);
   PyDict (market_record "0xe1" "ETH up or down?" "eth-updown-15m-1761921000"
                         "2025-10-31T14:45:00Z" true false);
   PyDict (market_btc_window "0xa2" "BTC-UpDown-15m-1761921000" "2025-10-31T14:45:00Z" false)].

(** A raw record that carries an end date. *)
Definition market_with_end_date : pydict :=
  [("question", PyStr "BTC up or down?"); ("slug", PyStr "btc-updown-15m-1761921000");
   ("active", PyBool true); ("closed", PyBool false);
   ("endDate", PyStr "2025-10-31T15:00:00Z")].

(** The service lists the market of the next window only. *)
Definition gamma_next_window : list request -> request -> reply :=
  fun _ q =>
    match q with
    | GetMarketBySlug slug =>
        if String.eqb slug "btc-updown-15m-1761921900"
        then ok_reply (market_btc_window "0xa3" "btc-updown-15m-1761921900"
                                         "2025-10-31T15:00:00Z" false)
        else not_found
    | _ => not_found
    end.

(** The service lists the market of the next window from the start, and the
    market of the current window once it has answered three requests. *)
Definition gamma_late_listing : list request -> request -> reply :=
  fun history q =>
    match q with
    | GetMarketBySlug slug =>
        if String.eqb slug "btc-updown-15m-1761921900"
        then ok_reply (market_btc_window "0xa3" "btc-updown-15m-1761921900"
                                         "2025-10-31T15:00:00Z" false)
        else if String.eqb slug "btc-updown-15m-1761921000"
                && (3 <=? Z.of_nat (List.length history))
        then ok_reply (market_btc_window "0xa2" "btc-updown-15m-1761921000"
                                         "2025-10-31T14:45:00Z" false)
        else not_found
    | _ => not_found
    end.

(** A closed market and, after it, an open one under the same condition
    id. *)
Definition market_btc_closed : pydict :=
  market_record "0x1a2b" "Will BTC close above 90k?" "will-btc-close-above-90k"
                "2025-09-30T00:00:00Z" true true.

(** A service that answers a condition-id query with the two of them. *)
Definition gamma_condition_ids : list request -> request -> reply :=
  fun _ q =>
    match q with
    | GetMarketsByConditionIds _ =>
        Reply {| status_code := 200;
                 json_body := Some (PyList (map PyDict [market_btc_closed; market_btc_100k])) |}
    | _ => not_found
    end.

(** A read-only CLOB client every call of which raises. *)
Definition read_client_down : ReadClient :=
  {| get_order_book := fun _ => Raise ClobError;
     get_price := fun _ _ => Raise ClobError;
     get_midpoint := fun _ => Raise ClobError;
     get_last_trade_price := fun _ => Raise ClobError |}.

(** An authenticated client that accepts every call and answers with an
    order id. *)
Definition trade_client_ok : TradeClient :=
  fun _ _ => Ok (PyDict [("orderID", PyStr "0xfeed"); ("status", PyStr "live")]).

(** One open session. *)
Definition one_session : pydict :=
  [("session_7_0x1a2b3c4d",
    PyDict [("fid", PyInt 7); ("authenticated", PyBool true)])].

Definition buy_request : OrderRequest :=
  {| or_session_id := "session_7_0x1a2b3c4d"; or_token_id := "101";
     or_side := "BUY"; or_price := 0.625%float; or_size := 10%float |}.

Definition cancel_request_without_id : CancelOrderRequest :=
  {| co_session_id := "session_7_0x1a2b3c4d"; co_order_id := None |}.

(** [str(e)] as far as the scenarios need it. *)
Definition no_exception_str : failure -> string := fun _ => EmptyString.

(** [isoformat] on the two window starts around the stopped clock. *)
Definition isoformat_1761921000 : Z -> result string :=
  fun t =>
    if t =? 1761921000 then Ok "2025-10-31T14:30:00+00:00"
    else if t =? 1761921900 then Ok "2025-10-31T14:45:00+00:00"
    else Raise ValueError.

(** * Facts about strings *)

Example split_example :
  split "-" "btc-updown-15m-1761921000" = ["btc"; "updown"; "15m"; "1761921000"]
  /\ split "-" "" = [""]
  /\ split "-" "a--b-" = ["a"; ""; "b"; ""].
Proof. repeat split. Qed.

Example strip_example : strip "  btc-updown 15m  " = "btc-updown 15m" /\ strip "   " = "".
Proof. split; reflexivity. Qed.

Example lower_example : lower "BTC-UpDown-15M" = "btc-updown-15m".
Proof. reflexivity. Qed.

Example isdigit_example :
  isdigit "1761921000" = true /\ isdigit "" = false /\ isdigit "15m" = false.
Proof. repeat split. Qed.

Example contains_example :
  contains "-15m-" "sol-updown-15m-1761921000" = true
  /\ contains "-15m-" "sol-updown-15m" = false
  /\ contains "" "" = true.
Proof. repeat split. Qed.

Example str_of_int_example :
  str_of_int 1761921000 = "1761921000" /\ str_of_int 0 = "0" /\ str_of_int (-900) = "-900".
Proof. repeat split. Qed.

Lemma all_chars_impl (p q : ascii -> bool) (s : string) :
  (forall c, p c = true -> q c = true) -> all_chars p s = true -> all_chars q s = true.
Proof.
  intros Hpq. induction s as [|c r IH]; simpl; [reflexivity|].
  intros H. apply andb_true_iff in H as [Hc Hr]. rewrite (Hpq _ Hc), (IH Hr). reflexivity.
Qed.

Lemma append_injective (p a b : string) : p ++ a = p ++ b -> a = b.
Proof. induction p as [|c r IH]; simpl; intros H; [exact H|]. injection H as H. auto. Qed.

Lemma lower_app (a b : string) : lower (a ++ b) = lower a ++ lower b.
Proof. induction a as [|c r IH]; simpl; [reflexivity|]. rewrite IH. reflexivity. Qed.

Section SplitFacts.

Variable sep : ascii.

Lemma split_nonempty (s : string) : split sep s <> [].
Proof.
  destruct s as [|c r]; simpl; [discriminate|].
  destruct (Ascii.eqb c sep); [discriminate|].
  destruct (split sep r); discriminate.
Qed.

Lemma split_no_char (s : string) : no_char sep s = true -> split sep s = [s].
Proof.
  induction s as [|c r IH]; simpl; intros H; [reflexivity|].
  apply andb_true_iff in H as [Hc Hr].
  apply negb_true_iff in Hc. rewrite Hc, (IH Hr). reflexivity.
Qed.

Lemma split_parts_no_char (s : string) :
  Forall (fun p => no_char sep p = true) (split sep s).
Proof.
  induction s as [|c r IH]; simpl.
  - constructor; [reflexivity|constructor].
  - destruct (Ascii.eqb c sep) eqn:E.
    + constructor; [reflexivity|exact IH].
    + destruct (split sep r) as [|p ps]; inversion IH; subst.
      * constructor; [unfold no_char; cbn [all_chars]; rewrite E; reflexivity|constructor].
      * constructor; [|assumption].
        unfold no_char in *; cbn [all_chars]; rewrite E; simpl; assumption.
Qed.

Lemma split_app_sep (a b : string) :
  split sep (a ++ String sep b) = (split sep a ++ split sep b)%list.
Proof.
  induction a as [|c r IH]; simpl.
  - rewrite Ascii.eqb_refl. reflexivity.
  - destruct (Ascii.eqb c sep); [rewrite IH; reflexivity|].
    rewrite IH. pose proof (split_nonempty r) as Hne.
    destruct (split sep r) as [|p ps]; [contradiction|reflexivity].
Qed.

Lemma join_cons2 (glue p q : string) (qs : list string) :
  join glue (p :: q :: qs) = p ++ glue ++ join glue (q :: qs).
Proof. reflexivity. Qed.

Lemma split_join (parts : list string) :
  parts <> [] ->
  Forall (fun p => no_char sep p = true) parts ->
  split sep (join (String sep EmptyString) parts) = parts.
Proof.
  intros Hne Hall. induction Hall as [|p ps Hp Hps IH]; [contradiction|].
  destruct ps as [|q qs].
  - simpl. apply split_no_char. exact Hp.
  - rewrite join_cons2.
    change (String sep "" ++ join (String sep "") (q :: qs))
      with (String sep (join (String sep "") (q :: qs))).
    rewrite split_app_sep, (split_no_char _ Hp), IH by discriminate. reflexivity.
Qed.

Lemma prefix_needs_first_char (sub s : string) :
  no_char sep s = true -> String.prefix (String sep sub) s = false.
Proof.
  destruct s as [|a r]; [reflexivity|]. unfold no_char. cbn [all_chars prefix].
  intros H. apply andb_true_iff in H as [Ha _]. apply negb_true_iff in Ha.
  destruct (ascii_dec sep a) as [->|]; [|reflexivity].
  rewrite Ascii.eqb_refl in Ha. discriminate.
Qed.

Lemma contains_needs_first_char (sub s : string) :
  no_char sep s = true -> contains (String sep sub) s = false.
Proof.
  induction s as [|a r IH]; intros H.
  - reflexivity.
  - cbn [contains]. rewrite (prefix_needs_first_char sub _ H).
    unfold no_char in H. cbn [all_chars] in H. apply andb_true_iff in H as [_ Hr].
    exact (IH Hr).
Qed.

End SplitFacts.

Lemma startswith_contains (s p : string) : startswith s p = true -> contains p s = true.
Proof. unfold startswith. intros H. destruct s; cbn [contains]; rewrite H; reflexivity. Qed.

Lemma Forall_removelast {A : Type} (P : A -> Prop) (l : list A) :
  Forall P l -> Forall P (removelast l).
Proof.
  induction 1 as [|x l Hx Hl IH]; simpl; [constructor|].
  destruct l; [constructor|]. constructor; assumption.
Qed.

Lemma removelast_nonempty {A : Type} (l : list A) :
  (1 < List.length l)%nat -> removelast l <> [].
Proof.
  destruct l as [|x [|y r]]; simpl; intros H; try lia. discriminate.
Qed.

(** ** [strip] *)

Lemma lstrip_idempotent (s : string) : lstrip (lstrip s) = lstrip s.
Proof.
  induction s as [|c r IH]; simpl; [reflexivity|].
  destruct (isspace_char c) eqn:E; [exact IH|]. simpl. rewrite E. reflexivity.
Qed.

Lemma rstrip_idempotent (s : string) : rstrip (rstrip s) = rstrip s.
Proof.
  induction s as [|c r IH]; simpl; [reflexivity|].
  destruct (rstrip r) as [|c' r'] eqn:E.
  - destruct (isspace_char c) eqn:Ec; simpl; [reflexivity|]. rewrite Ec. reflexivity.
  - cbn [rstrip]. cbn [rstrip] in IH. rewrite IH. reflexivity.
Qed.

Lemma rstrip_lstrip_fixed (t : string) : rstrip t = t -> rstrip (lstrip t) = lstrip t.
Proof.
  induction t as [|c r IH]; simpl; [reflexivity|].
  intros H. destruct (isspace_char c) eqn:Ec.
  - apply IH. destruct (rstrip r) as [|c' r'] eqn:E; [discriminate H|].
    injection H as H. exact H.
  - simpl. rewrite Ec. exact H.
Qed.

Lemma strip_idempotent (s : string) : strip (strip s) = strip s.
Proof.
  unfold strip.
  rewrite (rstrip_lstrip_fixed (rstrip s) (rstrip_idempotent s)).
  apply lstrip_idempotent.
Qed.

Lemma rstrip_no_space (s : string) :
  all_chars (fun c => negb (isspace_char c)) s = true -> rstrip s = s.
Proof.
  induction s as [|c r IH]; simpl; [reflexivity|]. intros H.
  apply andb_true_iff in H as [Hc Hr]. rewrite (IH Hr).
  apply negb_true_iff in Hc. rewrite Hc. destruct r; reflexivity.
Qed.

Lemma rstrip_app (a b : string) :
  rstrip b <> EmptyString -> rstrip (a ++ b) = a ++ rstrip b.
Proof.
  intros Hb. induction a as [|c r IH]; simpl; [reflexivity|].
  rewrite IH. destruct (r ++ rstrip b) as [|c' r'] eqn:E; [|reflexivity].
  destruct r; [simpl in E; contradiction|discriminate E].
Qed.

Lemma lstrip_app (a b : string) :
  a <> EmptyString -> lstrip a = a -> lstrip (a ++ b) = a ++ b.
Proof.
  destruct a as [|c r]; [contradiction|]. simpl. intros _ H.
  destruct (isspace_char c) eqn:Ec; [|reflexivity].
  exfalso. assert (L : forall s, (String.length (lstrip s) <= String.length s)%nat).
  { induction s as [|c0 s IH]; simpl; [lia|]. destruct (isspace_char c0); simpl; lia. }
  specialize (L r). rewrite H in L. simpl in L. lia.
Qed.

(** ** [str] and [int] *)

Lemma string_of_uint_decimal (u : uint) :
  all_chars is_decimal_char (NilEmpty.string_of_uint u) = true.
Proof. induction u; simpl; auto. Qed.

Lemma decimal_char_isdigit (c : ascii) : is_decimal_char c = true -> isdigit_char c = true.
Proof. unfold is_decimal_char, isdigit_char. simpl. intros ->. reflexivity. Qed.

Lemma decimal_char_not_dash (c : ascii) :
  is_decimal_char c = true -> negb (Ascii.eqb c "-") = true.
Proof.
  intros H. destruct (Ascii.eqb_spec c "-"%char) as [->|]; [discriminate H|reflexivity].
Qed.

Lemma decimal_char_not_space (c : ascii) :
  is_decimal_char c = true -> negb (isspace_char c) = true.
Proof.
  destruct c as [[] [] [] [] [] [] [] []]; vm_compute; intros H;
    first [reflexivity | discriminate H].
Qed.

Lemma str_of_int_uint (z : Z) :
  0 <= z -> exists u, u <> Nil /\ str_of_int z = NilEmpty.string_of_uint u /\ Z.of_uint u = z.
Proof.
  intros Hz. unfold str_of_int. destruct z as [|p|p]; [| |lia].
  - exists (D0 Nil). repeat split; discriminate.
  - exists (Pos.to_uint p). repeat split.
    + apply DecimalPos.Unsigned.to_uint_nonnil.
    + change (Z.of_uint (Pos.to_uint p)) with (Z.of_int (Z.to_int (Z.pos p))).
      apply DecimalZ.of_to.
Qed.

Lemma str_of_int_decimal (z : Z) :
  0 <= z -> all_chars is_decimal_char (str_of_int z) = true /\ str_of_int z <> EmptyString.
Proof.
  intros Hz. destruct (str_of_int_uint z Hz) as (u & Hu & -> & _). split.
  - apply string_of_uint_decimal.
  - destruct u; simpl; try discriminate. contradiction.
Qed.

Lemma str_of_int_isdigit (z : Z) : 0 <= z -> isdigit (str_of_int z) = true.
Proof.
  intros Hz. destruct (str_of_int_decimal z Hz) as [Hd Hne].
  unfold isdigit. destruct (str_of_int z) eqn:E; [contradiction|].
  apply (all_chars_impl is_decimal_char); [apply decimal_char_isdigit|exact Hd].
Qed.

Lemma str_of_int_no_dash (z : Z) : 0 <= z -> no_char "-" (str_of_int z) = true.
Proof.
  intros Hz. destruct (str_of_int_decimal z Hz) as [Hd _].
  apply (all_chars_impl is_decimal_char); [apply decimal_char_not_dash|exact Hd].
Qed.

Lemma int_of_str_of_int (z : Z) : 0 <= z -> int_of_str (str_of_int z) = Some z.
Proof.
  intros Hz. destruct (str_of_int_uint z Hz) as (u & _ & -> & Hu).
  unfold int_of_str. rewrite NilEmpty.usu. simpl. rewrite Hu. reflexivity.
Qed.

Lemma str_of_int_injective (a b : Z) : str_of_int a = str_of_int b -> a = b.
Proof.
  unfold str_of_int. intros H.
  apply DecimalZ.to_int_inj.
  assert (E : Some (Z.to_int a) = Some (Z.to_int b)).
  { rewrite <- (NilEmpty.isi (Z.to_int a)), <- (NilEmpty.isi (Z.to_int b)), H. reflexivity. }
  injection E as E. exact E.
Qed.

(** [str(n)] has no blank in it and is not empty, whatever the sign. *)
Lemma str_of_int_no_space (z : Z) :
  all_chars (fun c => negb (isspace_char c)) (str_of_int z) = true
  /\ str_of_int z <> EmptyString.
Proof.
  assert (U : forall u, all_chars (fun c => negb (isspace_char c))
                                  (NilEmpty.string_of_uint u) = true).
  { intros u. apply (all_chars_impl is_decimal_char);
      [apply decimal_char_not_space|apply string_of_uint_decimal]. }
  assert (P : forall p, NilEmpty.string_of_uint (Pos.to_uint p) <> EmptyString).
  { intros p. pose proof (DecimalPos.Unsigned.to_uint_nonnil p) as Hp.
    destruct (Pos.to_uint p); simpl; try discriminate. contradiction. }
  unfold str_of_int. destruct z as [|p|p]; simpl.
  - split; [reflexivity|discriminate].
  - split; [apply U|apply P].
  - split; [apply U|discriminate].
Qed.

(** ** Slugs *)

Lemma slug_at_injective (base : string) (a b : Z) : slug_at base a = slug_at base b -> a = b.
Proof.
  unfold slug_at. intros H. apply append_injective in H. apply append_injective in H.
  apply str_of_int_injective. exact H.
Qed.

(** A candidate slug built on a pattern without leading blanks is requested
    as it stands. *)
Lemma probe_request_slug_at (base : string) (timestamp : Z) :
  lstrip base = base ->
  probe_request (slug_at base timestamp) = GetMarketBySlug (slug_at base timestamp).
Proof.
  intros Hbase. unfold probe_request, strip, slug_at. f_equal.
  destruct (str_of_int_no_space timestamp) as [Hns Hne].
  assert (Hr : rstrip ("-" ++ str_of_int timestamp) = "-" ++ str_of_int timestamp).
  { apply rstrip_no_space. cbn [append all_chars]. rewrite Hns. reflexivity. }
  rewrite rstrip_app; rewrite Hr; [|discriminate].
  destruct base as [|c r]; [reflexivity|].
  apply lstrip_app; [discriminate|exact Hbase].
Qed.

Lemma base_parts_ok (base_slug : string) :
  base_parts_of base_slug <> []
  /\ Forall (fun p => no_char "-" p = true) (base_parts_of base_slug).
Proof.
  unfold base_parts_of.
  pose proof (split_nonempty "-" base_slug) as Hne.
  pose proof (split_parts_no_char "-" base_slug) as Hall.
  destruct ((1 <? Z.of_nat (List.length (split "-" base_slug)))
            && isdigit (last (split "-" base_slug) "")) eqn:E.
  - apply andb_true_iff in E as [E _]. apply Z.ltb_lt in E. split.
    + apply removelast_nonempty. lia.
    + apply Forall_removelast. exact Hall.
  - split; assumption.
Qed.

Lemma split_with_timestamp (parts : list string) (z : Z) :
  parts <> [] -> Forall (fun p => no_char "-" p = true) parts -> 0 <= z ->
  split "-" (join "-" parts ++ "-" ++ str_of_int z) = (parts ++ [str_of_int z])%list.
Proof.
  intros Hne Hall Hz.
  change ("-" ++ str_of_int z) with (String "-" (str_of_int z)).
  rewrite split_app_sep, (split_join "-" parts Hne Hall).
  rewrite (split_no_char "-" _ (str_of_int_no_dash z Hz)). reflexivity.
Qed.

(** * utils.py: the time windows *)

(** Goals about quotients and remainders by constants. *)
Ltac floor_arith := Z.to_euclidean_division_equations; lia.

Lemma current_window_value (now : Z) :
  get_current_15min_timestamp now = 900 * (now / 900000000).
Proof.
  unfold get_current_15min_timestamp, int_total_seconds, instant_of_datetime,
    replace_minute_second_microsecond, datetime_of_instant;
    cbn [dt_hours dt_minute dt_second dt_microsecond].
  replace (((now / 3600000000 * 60 + (now / 60000000) mod 60 / 15 * 15) * 60 + 0) * 1000000 + 0)
    with ((now / 3600000000 * 60 + (now / 60000000) mod 60 / 15 * 15) * 60 * 1000000) by lia.
  rewrite Z.quot_mul by lia.
  floor_arith.
Qed.

(** C6.  At every clock instant [now] (in microseconds; [now / 1000000] is
    the instant in whole seconds) the current-window computation returns
    [floor(now / 900) * 900]: a multiple of 900 with
    [result <= now < result + 900], and the only window start with that
    property. *)
Theorem current_window_is_floor (now : Z) :
  get_current_15min_timestamp now = now / 1000000 / 900 * 900
  /\ get_current_15min_timestamp now mod 900 = 0
  /\ get_current_15min_timestamp now * 1000000 <= now
     < (get_current_15min_timestamp now + 900) * 1000000
  /\ (forall k : Z,
        900 * k * 1000000 <= now < (900 * k + 900) * 1000000 ->
        900 * k = get_current_15min_timestamp now).
Proof.
  rewrite current_window_value. repeat split.
  - floor_arith.
  - floor_arith.
  - floor_arith.
  - floor_arith.
  - intros k Hk. floor_arith.
Qed.

Lemma current_window_is_floor_witness :
  get_current_15min_timestamp 1761921650000000 = 1761921000
  /\ 900 * 1957690 = get_current_15min_timestamp 1761921650000000.
Proof.
  destruct (current_window_is_floor 1761921650000000) as (_ & _ & _ & Huniq).
  split; [reflexivity|]. apply Huniq. lia.
Defined.

Lemma next_window_value (now : Z) :
  get_next_15min_timestamp now = get_current_15min_timestamp now + 900
  /\ now < get_next_15min_timestamp now * 1000000.
Proof.
  unfold get_next_15min_timestamp. split; [reflexivity|].
  rewrite current_window_value. floor_arith.
Qed.

Lemma seconds_until_value (now now' : Z) :
  now <= now' ->
  get_seconds_until_next_15min now now'
  = (900 * (now' / 900000000) * 1000000 + 900000000 - now) / 1000000.
Proof.
  intros H. unfold get_seconds_until_next_15min, int_total_seconds.
  rewrite current_window_value.
  rewrite Z.quot_div_nonneg; [f_equal; lia| |lia].
  floor_arith.
Qed.

(** The second reading of the clock cannot be earlier than the first: the
    result is never negative. *)
Lemma seconds_until_next_nonneg (now now' : Z) :
  now <= now' -> 0 <= get_seconds_until_next_15min now now'.
Proof.
  intros H. rewrite seconds_until_value by lia.
  floor_arith.
Qed.

(** C5, as amended.  At every clock instant [now] (both readings of the
    clock showing it) seconds-until-next-window returns an integer of the
    closed interval [0, 900]; it returns 900 exactly when [now] falls on a
    window boundary, and less than 900 at every other instant. *)
Theorem seconds_until_next_range (now : Z) :
  0 <= get_seconds_until_next_15min now now <= 900
  /\ (get_seconds_until_next_15min now now = 900 <-> now mod 900000000 = 0).
Proof.
  rewrite seconds_until_value by lia.
  repeat split.
  - floor_arith.
  - floor_arith.
  - floor_arith.
  - floor_arith.
Qed.

(** C5, the instant that refutes it: at 2025-10-31 14:30:00 UTC sharp, a
    window boundary, the result is 900, outside [0, 900). *)
Lemma seconds_until_next_at_boundary :
  get_seconds_until_next_15min 1761921000000000 1761921000000000 = 900
  /\ 1761921000000000 mod 900000000 = 0
  /\ ~ (0 <= get_seconds_until_next_15min 1761921000000000 1761921000000000 < 900).
Proof.
  repeat split; try reflexivity. vm_compute. intros [_ H]. discriminate H.
Qed.

(** * utils.py: slugs *)

Example extract_example :
  extract_timestamp_from_slug "btc-updown-15m-1761921000" = Some 1761921000.
Proof. reflexivity. Qed.

(** A superscript digit passes [isdigit] and fails [int]: no timestamp. *)
Example extract_superscript :
  extract_timestamp_from_slug (String "x" (String "-" (String (ascii_of_N 178) "")))
  = None.
Proof. reflexivity. Qed.

Example update_example :
  update_slug_with_current_timestamp 1761921650000000 "btc-updown-15m-1761920100"
  = "btc-updown-15m-1761921000".
Proof. vm_compute. reflexivity. Qed.

(** C10.  At a fixed clock instant [now], not before the epoch, updating a
    slug with the current timestamp is idempotent, its output ends in "-"
    followed by the current window start, and extracting the trailing
    timestamp of the output gives that window start. *)
Theorem update_slug_idempotent (now : Z) (base_slug : string) :
  0 <= now ->
  update_slug_with_current_timestamp now
    (update_slug_with_current_timestamp now base_slug)
  = update_slug_with_current_timestamp now base_slug
  /\ (exists p, update_slug_with_current_timestamp now base_slug
                = p ++ "-" ++ str_of_int (get_current_15min_timestamp now))
  /\ extract_timestamp_from_slug (update_slug_with_current_timestamp now base_slug)
     = Some (get_current_15min_timestamp now).
Proof.
  intros Hnow.
  assert (HW : 0 <= get_current_15min_timestamp now).
  { rewrite current_window_value. floor_arith. }
  destruct (base_parts_ok base_slug) as [Hne Hall].
  assert (Hout : update_slug_with_current_timestamp now base_slug
                 = join "-" (base_parts_of base_slug) ++ "-"
                   ++ str_of_int (get_current_15min_timestamp now)) by reflexivity.
  assert (Hsplit := split_with_timestamp _ _ Hne Hall HW).
  repeat split.
  - rewrite Hout at 2. unfold update_slug_with_current_timestamp at 1.
    rewrite Hout, Hsplit, last_last, (str_of_int_isdigit _ HW), removelast_last.
    rewrite length_app. simpl List.length.
    destruct (base_parts_of base_slug) as [|p ps] eqn:E; [contradiction|].
    replace (1 <? Z.of_nat (List.length (p :: ps) + 1)) with true
      by (symmetry; apply Z.ltb_lt; simpl List.length; lia).
    reflexivity.
  - exists (join "-" (base_parts_of base_slug)). exact Hout.
  - unfold extract_timestamp_from_slug. rewrite Hout, Hsplit, last_last.
    rewrite (str_of_int_isdigit _ HW), (int_of_str_of_int _ HW).
    destruct (base_parts_of base_slug); [contradiction|reflexivity].
Qed.

Lemma update_slug_idempotent_witness :
  update_slug_with_current_timestamp 1761921650000000
    (update_slug_with_current_timestamp 1761921650000000 "btc-updown-15m-1761920100")
  = update_slug_with_current_timestamp 1761921650000000 "btc-updown-15m-1761920100"
  /\ (exists p, update_slug_with_current_timestamp 1761921650000000 "btc-updown-15m-1761920100"
                = p ++ "-" ++ str_of_int (get_current_15min_timestamp 1761921650000000))
  /\ extract_timestamp_from_slug
       (update_slug_with_current_timestamp 1761921650000000 "btc-updown-15m-1761920100")
     = Some (get_current_15min_timestamp 1761921650000000).
Proof.
  apply (update_slug_idempotent 1761921650000000 "btc-updown-15m-1761920100"). lia.
Defined.

(** Before the epoch the window start is negative and its sign is read as
    one more separator. *)
Example update_slug_before_epoch :
  get_current_15min_timestamp (-1) = -900
  /\ update_slug_with_current_timestamp (-1) "btc-updown-15m" = "btc-updown-15m--900"
  /\ extract_timestamp_from_slug (update_slug_with_current_timestamp (-1) "btc-updown-15m")
     = Some 900.
Proof. repeat split; vm_compute; reflexivity. Qed.

(** * clob_client.py: fetching by slug *)

Lemma try_except_total {A : Type} (body : M A) (handler : exn -> M A) (w : world) :
  (forall e w0, exists a w1, handler e w0 = (Ok a, w1)) ->
  exists a w', try_except body handler w = (Ok a, w').
Proof.
  intros H. unfold try_except. destruct (body w) as [[a|e] w']; [eauto|apply H].
Qed.

Lemma for_return_map {A B C : Type} (f : A -> B) (body : B -> M (option C)) (l : list A) :
  for_return l (fun x => body (f x)) = for_return (map f l) body.
Proof.
  induction l as [|x r IH]; [reflexivity|]. cbn [for_return map]. rewrite IH. reflexivity.
Qed.

Section SlugFacts.

Variable gamma : list request -> request -> reply.

(** [_fetch_market_by_slug] sends one request, never raises, and returns
    what [market_of_reply] reads in the reply. *)
Lemma fetch_market_by_slug_run (slug : string) (w : world) :
  _fetch_market_by_slug gamma slug w
  = (Ok (market_of_reply (gamma (sent w) (GetMarketBySlug (strip slug)))),
     send (GetMarketBySlug (strip slug)) w).
Proof.
  unfold _fetch_market_by_slug, try_except, bind, requests_get, market_of_reply, send.
  destruct (gamma (sent w) (GetMarketBySlug (strip slug))) as [|resp]; [reflexivity|].
  destruct (status_code resp =? 404); [reflexivity|].
  unfold lift, raise_for_status, response_json.
  destruct ((400 <=? status_code resp) && (status_code resp <? 600)); [reflexivity|].
  destruct (json_body resp) as [[ | | | | | |d]|]; try reflexivity.
  cbn [as_dict].
  destruct (slice_prefix (dict_get d "question" (PyStr "Unknown"))) as [|e];
    [reflexivity|destruct e; reflexivity].
Qed.

(** C3, as amended.  For every slug, a 404 response, any other response
    with a 4xx or 5xx status, and a failure to reach the service all give
    the same outcome of the fetch-by-slug operation: it returns [None],
    without raising, after its one request; the caller cannot tell them
    apart by the value returned. *)
Theorem fetch_by_slug_failures_alike (slug : string) (w : world) :
  gamma (sent w) (GetMarketBySlug (strip slug)) = NoReply
  \/ (exists resp, gamma (sent w) (GetMarketBySlug (strip slug)) = Reply resp
                   /\ 400 <= status_code resp < 600) ->
  _fetch_market_by_slug gamma slug w
  = (Ok None, send (GetMarketBySlug (strip slug)) w).
Proof.
  intros H. rewrite fetch_market_by_slug_run. f_equal. f_equal.
  destruct H as [->|(resp & -> & Hs)]; [reflexivity|].
  unfold market_of_reply.
  destruct (status_code resp =? 404); [reflexivity|].
  replace ((400 <=? status_code resp) && (status_code resp <? 600)) with true; [reflexivity|].
  symmetry. apply andb_true_iff. split; [apply Z.leb_le|apply Z.ltb_lt]; lia.
Qed.

Lemma probe_run (slug : string) (w : world) :
  probe gamma slug w
  = (Ok (active_market_of_reply (gamma (sent w) (probe_request slug))),
     send (probe_request slug) w).
Proof.
  unfold probe, bind. rewrite fetch_market_by_slug_run.
  unfold active_market_of_reply, probe_request.
  destruct (market_of_reply _) as [m|]; [|reflexivity].
  destruct (truthy_market (Some m) && truthy (is_active_expr m)); reflexivity.
Qed.

Lemma for_return_probes (slugs : list string) (w : world) :
  for_return slugs (probe gamma) w
  = (Ok (fst (probes_run gamma slugs w)), snd (probes_run gamma slugs w)).
Proof.
  revert w. induction slugs as [|s rest IH]; intros w; [reflexivity|].
  cbn [for_return probes_run]. unfold bind at 1. rewrite probe_run.
  destruct (active_market_of_reply _); [reflexivity|]. apply IH.
Qed.

(** What the probes leave behind: the requests of the first [k] slugs, all
    of them misses but possibly the last. *)
Lemma probes_run_trace (slugs : list string) (w : world) :
  exists k : nat,
    (k <= List.length slugs)%nat
    /\ snd (probes_run gamma slugs w)
       = {| sent := sent w ++ firstn k (map probe_request slugs);
            clock_reads := clock_reads w |}
    /\ (forall j, (j < k - 1)%nat ->
          active_market_of_reply (reply_at gamma w (map probe_request slugs) j) = None)
    /\ match fst (probes_run gamma slugs w) with
       | Some m =>
           (1 <= k)%nat
           /\ active_market_of_reply (reply_at gamma w (map probe_request slugs) (k - 1))
              = Some m
       | None =>
           k = List.length slugs
           /\ (forall j, (j < k)%nat ->
                 active_market_of_reply (reply_at gamma w (map probe_request slugs) j)
                 = None)
       end.
Proof.
  revert w. induction slugs as [|s rest IH]; intros w.
  - exists 0%nat. cbn. rewrite app_nil_r. destruct w. repeat split; intros; lia.
  - cbn [probes_run].
    destruct (active_market_of_reply (gamma (sent w) (probe_request s))) as [m|] eqn:E.
    + exists 1%nat. cbn [fst snd List.length map firstn]. repeat split; try lia.
      unfold reply_at. cbn. rewrite app_nil_r. exact E.
    + destruct (IH (send (probe_request s) w)) as (k & Hk & Hw & Hmiss & Hres).
      exists (S k). cbn [List.length map firstn]. split; [lia|]. split.
      { rewrite Hw. cbn. rewrite <- app_assoc. reflexivity. }
      assert (Hshift : forall j,
                 reply_at gamma w (probe_request s :: map probe_request rest) (S j)
                 = reply_at gamma (send (probe_request s) w) (map probe_request rest) j).
      { intros j. unfold reply_at. cbn. rewrite <- app_assoc. reflexivity. }
      assert (H0 : active_market_of_reply
                     (reply_at gamma w (probe_request s :: map probe_request rest) 0)
                   = None).
      { unfold reply_at. cbn. rewrite app_nil_r. exact E. }
      split.
      { intros j Hj. destruct j as [|j]; [exact H0|]. rewrite Hshift. apply Hmiss. lia. }
      destruct (fst (probes_run gamma rest (send (probe_request s) w))) as [m|].
      * destruct Hres as [Hk1 Hm]. split; [lia|].
        replace (S k - 1)%nat with (S (k - 1)) by lia. rewrite Hshift. exact Hm.
      * destruct Hres as [Hk1 Hall]. split; [lia|].
        intros j Hj. destruct j as [|j]; [exact H0|]. rewrite Hshift. apply Hall. lia.
Qed.

End SlugFacts.

Lemma fetch_by_slug_failures_alike_witness :
  _fetch_market_by_slug gamma_404 "btc-updown-15m-1761921000" fresh_world
  = (Ok None, send (GetMarketBySlug (strip "btc-updown-15m-1761921000")) fresh_world).
Proof.
  apply (fetch_by_slug_failures_alike gamma_404 "btc-updown-15m-1761921000" fresh_world).
  right. exists {| status_code := 404; json_body := None |}. split; [reflexivity|].
  cbn [status_code]. lia.
Defined.

(** C3, the inputs that refute it: the same slug fetched from a service that
    answers 404, from one that answers 503 and from one that cannot be
    reached gives one and the same outcome. *)
Lemma fetch_by_slug_outcomes_coincide :
  fst (_fetch_market_by_slug gamma_404 "btc-updown-15m-1761921000" fresh_world)
  = fst (_fetch_market_by_slug gamma_503 "btc-updown-15m-1761921000" fresh_world)
  /\ fst (_fetch_market_by_slug gamma_404 "btc-updown-15m-1761921000" fresh_world)
     = fst (_fetch_market_by_slug gamma_down "btc-updown-15m-1761921000" fresh_world).
Proof. split; reflexivity. Qed.

(** A response with a status below 400 is read as a success, whatever the
    status. *)
Example fetch_by_slug_reads_304 :
  fst (_fetch_market_by_slug
         (fun _ _ => Reply {| status_code := 304; json_body := Some (PyDict market_fed_cut) |})
         "fed-rate-cut-2025" fresh_world)
  = Ok (Some market_fed_cut).
Proof. reflexivity. Qed.

(** * clob_client.py: the probes of a periodic market *)

Lemma probe_slugs_unfold (base : string) (W : Z) :
  probe_slugs base W
  = [slug_at base W; slug_at base (W - 900); slug_at base (W - 1800);
     slug_at base W; slug_at base (W + 900)].
Proof. unfold probe_slugs. cbn [map]. rewrite Z.add_0_r. reflexivity. Qed.

Lemma spec_candidates_unfold (base : string) (W : Z) :
  spec_candidates base W
  = [slug_at base W; slug_at base (W - 900); slug_at base (W - 1800); slug_at base (W + 900)].
Proof.
  unfold spec_candidates. cbn [map].
  change (0 * 900) with 0. rewrite Z.add_0_r. reflexivity.
Qed.

Lemma spec_candidates_distinct (base : string) (W : Z) :
  NoDup (spec_candidates base W).
Proof.
  rewrite spec_candidates_unfold.
  repeat constructor; cbn [In]; intros H;
    repeat match goal with
           | H : _ \/ _ |- _ => destruct H as [H|H]
           | H : slug_at base _ = slug_at base _ |- _ => apply slug_at_injective in H; lia
           | H : False |- _ => exact H
           end.
Qed.

Lemma probe_slugs_candidates (base : string) (W : Z) :
  probe_slugs base W
  = (firstn 3 (spec_candidates base W) ++ [slug_at base W]
     ++ skipn 3 (spec_candidates base W))%list.
Proof. rewrite probe_slugs_unfold, spec_candidates_unfold. reflexivity. Qed.

Section PatternFacts.

Variable gamma : list request -> request -> reply.
Variable clock : nat -> Z.

(** The whole of [_fetch_active_market_by_pattern]: one reading of the
    clock, the probes, and the listing request only when every probe
    missed. *)
Lemma fetch_active_market_by_pattern_run (slug_pattern : string) (w : world) :
  let W := get_current_15min_timestamp (clock (clock_reads w)) in
  let base := base_pattern_of slug_pattern in
  _fetch_active_market_by_pattern gamma clock slug_pattern w
  = match probes_run gamma (probe_slugs base W) (tick w) with
    | (Some m, w') => (Ok (Some m), w')
    | (None, w') =>
        (Ok (listing_result base (gamma (sent w') (GetMarkets 500))),
         send (GetMarkets 500) w')
    end.
Proof.
  intros W base.
  unfold _fetch_active_market_by_pattern, try_except, bind at 1, datetime_now.
  fold W. fold base. fold (tick w).
  unfold probe_slugs. cbn [probes_run].
  unfold bind at 1. rewrite probe_run.
  destruct (active_market_of_reply (gamma (sent (tick w)) (probe_request (slug_at base W))))
    as [m|]; [reflexivity|].
  unfold bind at 1.
  rewrite (for_return_map (fun offset => slug_at base (W + offset)) (probe gamma)).
  rewrite for_return_probes.
  destruct (probes_run _ _ _) as [[m|] w']; cbn [fst snd]; [reflexivity|].
  unfold bind at 1, requests_get, listing_result, send.
  destruct (gamma (sent w') (GetMarkets 500)) as [|response]; [reflexivity|].
  unfold bind, lift, or_default, rbind.
  destruct (raise_for_status response); [|reflexivity].
  destruct (response_json response) as [v|]; [|reflexivity].
  destruct (py_len _); [|reflexivity].
  destruct (py_iter _); [|reflexivity].
  destruct (fallback_search base _); reflexivity.
Qed.

(** C1, as amended.  For every slug pattern, with base pattern [base], and
    every clock instant whose current window starts at [W], the
    periodic-market resolution probes at most five times, in this order:
    base-W, base-(W-900), base-(W-1800), base-W once more, base-(W+900).
    These are the four candidate slugs of the specification, in its order,
    with the current-window slug probed a second time between the third and
    the fourth.  The resolution stops at the first probe whose record is
    active and returns that record; the listing request of the fallback
    search is sent only after all five probes have missed.  (A probe sends
    the slug stripped of outer blanks, which changes nothing when the
    pattern has no leading blank.) *)
Theorem pattern_resolution_probes (slug_pattern : string) (w : world) :
  let W := get_current_15min_timestamp (clock (clock_reads w)) in
  let base := base_pattern_of slug_pattern in
  let reqs := map probe_request (probe_slugs base W) in
  let run := _fetch_active_market_by_pattern gamma clock slug_pattern w in
  probe_slugs base W
  = [slug_at base W; slug_at base (W - 900); slug_at base (W - 1800);
     slug_at base W; slug_at base (W + 900)]
  /\ probe_slugs base W
     = (firstn 3 (spec_candidates base W) ++ [slug_at base W]
        ++ skipn 3 (spec_candidates base W))%list
  /\ NoDup (spec_candidates base W)
  /\ (lstrip base = base -> reqs = map GetMarketBySlug (probe_slugs base W))
  /\ exists k : nat,
       (1 <= k <= 5)%nat
       /\ (forall j, (j < k - 1)%nat ->
             active_market_of_reply (reply_at gamma w reqs j) = None)
       /\ ((exists m,
              active_market_of_reply (reply_at gamma w reqs (k - 1)) = Some m
              /\ run = (Ok (Some m),
                        {| sent := sent w ++ firstn k reqs;
                           clock_reads := S (clock_reads w) |}))
           \/ (k = 5%nat
               /\ active_market_of_reply (reply_at gamma w reqs 4) = None
               /\ run = (Ok (listing_result base (gamma (sent w ++ reqs) (GetMarkets 500))),
                         {| sent := sent w ++ reqs ++ [GetMarkets 500];
                            clock_reads := S (clock_reads w) |}))).
Proof.
  intros W base reqs run.
  split; [apply probe_slugs_unfold|]. split; [apply probe_slugs_candidates|].
  split; [apply spec_candidates_distinct|]. split.
  { intros Hbase. subst reqs. rewrite probe_slugs_unfold. cbn [map].
    rewrite !(probe_request_slug_at base _ Hbase). reflexivity. }
  subst run. rewrite fetch_active_market_by_pattern_run. fold W. fold base.
  destruct (probes_run_trace gamma (probe_slugs base W) (tick w))
    as (k & Hk & Hw & Hmiss & Hres).
  fold reqs in Hw, Hmiss, Hres.
  change (List.length (probe_slugs base W)) with 5%nat in Hk, Hres.
  assert (Hrep : forall j, reply_at gamma (tick w) reqs j = reply_at gamma w reqs j)
    by reflexivity.
  destruct (probes_run gamma (probe_slugs base W) (tick w)) as [[m|] w'];
    cbn [fst snd] in *; subst w'.
  - destruct Hres as [Hk1 Hm]. exists k. split; [lia|]. split.
    + intros j Hj. rewrite <- Hrep. apply Hmiss. exact Hj.
    + left. exists m. split; [rewrite <- Hrep; exact Hm|reflexivity].
  - destruct Hres as [-> Hall]. exists 5%nat. split; [lia|]. split.
    + intros j Hj. rewrite <- Hrep. apply Hall. lia.
    + right. split; [reflexivity|]. split; [rewrite <- Hrep; apply Hall; lia|].
      cbn [sent tick]. unfold send. cbn [sent clock_reads tick].
      replace (firstn 5 reqs) with reqs by reflexivity.
      rewrite <- app_assoc. reflexivity.
Qed.

End PatternFacts.

Lemma pattern_resolution_probes_witness :
  map probe_request (probe_slugs (base_pattern_of "btc-updown-15m-1761920100") 1761921000)
  = map GetMarketBySlug
        (probe_slugs (base_pattern_of "btc-updown-15m-1761920100") 1761921000).
Proof.
  destruct (pattern_resolution_probes gamma_404 clock_1761921650
              "btc-updown-15m-1761920100" fresh_world) as (_ & _ & _ & H & _).
  apply H. reflexivity.
Defined.

(** C1, the input that refutes it: against a service that knows no market
    the resolution of "btc-updown-15m" in the window 1761921000 sends five
    probes, the current-window slug twice, where the claim has four. *)
Lemma pattern_probes_five_times :
  sent (snd (_fetch_active_market_by_pattern gamma_404 clock_1761921650
               "btc-updown-15m" fresh_world))
  = [GetMarketBySlug "btc-updown-15m-1761921000";
     GetMarketBySlug "btc-updown-15m-1761920100";
     GetMarketBySlug "btc-updown-15m-1761919200";
     GetMarketBySlug "btc-updown-15m-1761921000";
     GetMarketBySlug "btc-updown-15m-1761921900";
     GetMarkets 500]
  /\ sent (snd (_fetch_active_market_by_pattern gamma_404 clock_1761921650
                  "btc-updown-15m" fresh_world))
     <> (map GetMarketBySlug (spec_candidates "btc-updown-15m" 1761921000)
         ++ [GetMarkets 500])%list.
Proof. split; [vm_compute; reflexivity|vm_compute; discriminate]. Qed.

(** The next-window probe finds an active record: it is returned and no
    listing is requested. *)
Example next_window_found_without_listing :
  _fetch_active_market_by_pattern gamma_next_window clock_1761921650
    "btc-updown-15m" fresh_world
  = (Ok (Some (market_btc_window "0xa3" "btc-updown-15m-1761921900"
                                 "2025-10-31T15:00:00Z" false)),
     {| sent := [GetMarketBySlug "btc-updown-15m-1761921000";
                 GetMarketBySlug "btc-updown-15m-1761920100";
                 GetMarketBySlug "btc-updown-15m-1761919200";
                 GetMarketBySlug "btc-updown-15m-1761921000";
                 GetMarketBySlug "btc-updown-15m-1761921900"];
        clock_reads := 1 |}).
Proof. vm_compute. reflexivity. Qed.

(** The second probe of the current window is no idle repetition: when the
    service lists that market late, it is this probe that finds it, ahead
    of the next window, which four probes in the order of the specification
    would have returned. *)
Example second_probe_of_current_window_wins :
  fst (_fetch_active_market_by_pattern gamma_late_listing clock_1761921650
         "btc-updown-15m" fresh_world)
  = Ok (Some (market_btc_window "0xa2" "btc-updown-15m-1761921000"
                                "2025-10-31T14:45:00Z" false))
  /\ fst (probes_run gamma_late_listing (spec_candidates "btc-updown-15m" 1761921000)
            fresh_world)
     = Some (market_btc_window "0xa3" "btc-updown-15m-1761921900"
                               "2025-10-31T15:00:00Z" false).
Proof. split; vm_compute; reflexivity. Qed.

(** * clob_client.py: static and periodic identifiers *)

Lemma hex_lower_not_dash (c : ascii) :
  is_hex_char c = true -> negb (Ascii.eqb (lower_char c) "-") = true.
Proof.
  destruct c as [[] [] [] [] [] [] [] []]; vm_compute; intros H;
    first [reflexivity | discriminate H].
Qed.

Lemma hex_lower_no_dash (h : string) :
  all_chars is_hex_char h = true -> no_char "-" (lower h) = true.
Proof.
  induction h as [|c r IH]; simpl; [reflexivity|]. intros H.
  apply andb_true_iff in H as [Hc Hr].
  unfold no_char in *. cbn [all_chars]. rewrite (hex_lower_not_dash c Hc), (IH Hr). reflexivity.
Qed.

Lemma hex_address_is_static (h : string) :
  all_chars is_hex_char h = true -> is_15min_interval_market ("0x" ++ h) = false.
Proof.
  intros H. unfold is_15min_interval_market. rewrite lower_app.
  change (lower "0x") with "0x".
  rewrite (contains_needs_first_char "-" "15m-" ("0x" ++ lower h)).
  - reflexivity.
  - unfold no_char. cbn [append all_chars]. apply (hex_lower_no_dash h H).
Qed.

Section IdentifierFacts.

Variable gamma : list request -> request -> reply.
Variable clock : nat -> Z.

Lemma condition_id_lookup_run (identifier_clean : string) (w : world) :
  exists r, condition_id_lookup gamma identifier_clean w
            = (Ok r, send (GetMarketsByConditionIds identifier_clean) w).
Proof.
  unfold condition_id_lookup, try_except, bind at 1, requests_get.
  fold (send (GetMarketsByConditionIds identifier_clean) w).
  destruct (gamma (sent w) (GetMarketsByConditionIds identifier_clean)) as [|resp];
    [eexists; reflexivity|].
  destruct (status_code resp =? 200); [|eexists; reflexivity].
  unfold bind, lift, response_json.
  destruct (json_body resp) as [data|]; [|eexists; reflexivity].
  destruct data as [ | | | | |l|d]; try (eexists; reflexivity).
  destruct l as [|x l]; [eexists; reflexivity|].
  match goal with
  | |- context [rfor_fold ?a ?b ?c] => destruct (rfor_fold a b c) as [ds|]
  end; [|eexists; reflexivity].
  match goal with
  | |- context [filter ?p ds] => destruct (filter p ds)
  end; eexists; reflexivity.
Qed.

(** The requests of a static identifier carry the identifier as it is,
    stripped of outer blanks only. *)
Lemma static_identifier_requests (identifier : string) (w : world) :
  is_15min_interval_market (strip identifier) = false ->
  exists r reqs,
    _fetch_market_by_slug_or_condition_id gamma clock identifier w
    = (Ok r, {| sent := sent w ++ reqs; clock_reads := clock_reads w |})
    /\ Forall (fun q => q = GetMarketBySlug (strip identifier)
                        \/ q = GetMarketsByConditionIds (strip identifier)) reqs.
Proof.
  intros H15.
  unfold _fetch_market_by_slug_or_condition_id, try_except. rewrite H15.
  unfold bind at 1. cbn [ret].
  destruct (contains "-" (strip identifier) && negb (startswith (strip identifier) "0x")).
  - unfold bind at 1. rewrite fetch_market_by_slug_run, strip_idempotent.
    set (sid := strip identifier).
    set (market := market_of_reply (gamma (sent w) (GetMarketBySlug sid))).
    cbn [andb].
    match goal with |- context [if ?c then ret market else _] => destruct c end.
    + exists market, [GetMarketBySlug sid]. split; [reflexivity|].
      constructor; [left; reflexivity|constructor].
    + match goal with
      | |- context [if ?c then condition_id_lookup _ _ else _] => destruct c
      end.
      * destruct (condition_id_lookup_run sid (send (GetMarketBySlug sid) w)) as [r Hr].
        rewrite Hr. exists r, [GetMarketBySlug sid; GetMarketsByConditionIds sid].
        split.
        { unfold send. cbn [sent clock_reads]. rewrite <- app_assoc. reflexivity. }
        constructor; [left; reflexivity|]. constructor; [right; reflexivity|constructor].
      * exists None, [GetMarketBySlug sid]. split; [reflexivity|].
        constructor; [left; reflexivity|constructor].
  - set (sid := strip identifier).
    unfold bind at 1. cbn [ret andb truthy_market negb orb].
    destruct (condition_id_lookup_run sid w) as [r Hr]. rewrite Hr.
    exists r, [GetMarketsByConditionIds sid]. split; [reflexivity|].
    constructor; [right; reflexivity|constructor].
Qed.

Lemma fetch_by_slug_or_condition_id_total (identifier : string) (w : world) :
  exists r w', _fetch_market_by_slug_or_condition_id gamma clock identifier w = (Ok r, w').
Proof.
  unfold _fetch_market_by_slug_or_condition_id. apply try_except_total.
  intros e w0. destruct e; eexists; eexists; reflexivity.
Qed.

End IdentifierFacts.

(** C9.  The identifier "btc-updown-15m-1761921000" is a periodic one, with
    base pattern "btc-updown-15m" and embedded timestamp 1761921000; an
    identifier that begins like a hex address, such as "0xabc123...", is a
    static one; and the resolution of a static identifier never strips a
    numeric trailing segment: every request it sends carries the
    identifier, outer blanks apart, as it was given. *)
Theorem identifier_classification :
  is_15min_interval_market "btc-updown-15m-1761921000" = true
  /\ base_pattern_of "btc-updown-15m-1761921000" = "btc-updown-15m"
  /\ extract_timestamp_from_slug "btc-updown-15m-1761921000" = Some 1761921000
  /\ is_15min_interval_market "0xabc123..." = false
  /\ (forall h, all_chars is_hex_char h = true ->
                is_15min_interval_market ("0x" ++ h) = false)
  /\ (forall gamma clock identifier w,
        is_15min_interval_market (strip identifier) = false ->
        exists r reqs,
          _fetch_market_by_slug_or_condition_id gamma clock identifier w
          = (Ok r, {| sent := sent w ++ reqs; clock_reads := clock_reads w |})
          /\ Forall (fun q => q = GetMarketBySlug (strip identifier)
                              \/ q = GetMarketsByConditionIds (strip identifier)) reqs).
Proof.
  split; [reflexivity|]. split; [reflexivity|]. split; [reflexivity|].
  split; [reflexivity|]. split; [exact hex_address_is_static|].
  intros gamma clock identifier w. apply static_identifier_requests.
Qed.

Lemma identifier_classification_witness :
  is_15min_interval_market ("0x" ++ "abc123") = false
  /\ exists r reqs,
       _fetch_market_by_slug_or_condition_id gamma_404 clock_1761921650
         "election-winner-2024" fresh_world
       = (Ok r, {| sent := sent fresh_world ++ reqs;
                   clock_reads := clock_reads fresh_world |})
       /\ Forall (fun q => q = GetMarketBySlug (strip "election-winner-2024")
                           \/ q = GetMarketsByConditionIds (strip "election-winner-2024"))
                 reqs.
Proof.
  destruct identifier_classification as (_ & _ & _ & _ & Hhex & Hstatic). split.
  - apply Hhex. reflexivity.
  - apply Hstatic. reflexivity.
Defined.

Example static_identifier_keeps_digits :
  sent (snd (_fetch_market_by_slug_or_condition_id gamma_404 clock_1761921650
               "election-winner-2024" fresh_world))
  = [GetMarketBySlug "election-winner-2024";
     GetMarketsByConditionIds "election-winner-2024"].
Proof. vm_compute. reflexivity. Qed.

(** A periodic identifier, by contrast, is probed under the current window
    whatever timestamp it came with. *)
Example periodic_identifier_is_rebased :
  hd_error (sent (snd (_fetch_market_by_slug_or_condition_id gamma_404 clock_1761921650
                         "btc-updown-15m-1761920100" fresh_world)))
  = Some (GetMarketBySlug "btc-updown-15m-1761921000").
Proof. vm_compute. reflexivity. Qed.

(** * clob_client.py: the fallback search *)

Section SortFacts.

Context {A : Type} (key : A -> Z).

Lemma insert_reverse_perm (x : A) (l : list A) :
  Permutation (insert_reverse key x l) (x :: l).
Proof.
  induction l as [|y r IH]; simpl; [apply Permutation_refl|].
  destruct (key x <? key y).
  - eapply perm_trans; [apply perm_skip, IH|apply perm_swap].
  - apply Permutation_refl.
Qed.

Lemma sort_reverse_perm (l : list A) : Permutation (sort_reverse key l) l.
Proof.
  induction l as [|x r IH]; simpl; [constructor|].
  eapply perm_trans; [apply insert_reverse_perm|apply perm_skip, IH].
Qed.

Lemma insert_reverse_sorted (x : A) (l : list A) :
  StronglySorted (ge_key key) l -> StronglySorted (ge_key key) (insert_reverse key x l).
Proof.
  induction 1 as [|y r Hr IH Hy]; simpl.
  - constructor; constructor.
  - destruct (key x <? key y) eqn:E.
    + apply Z.ltb_lt in E. constructor; [exact IH|].
      apply (Permutation_Forall (Permutation_sym (insert_reverse_perm x r))).
      constructor; [unfold ge_key; lia|exact Hy].
    + apply Z.ltb_ge in E. constructor; [constructor; assumption|].
      constructor; [exact E|].
      eapply Forall_impl; [|exact Hy]. unfold ge_key. intros a Ha. lia.
Qed.

Lemma sort_reverse_sorted (l : list A) :
  StronglySorted (ge_key key) (sort_reverse key l).
Proof.
  induction l as [|x r IH]; simpl; [constructor|]. apply insert_reverse_sorted, IH.
Qed.

(** The sort is stable: the elements of one key keep their order. *)
Lemma insert_reverse_stable (k : Z) (x : A) (l : list A) :
  filter (fun a => key a =? k) (insert_reverse key x l)
  = filter (fun a => key a =? k) (x :: l).
Proof.
  induction l as [|y r IH]; [reflexivity|]. cbn [insert_reverse].
  destruct (key x <? key y) eqn:E; [|reflexivity].
  apply Z.ltb_lt in E. cbn [filter] in *. rewrite IH.
  destruct (key y =? k) eqn:Ey; [|reflexivity].
  apply Z.eqb_eq in Ey. replace (key x =? k) with false; [reflexivity|].
  symmetry. apply Z.eqb_neq. lia.
Qed.

Lemma sort_reverse_stable (k : Z) (l : list A) :
  filter (fun a => key a =? k) (sort_reverse key l) = filter (fun a => key a =? k) l.
Proof.
  induction l as [|x r IH]; [reflexivity|]. cbn [sort_reverse fold_right].
  rewrite insert_reverse_stable. cbn [filter]. fold (sort_reverse key r).
  rewrite IH. reflexivity.
Qed.

End SortFacts.

Lemma find_filter {A : Type} (p : A -> bool) (l : list A) :
  hd_error (filter p l) = find p l.
Proof.
  induction l as [|x r IH]; [reflexivity|]. simpl. destruct (p x); [reflexivity|exact IH].
Qed.

Lemma entry_active_of (d : pydict) (s : string) :
  entry_active (entry_of d s)
  = truthy (dict_get d "active" (PyBool true))
    && negb (truthy (dict_get d "closed" (PyBool false))).
Proof.
  unfold entry_active, entry_of, is_active_expr, py_and, py_not. cbn [m_active m_closed].
  destruct (truthy (dict_get d "active" (PyBool true))) eqn:Ea; cbn [truthy andb].
  - destruct (truthy (dict_get d "closed" (PyBool false))); reflexivity.
  - rewrite Ea. exact Ea.
Qed.

Lemma rank_key_of (d : pydict) (s : string) :
  rank_key (entry_of d s)
  = match extract_timestamp_from_slug s with Some t => t | None => 0 end.
Proof.
  unfold rank_key, entry_of. cbn [m_timestamp].
  destruct (extract_timestamp_from_slug s) as [[|p|p]|]; reflexivity.
Qed.

Lemma match_step_ok (base : string) (v : py) (acc : list match_entry) :
  record_ok v = true ->
  match_step base v acc = Ok (acc ++ record_entries base v)%list.
Proof.
  unfold record_ok, match_step, record_entries.
  destruct v as [ | | | | | |d]; try discriminate. cbn [as_dict rbind].
  destruct (dict_get d "slug" (PyStr "")) as [ |b|z|f|s|l|d'] eqn:E; intros H;
    try (rewrite H; rewrite app_nil_r; reflexivity).
  cbn [truthy]. destruct (String.eqb s ""); cbn [negb andb];
    [rewrite app_nil_r; reflexivity|].
  cbn [as_str rbind].
  destruct (contains (lower base) (lower s)) eqn:Ec; cbn [orb]; [reflexivity|].
  destruct (startswith (lower s) (lower base)) eqn:Es.
  - apply startswith_contains in Es. congruence.
  - rewrite app_nil_r. reflexivity.
Qed.

Lemma matching_markets_from (base : string) (listing : list py) (acc : list match_entry) :
  forallb record_ok listing = true ->
  rfor_fold listing (match_step base) acc
  = Ok (acc ++ flat_map (record_entries base) listing)%list.
Proof.
  revert acc. induction listing as [|v r IH]; intros acc H.
  - simpl. rewrite app_nil_r. reflexivity.
  - cbn [forallb] in H. apply andb_true_iff in H as [Hv Hr].
    cbn [rfor_fold flat_map]. rewrite (match_step_ok _ _ _ Hv). cbn [rbind].
    rewrite (IH _ Hr), <- app_assoc. reflexivity.
Qed.

(** C7.  For every listing of raw market records and every base pattern,
    the fallback search keeps the records whose slug contains the pattern
    (case apart), in listing order; ranks them by the timestamp that ends
    their slug, most recent first, a record without one ranking as 0 and
    records of equal timestamp keeping their listing order; and returns the
    first record of that ranking that is active (active and not closed),
    or nothing when none is.  In particular timestamps [100, 300, 200] rank
    as [300, 200, 100]. *)
Theorem fallback_search_ranking (base_pattern : string) (listing : list py) :
  forallb record_ok listing = true ->
  let matches := flat_map (record_entries base_pattern) listing in
  let ranked := ranked_matches matches in
  matching_markets_of base_pattern listing = Ok matches
  /\ StronglySorted (fun a b => rank_key b <= rank_key a) ranked
  /\ Permutation ranked matches
  /\ (forall k, filter (fun e => rank_key e =? k) ranked
                = filter (fun e => rank_key e =? k) matches)
  /\ fallback_search base_pattern listing
     = Ok (option_map m_market (find entry_active ranked))
  /\ (forall e, In e matches ->
        rank_key e = match extract_timestamp_from_slug (m_slug e) with
                     | Some t => t
                     | None => 0
                     end
        /\ entry_active e
           = truthy (dict_get (m_market e) "active" (PyBool true))
             && negb (truthy (dict_get (m_market e) "closed" (PyBool false))))
  /\ (forall l, map rank_key l = [100; 300; 200] ->
                map rank_key (ranked_matches l) = [300; 200; 100]).
Proof.
  intros Hok matches ranked.
  assert (Hm : matching_markets_of base_pattern listing = Ok matches).
  { unfold matching_markets_of. rewrite (matching_markets_from _ _ _ Hok). reflexivity. }
  split; [exact Hm|].
  split; [apply (sort_reverse_sorted rank_key)|].
  split; [apply sort_reverse_perm|].
  split; [intros k; apply sort_reverse_stable|].
  split; [|split].
  - unfold fallback_search. rewrite Hm. cbn [rbind]. fold ranked.
    rewrite <- find_filter.
    destruct matches as [|e es] eqn:Em; [reflexivity|].
    destruct (filter entry_active ranked); reflexivity.
  - intros e He. subst matches. apply in_flat_map in He as (v & _ & He).
    unfold record_entries in He.
    destruct v as [ | | | | | |d]; try contradiction.
    destruct (dict_get d "slug" (PyStr "")) as [ | | | |s| | ]; try contradiction.
    destruct (negb (String.eqb s "") && contains (lower base_pattern) (lower s));
      [|contradiction].
    destruct He as [<-|[]]. split; [apply rank_key_of|apply entry_active_of].
  - intros l Hl. destruct l as [|a [|b [|c [|? ?]]]]; try discriminate.
    injection Hl as Ha Hb Hc.
    unfold ranked_matches, sort_reverse. cbn [fold_right insert_reverse].
    rewrite Hb, Hc. change (300 <? 200) with false. cbn iota.
    cbn [insert_reverse]. rewrite Ha, Hb. change (100 <? 300) with true. cbn iota.
    rewrite Hc. change (100 <? 200) with true. cbn iota.
    cbn [map]. rewrite Ha, Hb, Hc. reflexivity.
Qed.

Lemma fallback_search_ranking_witness :
  matching_markets_of "btc-updown-15m" listing_btc
  = Ok (flat_map (record_entries "btc-updown-15m") listing_btc)
  /\ fallback_search "btc-updown-15m" listing_btc
     = Ok (option_map m_market
             (find entry_active
                (ranked_matches (flat_map (record_entries "btc-updown-15m") listing_btc))))
  /\ rank_key (entry_of market_fed_cut "btc-updown-15m-1761921000") = 1761921000
  /\ map rank_key
       (ranked_matches [entry_of market_fed_cut "a-100"; entry_of market_fed_cut "a-300";
                        entry_of market_fed_cut "a-200"])
     = [300; 200; 100].
Proof.
  destruct (fallback_search_ranking "btc-updown-15m" listing_btc)
    as (H1 & _ & _ & _ & H5 & _ & H7).
  - vm_compute. reflexivity.
  - split; [exact H1|]. split; [exact H5|]. split; [reflexivity|].
    apply H7. reflexivity.
Defined.

(** The newest match is closed: the search returns the next one in rank,
    which is active. *)
Example fallback_search_skips_closed :
  map m_slug (ranked_matches (flat_map (record_entries "btc-updown-15m") listing_btc))
  = ["btc-updown-15m-1761921900"; "BTC-UpDown-15m-1761921000"; "btc-updown-15m-1761920100"]
  /\ fallback_search "btc-updown-15m" listing_btc
     = Ok (Some (market_btc_window "0xa2" "BTC-UpDown-15m-1761921000"
                                   "2025-10-31T14:45:00Z" false)).
Proof. split; vm_compute; reflexivity. Qed.

Example fallback_search_none_active :
  fallback_search "btc-updown-15m"
    [PyDict (market_btc_window "0xa3" "btc-updown-15m-1761921900"
                               "2025-10-31T15:00:00Z" true)]
  = Ok None.
Proof. vm_compute. reflexivity. Qed.

(** A record whose slug is a number stops the whole search: the loop
    raises on it. *)
Example fallback_search_raises_on_numeric_slug :
  fallback_search "btc-updown-15m" (PyDict [("slug", PyInt 7)] :: listing_btc)
  = Raise AttributeError.
Proof. vm_compute. reflexivity. Qed.

(** * clob_client.py: the batch *)

Lemma slice_prefix_sliceable (v : py) :
  slice_prefix v = Ok tt <-> sliceable v = true.
Proof. destruct v; simpl; split; intros H; try reflexivity; discriminate. Qed.

(** Every identifier is accounted for once, as a market or as a miss. *)
Lemma resolve_batch_accounts (resolve : string -> world -> option pydict * world)
    (identifiers : list string) (w : world) :
  (List.length (fst (fst (resolve_batch resolve identifiers w)))
   + List.length (snd (fst (resolve_batch resolve identifiers w))))%nat
  = List.length identifiers.
Proof.
  revert w. induction identifiers as [|c rest IH]; intros w; [reflexivity|].
  cbn [resolve_batch]. destruct (resolve c w) as [r w1]. specialize (IH w1).
  destruct (resolve_batch resolve rest w1) as [[resolved misses] w2].
  destruct r; cbn [fst snd List.length] in *; lia.
Qed.

Section BatchFacts.

Variable gamma : list request -> request -> reply.
Variable clock : nat -> Z.
Variable simplified_markets : list request -> option py.
Variable rt : PyRuntime.

(** The entry keeps the [active] and [closed] of the record it formats. *)
Lemma format_market_active (m f : pydict) (condition_id : string) :
  _format_market rt m = Ok f ->
  truthy (py_and (dict_get (tag_15min condition_id f) "active" (PyBool true))
                 (py_not (dict_get (tag_15min condition_id f) "closed" (PyBool false))))
  = truthy (is_active_expr m).
Proof.
  unfold _format_market, rbind.
  match goal with
  | |- context [if ?c then ?a else ?b] => destruct (if c then a else b) as [tokens|]
  end; [|discriminate].
  destruct (warn_no_tokens tokens _); [|discriminate].
  intros [= <-]. unfold tag_15min. destruct (is_15min_interval_market condition_id); reflexivity.
Qed.

(** One turn of the loop never raises: it appends the entry of the
    identifier, if it has one. *)
Lemma featured_step_run (condition_id : string) (featured : list pydict) (w : world) :
  featured_step gamma clock rt condition_id featured w
  = (Ok (featured
         ++ option_list (fst (resolve_identifier gamma clock rt condition_id w)))%list,
     snd (resolve_identifier gamma clock rt condition_id w)).
Proof.
  unfold featured_step, resolve_identifier, bind at 1.
  destruct (fetch_by_slug_or_condition_id_total gamma clock (strip condition_id) w)
    as (r & w' & ->).
  destruct r as [[|kv m']|]; cbn [fst snd option_list]; try (rewrite app_nil_r; reflexivity).
  set (m := kv :: m').
  unfold try_except at 1, bind at 1.
  destruct (truthy (is_active_expr m)) eqn:Ea; cbn [negb].
  - cbn [ret]. unfold bind at 1, lift at 1.
    destruct (_format_market rt m) as [f|e] eqn:Ef; cbn [fst snd option_list];
      [|rewrite app_nil_r; reflexivity].
    fold (tag_15min condition_id f).
    rewrite (format_market_active _ _ _ Ef), Ea.
    unfold try_except, bind, lift.
    destruct (slice_prefix (dict_get (tag_15min condition_id f) "question" (PyStr "Unknown")));
      [|reflexivity].
    destruct (slice_prefix (dict_get (tag_15min condition_id f) "slug" (PyStr "N/A")));
      reflexivity.
  - cbn [fst snd option_list]. rewrite app_nil_r.
    unfold bind at 2, lift at 1.
    destruct (slice_prefix (dict_get m "question" (PyStr "Unknown"))); [|reflexivity].
    cbn [ret]. destruct (is_15min_interval_market condition_id) eqn:E15; [reflexivity|].
    unfold bind at 1, lift at 1.
    destruct (_format_market rt m) as [f|e] eqn:Ef; [|reflexivity].
    pose proof (format_market_active _ _ condition_id Ef) as Hact.
    unfold tag_15min in Hact. rewrite E15, Ea in Hact. rewrite Hact. reflexivity.
Qed.

Lemma featured_loop_run (identifiers : list string) (featured : list pydict) (w : world) :
  for_fold identifiers (featured_step gamma clock rt) featured w
  = (Ok (featured
         ++ fst (fst (resolve_batch (resolve_identifier gamma clock rt) identifiers w)))%list,
     snd (resolve_batch (resolve_identifier gamma clock rt) identifiers w)).
Proof.
  revert featured w. induction identifiers as [|c rest IH]; intros featured w.
  - cbn. rewrite app_nil_r. reflexivity.
  - cbn [for_fold resolve_batch]. unfold bind at 1. rewrite featured_step_run.
    destruct (resolve_identifier gamma clock rt c w) as [r w1]. cbn [fst snd]. rewrite IH.
    destruct (resolve_batch (resolve_identifier gamma clock rt) rest w1)
      as [[resolved misses] w2].
    cbn [fst snd]. destruct r; cbn [option_list fst snd].
    + rewrite <- app_assoc. reflexivity.
    + rewrite app_nil_r. reflexivity.
Qed.

Lemma report_run (featured : list pydict) :
  report_ok featured = true -> rfor_fold featured report_step tt = Ok tt.
Proof.
  induction featured as [|m r IH]; [reflexivity|].
  unfold report_ok. cbn [forallb]. intros H.
  apply andb_true_iff in H as [Hm Hr]. apply andb_true_iff in Hm as [Hc Hq].
  cbn [rfor_fold]. unfold report_step at 1.
  apply slice_prefix_sliceable in Hc, Hq. rewrite Hc. cbn [rbind]. rewrite Hq.
  cbn [rbind]. apply IH. exact Hr.
Qed.

(** No exception leaves the batch call, whatever the identifiers and
    whatever the service does. *)
Lemma get_featured_markets_total (featured_conditions : list string) (limit : Z) (w : world) :
  exists l w',
    get_featured_markets gamma clock simplified_markets rt featured_conditions limit w
    = (Ok l, w').
Proof.
  unfold get_featured_markets. apply try_except_total.
  intros e w0. eexists; eexists; reflexivity.
Qed.

Lemma featured_batch_run (featured_conditions : list string) (limit : Z) (w : world) :
  featured_conditions <> [] ->
  report_ok (fst (fst (resolve_batch (resolve_identifier gamma clock rt)
                                     featured_conditions w))) = true ->
  get_featured_markets gamma clock simplified_markets rt featured_conditions limit w
  = (Ok (fst (fst (resolve_batch (resolve_identifier gamma clock rt)
                                 featured_conditions w))),
     snd (resolve_batch (resolve_identifier gamma clock rt) featured_conditions w)).
Proof.
  intros Hne Hrep. unfold get_featured_markets, try_except.
  destruct featured_conditions as [|c rest]; [contradiction|].
  unfold bind at 1. rewrite featured_loop_run.
  destruct (resolve_batch (resolve_identifier gamma clock rt) (c :: rest) w)
    as [[resolved misses] w'].
  cbn [fst snd app] in *. destruct resolved as [|m ms]; [reflexivity|].
  unfold bind, lift. change ([] ++ m :: ms)%list with (m :: ms).
  rewrite (report_run _ Hrep). reflexivity.
Qed.




End BatchFacts.


(** Three identifiers, the second unknown to the service: the two markets
    come back in their order, and the second identifier is the one miss. *)
Example batch_partial_failure :
  fst (get_featured_markets gamma_two_markets clock_1761921650 no_simplified_markets
         scenario_runtime three_identifiers 4 fresh_world)
  = Ok [formatted_dict market_btc_100k (PyStr "0x1a2b")
          [token "101" "Yes" 0.625%float; token "102" "No" 0.375%float];
        formatted_dict market_fed_cut (PyStr "0x3c4d")
          [token "101" "Yes" 0.625%float; token "102" "No" 0.375%float]]
  /\ snd (fst (resolve_batch resolve_scenario three_identifiers fresh_world))
     = ["no-such-market"].
Proof. split; vm_compute; reflexivity. Qed.


(** With no identifier configured the call lists the popular markets of the
    CLOB client instead. *)
Example empty_batch_lists_popular_markets :
  fst (get_featured_markets gamma_404 clock_1761921650
         (fun _ => Some (PyDict [("data", PyList [PyDict market_btc_100k])]))
         scenario_runtime [] 4 fresh_world)
  = Ok [formatted_dict market_btc_100k (PyStr "0x1a2b")
          [token "101" "Yes" 0.625%float; token "102" "No" 0.375%float]].
Proof. vm_compute. reflexivity. Qed.

(** An entry whose [question] is null passes the loop, since it comes by the
    condition-id lookup, and makes the final report raise: the handler of
    the whole call then returns the empty list, the entry resolved before
    it included. *)
Example batch_dropped_by_report :
  fst (get_featured_markets
         (fun _ q =>
            match q with
            | GetMarketsByConditionIds _ =>
                Reply {| status_code := 200;
                         json_body := Some (PyList [PyDict [("question", PyNone)]]) |}
            | _ => gamma_two_markets [] q
            end)
         clock_1761921650 no_simplified_markets scenario_runtime
         ["will-btc-close-above-100k"; "0xdead"] 4 fresh_world)
  = Ok [].
Proof. vm_compute. reflexivity. Qed.

(** * clob_client.py: normalization *)

(** In a canonical market [slug] and [eventSlug] are empty together. *)
Lemma formatted_slugs_alike (market : pydict) (cid : py) (tokens : list py) :
  truthy (dict_get (formatted_dict market cid tokens) "slug" PyNone)
  = truthy (dict_get (formatted_dict market cid tokens) "eventSlug" PyNone).
Proof.
  change (dict_get (formatted_dict market cid tokens) "slug" PyNone)
    with (py_or (dict_get market "slug" PyNone) (dict_get market "eventSlug" (PyStr ""))).
  change (dict_get (formatted_dict market cid tokens) "eventSlug" PyNone)
    with (py_or (dict_get market "eventSlug" PyNone) (dict_get market "slug" (PyStr ""))).
  unfold py_or, dict_get.
  destruct (dict_lookup market "slug") as [s|], (dict_lookup market "eventSlug") as [e|];
    cbn [truthy String.eqb negb];
    repeat match goal with
           | |- context [if truthy ?v then _ else _] => destruct (truthy v) eqn:?
           end; cbn [truthy String.eqb negb]; congruence.
Qed.

Section FormatFacts.

Variable rt : PyRuntime.

Lemma gamma_tokens_canonical (market : pydict) (outcome_list : py)
    (token_ids : list string) (i : nat) (acc tokens : list py) :
  gamma_tokens rt market outcome_list i token_ids acc = Ok tokens ->
  Forall canonical_token acc -> Forall canonical_token tokens.
Proof.
  revert i acc. induction token_ids as [|tid rest IH]; intros i acc; cbn [gamma_tokens].
  - intros [= <-] H. exact H.
  - destruct (outcome_at outcome_list i) as [outcome|]; cbn [rbind]; [|discriminate].
    intros H Hacc. apply (IH _ _ H). apply Forall_app. split; [exact Hacc|].
    constructor; [|constructor]. repeat eexists.
Qed.

Lemma clob_token_canonical (t : py) (acc tokens : list py) :
  clob_token rt t acc = Ok tokens ->
  Forall canonical_token acc -> Forall canonical_token tokens.
Proof.
  unfold clob_token. destruct t as [ | | | |s|l|t]; try (intros [= <-] H; exact H).
  - intros [= <-] H. apply Forall_app. split; [exact H|].
    constructor; [|constructor]. repeat eexists.
  - destruct (py_float rt (dict_get t "price" (PyFloat 0.5))) as [p|]; cbn [rbind];
      [|discriminate].
    intros [= <-] H. apply Forall_app. split; [exact H|].
    constructor; [|constructor]. repeat eexists.
Qed.

Lemma clob_tokens_canonical (items acc tokens : list py) :
  rfor_fold items (clob_token rt) acc = Ok tokens ->
  Forall canonical_token acc -> Forall canonical_token tokens.
Proof.
  revert acc. induction items as [|t rest IH]; intros acc; cbn [rfor_fold].
  - intros [= <-] H. exact H.
  - destruct (clob_token rt t acc) as [acc'|] eqn:E; cbn [rbind]; [|discriminate].
    intros H Hacc. apply (IH _ H). exact (clob_token_canonical _ _ _ E Hacc).
Qed.

(** The structured-array path gives canonical tokens back as they are. *)
Lemma clob_tokens_refeed (tokens acc : list py) :
  Forall canonical_token tokens ->
  rfor_fold tokens (clob_token rt) acc = Ok (acc ++ tokens)%list.
Proof.
  intros H. revert acc. induction H as [|t rest Ht Hrest IH]; intros acc.
  - cbn. rewrite app_nil_r. reflexivity.
  - destruct Ht as (a & b & p & w0 & ->). cbn [rfor_fold].
    change (clob_token rt (token_dict a b p w0) acc)
      with (Ok (acc ++ [token_dict a b p w0])%list : result (list py)).
    cbn [rbind]. rewrite IH, <- app_assoc. reflexivity.
Qed.

(** The shape of every canonical market. *)
Lemma format_market_shape (market c : pydict) :
  _format_market rt market = Ok c ->
  exists tokens,
    Forall canonical_token tokens
    /\ warn_no_tokens tokens (dict_get market "condition_id" (PyStr "")) = Ok tt
    /\ c = formatted_dict market (dict_get market "condition_id" (PyStr "")) tokens.
Proof.
  unfold _format_market.
  match goal with
  | |- context [if ?c then ?a else ?b] => destruct (if c then a else b) as [tokens|] eqn:E
  end; cbn [rbind]; [|discriminate].
  destruct (warn_no_tokens tokens _) as [[]|] eqn:Ew; cbn [rbind]; [|discriminate].
  intros [= <-]. exists tokens. split; [|split; [exact Ew|reflexivity]].
  destruct (truthy (dict_get market "clobTokenIds" (PyStr ""))).
  - apply (gamma_tokens_canonical _ _ _ _ _ _ E). constructor.
  - destruct (truthy (dict_get market "tokens" PyNone)).
    + destruct (py_iter (dict_get market "tokens" (PyList []))) as [items|];
        cbn [rbind] in E; [|discriminate].
      apply (clob_tokens_canonical _ _ _ E). constructor.
    + injection E as <-. constructor.
Qed.

Lemma format_market_canonical (market : pydict) (cid : py) (tokens : list py) :
  Forall canonical_token tokens ->
  warn_no_tokens tokens cid = Ok tt ->
  _format_market rt (formatted_dict market cid tokens)
  = Ok (refed (formatted_dict market cid tokens)).
Proof.
  intros Htok Hwarn. unfold _format_market.
  change (dict_get (formatted_dict market cid tokens) "clobTokenIds" (PyStr ""))
    with (PyStr "").
  change (dict_get (formatted_dict market cid tokens) "condition_id" (PyStr "")) with cid.
  change (dict_get (formatted_dict market cid tokens) "tokens" PyNone) with (PyList tokens).
  change (dict_get (formatted_dict market cid tokens) "tokens" (PyList []))
    with (PyList tokens).
  cbn [truthy String.eqb negb].
  assert (Htokens :
    (if match tokens with [] => false | _ :: _ => true end
     then items <~ py_iter (PyList tokens) ;; rfor_fold items (clob_token rt) []
     else Ok []) = Ok tokens).
  { destruct tokens as [|t ts]; [reflexivity|]. cbn [py_iter rbind].
    apply (clob_tokens_refeed (t :: ts) [] Htok). }
  cbn [truthy] in *. rewrite Htokens. cbn [rbind]. rewrite Hwarn. cbn [rbind].
  reflexivity.
Qed.

(** C8, as amended.  For every canonical market [c] produced by
    normalization, normalizing [c] again, which takes the structured-array
    path, raises nothing and yields [c] with its end date reset to the empty
    string (the normalizer reads [end_date_iso] and [endDate], and writes
    [end_date]) and with [slug] and [eventSlug] each falling back on the
    other; every other field, the tokens included, is identical.  So the
    second normalization returns [c] itself exactly when the end date of
    [c] is empty and its slug is non-empty or equal to its [eventSlug]. *)
Theorem format_market_refeed (market c : pydict) :
  _format_market rt market = Ok c ->
  _format_market rt c = Ok (refed c)
  /\ (forall k d, k <> "end_date" -> k <> "slug" -> k <> "eventSlug" ->
        dict_get (refed c) k d = dict_get c k d)
  /\ dict_get (refed c) "end_date" PyNone = PyStr ""
  /\ (_format_market rt c = Ok c
      <-> dict_get c "end_date" PyNone = PyStr ""
          /\ (truthy (dict_get c "slug" PyNone) = true
              \/ dict_get c "slug" PyNone = dict_get c "eventSlug" PyNone)).
Proof.
  intros H. destruct (format_market_shape _ _ H) as (tokens & Htok & Hwarn & ->).
  set (cid := dict_get market "condition_id" (PyStr "")) in *.
  pose proof (format_market_canonical market cid tokens Htok Hwarn) as Hre.
  pose proof (formatted_slugs_alike market cid tokens) as Halike.
  split; [exact Hre|]. split; [|split; [reflexivity|]].
  - intros k d Hend Hslug Hevent.
    unfold refed, formatted_dict, dict_get. cbn [dict_set String.eqb Ascii.eqb Bool.eqb].
    cbn [dict_lookup].
    destruct (String.eqb_spec "end_date" k) as [E|_]; [congruence|].
    destruct (String.eqb_spec "slug" k) as [E|_]; [congruence|].
    destruct (String.eqb_spec "eventSlug" k) as [E|_]; [congruence|].
    reflexivity.
  - rewrite Hre.
    set (c := formatted_dict market cid tokens) in *.
    assert (Hfix : refed c = c
                   <-> dict_get c "end_date" PyNone = PyStr ""
                       /\ py_or (dict_get c "slug" PyNone) (dict_get c "eventSlug" PyNone)
                          = dict_get c "slug" PyNone
                       /\ py_or (dict_get c "eventSlug" PyNone) (dict_get c "slug" PyNone)
                          = dict_get c "eventSlug" PyNone).
    { subst c. split.
      - unfold refed, formatted_dict.
        cbn [dict_set String.eqb Ascii.eqb Bool.eqb dict_get dict_lookup].
        intros [= E1 E2 E3]. repeat split; congruence.
      - unfold refed, formatted_dict, dict_get.
        cbn [dict_set String.eqb Ascii.eqb Bool.eqb dict_lookup].
        intros (E1 & E2 & E3). rewrite E2, E3, E1. reflexivity. }
    split.
    + intros E. assert (E' : refed c = c) by congruence.
      apply Hfix in E' as (E1 & E2 & E3). split; [exact E1|].
      unfold py_or in E2. destruct (truthy (dict_get c "slug" PyNone)); [left; reflexivity|].
      right. symmetry. exact E2.
    + intros (E1 & E2). f_equal. apply Hfix. split; [exact E1|].
      unfold py_or. rewrite <- Halike.
      destruct (truthy (dict_get c "slug" PyNone)) eqn:Es.
      * split; reflexivity.
      * destruct E2 as [E2|E2]; [discriminate|]. split; congruence.
Qed.
(** C4, the input that breaks it: a record of the structured-array shape
    whose second token has a null price.  Normalization raises on it, where
    the claim has the price fall back on its default and both tokens kept. *)
Theorem format_market_raises_on_token_price :
  _format_market rt market_null_price = Raise TypeError.
Proof. reflexivity. Qed.

(** The same holds of a price that is a string [float] cannot read. *)
Lemma format_market_string_price (t : pydict) (s : string) :
  float_of_str rt s = None ->
  clob_token rt (PyDict (("price", PyStr s) :: t)) [] = Raise ValueError.
Proof. intros H. unfold clob_token. cbn. rewrite H. reflexivity. Qed.

(** The delimited-string path does what the claim says: on the same record
    in that shape the price that cannot be read falls back on 0.5 and both
    tokens are kept. *)
Lemma format_market_gamma_price_degrades :
  _format_market rt market_null_price_gamma
  = Ok (formatted_dict market_null_price_gamma (PyStr "0x1a2b")
          [token "101" "Yes" 0.625%float; token "102" "No" 0.5%float]).
Proof. reflexivity. Qed.

(** Two token ids and neither outcomes nor prices: the tokens are "Yes" and
    "No" at 0.5 each. *)
Lemma format_market_default_filling :
  _format_market rt market_two_token_ids
  = Ok (formatted_dict market_two_token_ids (PyStr "")
          [token "101" "Yes" 0.5%float; token "102" "No" 0.5%float]).
Proof. reflexivity. Qed.

(** Whenever normalization returns, the tokens of its result are a
    sequence, empty at worst. *)
Lemma format_market_tokens_list (market c : pydict) :
  _format_market rt market = Ok c ->
  exists tokens, dict_get c "tokens" PyNone = PyList tokens.
Proof.
  intros H. destruct (format_market_shape _ _ H) as (tokens & _ & _ & ->).
  exists tokens. reflexivity.
Qed.

End FormatFacts.

(** C8, the input that refutes it: a raw record with an end date.  Its
    canonical market keeps the date; the canonical market of that canonical
    market has lost it. *)
Lemma format_market_refeed_differs :
  (forall rt, _format_market rt market_with_end_date
              = Ok (formatted_dict market_with_end_date (PyStr "") []))
  /\ (forall rt, _format_market rt (formatted_dict market_with_end_date (PyStr "") [])
                 = Ok (refed (formatted_dict market_with_end_date (PyStr "") [])))
  /\ dict_get (formatted_dict market_with_end_date (PyStr "") []) "end_date" PyNone
     = PyStr "2025-10-31T15:00:00Z"
  /\ dict_get (refed (formatted_dict market_with_end_date (PyStr "") [])) "end_date" PyNone
     = PyStr ""
  /\ refed (formatted_dict market_with_end_date (PyStr "") [])
     <> formatted_dict market_with_end_date (PyStr "") [].
Proof.
  split; [reflexivity|]. split; [reflexivity|]. split; [reflexivity|].
  split; [reflexivity|]. vm_compute. discriminate.
Qed.

Lemma format_market_refeed_witness :
  _format_market scenario_runtime
    (formatted_dict market_btc_100k (PyStr "0x1a2b")
       [token "101" "Yes" 0.625%float; token "102" "No" 0.375%float])
  = Ok (refed (formatted_dict market_btc_100k (PyStr "0x1a2b")
                 [token "101" "Yes" 0.625%float; token "102" "No" 0.375%float]))
  /\ dict_get (refed (formatted_dict market_btc_100k (PyStr "0x1a2b")
                       [token "101" "Yes" 0.625%float; token "102" "No" 0.375%float]))
              "question" PyNone
     = PyStr "Will BTC close above 100k?".
Proof.
  destruct (format_market_refeed scenario_runtime market_btc_100k
              (formatted_dict market_btc_100k (PyStr "0x1a2b")
                 [token "101" "Yes" 0.625%float; token "102" "No" 0.375%float]))
    as (H1 & H2 & _).
  - reflexivity.
  - split; [exact H1|]. rewrite H2; [reflexivity|discriminate|discriminate|discriminate].
Defined.

(** * More about strings *)

Lemma append_assoc (a b c : string) : (a ++ b) ++ c = a ++ (b ++ c).
Proof. induction a as [|x r IH]; simpl; [reflexivity|]. rewrite IH. reflexivity. Qed.

Lemma lower_char_idempotent (c : ascii) : lower_char (lower_char c) = lower_char c.
Proof. destruct c as [[] [] [] [] [] [] [] []]; reflexivity. Qed.

Lemma lower_idempotent (s : string) : lower (lower s) = lower s.
Proof.
  induction s as [|c r IH]; simpl; [reflexivity|].
  rewrite lower_char_idempotent, IH. reflexivity.
Qed.

Lemma prefix_app (p s : string) : String.prefix p (p ++ s) = true.
Proof.
  induction p as [|c r IH]; simpl; [destruct s; reflexivity|].
  rewrite IH. destruct (ascii_dec c c); [reflexivity|contradiction].
Qed.

Lemma contains_app (sub a b : string) : contains sub (a ++ sub ++ b) = true.
Proof.
  induction a as [|c r IH].
  - simpl. destruct (sub ++ b) eqn:E; cbn [contains]; rewrite <- E, prefix_app; reflexivity.
  - cbn [append contains]. rewrite IH. apply orb_true_r.
Qed.

(** A prefix of the lower-case form of [s] is the lower-case form of a
    prefix of [s]. *)
Lemma prefix_lower_inv (sub s : string) :
  String.prefix sub (lower s) = true -> exists t b, s = t ++ b /\ lower t = sub.
Proof.
  revert s. induction sub as [|c sub IH]; intros s H.
  - exists "", s. split; reflexivity.
  - destruct s as [|x r]; [discriminate H|]. cbn [lower prefix] in H.
    destruct (ascii_dec c (lower_char x)) as [->|]; [|discriminate H].
    destruct (IH r H) as (t & b & -> & <-).
    exists (String x t), b. split; reflexivity.
Qed.

Lemma contains_lower_inv (sub s : string) :
  contains sub (lower s) = true -> exists a t b, s = a ++ t ++ b /\ lower t = sub.
Proof.
  induction s as [|x r IH]; intros H.
  - cbn [lower contains] in H. rewrite orb_false_r in H.
    destruct (prefix_lower_inv sub "" H) as (t & b & E & L).
    exists "", t, b. split; assumption.
  - cbn [lower contains] in H. apply orb_true_iff in H as [H|H].
    + destruct (prefix_lower_inv sub (String x r) H) as (t & b & E & L).
      exists "", t, b. split; assumption.
    + destruct (IH H) as (a & t & b & -> & L).
      exists (String x a), t, b. split; [reflexivity|exact L].
Qed.

Section JoinFacts.

Variable sep : ascii.

(** [sep.join(s.split(sep))] is [s]. *)
Lemma join_split (s : string) : join (String sep EmptyString) (split sep s) = s.
Proof.
  induction s as [|c r IH]; [reflexivity|].
  cbn [split]. destruct (Ascii.eqb c sep) eqn:E.
  - apply Ascii.eqb_eq in E. subst c.
    pose proof (split_nonempty sep r) as Hne.
    destruct (split sep r) as [|p ps] eqn:Es; [contradiction|].
    rewrite join_cons2, IH. reflexivity.
  - destruct (split sep r) as [|p ps] eqn:Es.
    + exfalso. exact (split_nonempty sep r Es).
    + destruct ps as [|q qs].
      * simpl in IH. simpl. rewrite IH. reflexivity.
      * rewrite join_cons2 in IH. rewrite join_cons2. simpl. rewrite <- IH. reflexivity.
Qed.

Lemma join_snoc (parts : list string) (x : string) :
  parts <> [] ->
  join (String sep EmptyString) (parts ++ [x])
  = join (String sep EmptyString) parts ++ String sep x.
Proof.
  induction parts as [|p ps IH]; [contradiction|]. intros _.
  destruct ps as [|q qs].
  - reflexivity.
  - change ((p :: q :: qs) ++ [x])%list with (p :: (q :: qs) ++ [x])%list.
    change ((q :: qs) ++ [x])%list with (q :: (qs ++ [x]))%list.
    rewrite !join_cons2.
    change (q :: (qs ++ [x]))%list with ((q :: qs) ++ [x])%list.
    rewrite IH by discriminate.
    rewrite !append_assoc. reflexivity.
Qed.

(** A string is what precedes its last segment, which ends in the separator
    unless it is empty, followed by that segment. *)
Lemma split_last_segment (s : string) :
  exists p, s = p ++ last (split sep s) EmptyString
            /\ (p = EmptyString \/ exists q, p = q ++ String sep EmptyString).
Proof.
  pose proof (join_split s) as J.
  pose proof (split_nonempty sep s) as Hne.
  rewrite (app_removelast_last EmptyString Hne) in J.
  destruct (removelast (split sep s)) as [|x xs] eqn:E.
  - exists EmptyString. split; [|left; reflexivity]. simpl in J. symmetry. exact J.
  - rewrite join_snoc in J by discriminate.
    exists (join (String sep EmptyString) (x :: xs) ++ String sep EmptyString). split.
    + rewrite append_assoc. symmetry. exact J.
    + right. eexists. reflexivity.
Qed.

End JoinFacts.

Lemma lstrip_all_chars (p : ascii -> bool) (s : string) :
  all_chars p s = true -> all_chars p (lstrip s) = true.
Proof.
  induction s as [|c r IH]; [reflexivity|]. cbn [lstrip].
  destruct (isspace_char c); [|auto]. cbn [all_chars]. intros H.
  apply andb_true_iff in H as [_ H]. auto.
Qed.

Lemma rstrip_all_chars (p : ascii -> bool) (s : string) :
  all_chars p s = true -> all_chars p (rstrip s) = true.
Proof.
  induction s as [|c r IH]; [reflexivity|]. cbn [rstrip all_chars]. intros H.
  apply andb_true_iff in H as [Hc Hr]. specialize (IH Hr).
  destruct (rstrip r) as [|c' r'].
  - destruct (isspace_char c); [reflexivity|]. cbn [all_chars]. rewrite Hc. reflexivity.
  - cbn [all_chars] in *. rewrite Hc, IH. reflexivity.
Qed.

Lemma strip_all_chars (p : ascii -> bool) (s : string) :
  all_chars p s = true -> all_chars p (strip s) = true.
Proof. intros H. unfold strip. apply lstrip_all_chars, rstrip_all_chars, H. Qed.

Lemma length_string_of_list_ascii (l : list ascii) :
  String.length (string_of_list_ascii l) = List.length l.
Proof. induction l as [|c r IH]; simpl; [reflexivity|]. rewrite IH. reflexivity. Qed.

(** ** Numbers in strings *)

Lemma uint_of_string_decimal (d : string) (u : uint) :
  NilEmpty.uint_of_string d = Some u -> all_chars is_decimal_char d = true.
Proof.
  revert u. induction d as [|c r IH]; intros u H; [reflexivity|].
  cbn [NilEmpty.uint_of_string] in H. cbn [all_chars].
  destruct (NilEmpty.uint_of_string r) as [v|] eqn:E.
  - rewrite (IH v eq_refl), andb_true_r.
    destruct c as [[] [] [] [] [] [] [] []]; first [reflexivity | discriminate H].
  - destruct c as [[] [] [] [] [] [] [] []]; discriminate H.
Qed.

Lemma int_of_str_nonneg (d : string) (n : Z) : int_of_str d = Some n -> 0 <= n.
Proof.
  unfold int_of_str. destruct (NilEmpty.uint_of_string d) as [u|]; [|discriminate].
  intros [= <-]. unfold Z.of_uint. lia.
Qed.

Lemma str_of_int_neg (t : Z) : t < 0 -> str_of_int t = "-" ++ str_of_int (- t).
Proof. intros Ht. destruct t as [|p|p]; try lia. reflexivity. Qed.

(** * utils.py: the next window, timestamps in slugs, the 15-minute marker *)

(** X1.  At every clock instant the start of the next window, as
    [get_next_15min_timestamp] computes it, is a multiple of 900 seconds,
    lies strictly after the instant and at most 900 seconds after it, is the
    current window of the instant 15 minutes later, and is the start of its
    own window. *)
Theorem next_window_is_window_later (now : Z) :
  get_next_15min_timestamp now mod 900 = 0
  /\ now < get_next_15min_timestamp now * 1000000 <= now + 900000000
  /\ get_next_15min_timestamp now = get_current_15min_timestamp (now + 900000000)
  /\ get_current_15min_timestamp (get_next_15min_timestamp now * 1000000)
     = get_next_15min_timestamp now.
Proof.
  unfold get_next_15min_timestamp. rewrite !current_window_value.
  repeat split; floor_arith.
Qed.

(** X2.  Whenever [extract_timestamp_from_slug] returns a timestamp, the
    timestamp is not negative and the slug ends in a run of decimal digits
    that reads as that number; the run is not empty, and it is the whole
    slug or follows a dash. *)
Theorem extract_timestamp_sound (slug : string) (n : Z) :
  extract_timestamp_from_slug slug = Some n ->
  0 <= n
  /\ exists p d,
       slug = p ++ d
       /\ (p = "" \/ exists q, p = q ++ "-")
       /\ d <> "" /\ all_chars is_decimal_char d = true
       /\ int_of_str d = Some n.
Proof.
  unfold extract_timestamp_from_slug. intros H.
  destruct (split "-" slug) as [|x xs] eqn:E; [discriminate|]. rewrite <- E in H.
  destruct (isdigit (last (split "-" slug) "")) eqn:D; [|discriminate].
  split; [exact (int_of_str_nonneg _ _ H)|].
  destruct (split_last_segment "-" slug) as (p & Hp & Hq).
  exists p, (last (split "-" slug) ""). repeat split; try assumption.
  - intros Z. rewrite Z in D. discriminate.
  - unfold int_of_str in H.
    destruct (NilEmpty.uint_of_string (last (split "-" slug) "")) as [u|] eqn:U;
      [|discriminate].
    exact (uint_of_string_decimal _ _ U).
Qed.

Lemma extract_timestamp_sound_witness :
  0 <= 1761921000
  /\ exists p d, "btc-updown-15m-1761921000" = p ++ d
       /\ (p = "" \/ exists q, p = q ++ "-")
       /\ d <> "" /\ all_chars is_decimal_char d = true
       /\ int_of_str d = Some 1761921000.
Proof.
  apply (extract_timestamp_sound "btc-updown-15m-1761921000" 1761921000). reflexivity.
Defined.

(** Nothing is read off an empty slug or a slug that ends in a dash; a
    slug that is one number is its own timestamp; leading zeros are
    dropped. *)
Example extract_edge_cases :
  extract_timestamp_from_slug "" = None
  /\ extract_timestamp_from_slug "btc-updown-15m-" = None
  /\ extract_timestamp_from_slug "1761921000" = Some 1761921000
  /\ extract_timestamp_from_slug "btc-007" = Some 7.
Proof. repeat split. Qed.

Lemma split_slug_at (base : string) (t : Z) :
  0 <= t -> split "-" (slug_at base t) = (split "-" base ++ [str_of_int t])%list.
Proof.
  intros Ht. unfold slug_at.
  change ("-" ++ str_of_int t) with (String "-" (str_of_int t)).
  rewrite split_app_sep, (split_no_char "-" _ (str_of_int_no_dash t Ht)). reflexivity.
Qed.

Lemma extract_slug_at (base : string) (t : Z) :
  0 <= t -> extract_timestamp_from_slug (slug_at base t) = Some t.
Proof.
  intros Ht. unfold extract_timestamp_from_slug. rewrite (split_slug_at base t Ht).
  rewrite last_last, (str_of_int_isdigit t Ht), (int_of_str_of_int t Ht).
  destruct (split "-" base ++ [str_of_int t])%list eqn:E; [|reflexivity].
  destruct (split "-" base); discriminate E.
Qed.

Lemma base_pattern_slug_at (base : string) (t : Z) :
  0 <= t -> base_pattern_of (slug_at base t) = base.
Proof.
  intros Ht. unfold base_pattern_of. rewrite (split_slug_at base t Ht).
  rewrite last_last, removelast_last, (str_of_int_isdigit t Ht), join_split.
  unfold slug_at. rewrite (contains_app "-" base (str_of_int t)). reflexivity.
Qed.

(** X3.  For every base pattern and every timestamp that is not negative,
    the slug the client builds as base, dash, timestamp gives the timestamp
    back to [extract_timestamp_from_slug] and the base back to the
    stripping at the head of [_fetch_active_market_by_pattern]. *)
Theorem slug_timestamp_round_trip (base : string) (t : Z) :
  0 <= t ->
  extract_timestamp_from_slug (slug_at base t) = Some t
  /\ base_pattern_of (slug_at base t) = base.
Proof.
  intros Ht. split; [apply extract_slug_at|apply base_pattern_slug_at]; exact Ht.
Qed.

Lemma slug_timestamp_round_trip_witness :
  extract_timestamp_from_slug (slug_at "btc-updown-15m" 1761921000) = Some 1761921000
  /\ base_pattern_of (slug_at "btc-updown-15m" 1761921000) = "btc-updown-15m".
Proof. apply (slug_timestamp_round_trip "btc-updown-15m" 1761921000). lia. Defined.

(** The sign of a negative timestamp reads as a second dash: the
    timestamp comes back without it. *)
Example slug_at_negative_loses_sign (base : string) (t : Z) :
  t < 0 -> extract_timestamp_from_slug (slug_at base t) = Some (- t).
Proof.
  intros Ht. unfold slug_at. rewrite (str_of_int_neg t Ht).
  replace (base ++ "-" ++ "-" ++ str_of_int (- t)) with (slug_at (base ++ "-") (- t)).
  - apply extract_slug_at. lia.
  - unfold slug_at. rewrite append_assoc. reflexivity.
Qed.

(** X4.  An identifier is classified as a 15-minute one exactly when it
    contains the marker "-15m-" or starts with "btc-updown-15m" or
    "eth-updown-15m", in any mix of upper and lower case; putting the
    identifier in lower case does not change its class. *)
Theorem interval_market_marker (s : string) :
  (is_15min_interval_market s = true
   <-> (exists a t b, s = a ++ t ++ b /\ lower t = "-15m-")
       \/ (exists t b, s = t ++ b
                       /\ (lower t = "btc-updown-15m" \/ lower t = "eth-updown-15m")))
  /\ is_15min_interval_market (lower s) = is_15min_interval_market s.
Proof.
  split; [split|].
  - unfold is_15min_interval_market, startswith. intros H.
    apply orb_true_iff in H as [H|H]; [apply orb_true_iff in H as [H|H]|].
    + left. exact (contains_lower_inv _ _ H).
    + right. destruct (prefix_lower_inv _ _ H) as (t & b & E & L). exists t, b. auto.
    + right. destruct (prefix_lower_inv _ _ H) as (t & b & E & L). exists t, b. auto.
  - intros [(a & t & b & -> & L) | (t & b & -> & L)].
    + unfold is_15min_interval_market. rewrite !lower_app, L, contains_app. reflexivity.
    + unfold is_15min_interval_market, startswith. rewrite lower_app.
      destruct L as [-> | ->]; rewrite prefix_app; rewrite ?orb_true_r; reflexivity.
  - unfold is_15min_interval_market. rewrite lower_idempotent. reflexivity.
Qed.

Example interval_market_examples :
  is_15min_interval_market "SOL-UpDown-15M-1761921000" = true
  /\ is_15min_interval_market "btc-updown-15minutes" = true
  /\ is_15min_interval_market "0xabc-15m-1" = true
  /\ is_15min_interval_market "sol-updown-15m" = false.
Proof. repeat split. Qed.

(** * clob_client.py: the configured identifiers *)

(** The guard [if featured_env:] changes nothing: the empty string has no
    identifier in it. *)
Lemma featured_conditions_unguarded (featured_env : string) :
  featured_conditions featured_env
  = map strip
        (filter (fun cid => negb (String.eqb (strip cid) EmptyString))
                (split "," featured_env)).
Proof. unfold featured_conditions. destruct featured_env; reflexivity. Qed.

(** X5.  Whatever the value of FEATURED_MARKETS, every identifier the
    constructor keeps is not empty, has no blank at either end and no comma
    in it, so that the [strip] calls further down the cascade leave it as it
    is; and [has_15min_markets] is set exactly when one of the identifiers
    kept is a 15-minute one. *)
Theorem featured_conditions_are_clean (featured_env : string) :
  Forall clean_identifier (featured_conditions featured_env)
  /\ map strip (featured_conditions featured_env) = featured_conditions featured_env
  /\ has_15min_markets featured_env
     = existsb is_15min_interval_market (featured_conditions featured_env).
Proof.
  assert (H : Forall clean_identifier (featured_conditions featured_env)).
  { rewrite featured_conditions_unguarded.
    pose proof (split_parts_no_char "," featured_env) as Hparts.
    induction Hparts as [|p ps Hp Hps IH]; [constructor|].
    cbn [filter]. destruct (negb (String.eqb (strip p) EmptyString)) eqn:E; [|exact IH].
    cbn [map]. constructor; [|exact IH]. repeat split.
    - intros Z. rewrite Z in E. discriminate E.
    - apply strip_idempotent.
    - apply strip_all_chars. exact Hp. }
  split; [exact H|]. split.
  - induction H as [|c r (_ & Hc & _) Hr IH]; [reflexivity|].
    cbn [map]. rewrite Hc, IH. reflexivity.
  - unfold has_15min_markets, featured_conditions. destruct featured_env; reflexivity.
Qed.

(** X6.  A list of identifiers, each of them not empty, without outer
    blanks and without a comma, written to FEATURED_MARKETS with commas
    between them, is read back by the constructor as it was: same
    identifiers, same order. *)
Theorem featured_conditions_round_trip (identifiers : list string) :
  Forall clean_identifier identifiers ->
  featured_conditions (join "," identifiers) = identifiers.
Proof.
  intros H. rewrite featured_conditions_unguarded.
  destruct identifiers as [|c r]; [reflexivity|].
  rewrite split_join.
  - induction H as [|x xs (Hne & Hs & _) Hxs IH]; [reflexivity|].
    cbn [filter]. rewrite Hs.
    destruct (String.eqb_spec x EmptyString) as [->|_]; [contradiction|].
    cbn [negb map]. rewrite Hs, IH. reflexivity.
  - discriminate.
  - apply (Forall_impl _ (P := clean_identifier)); [|exact H].
    intros a (_ & _ & Ha). exact Ha.
Qed.

Lemma featured_conditions_round_trip_witness :
  featured_conditions (join "," ["btc-updown-15m-1761921000"; "0x1a2b"])
  = ["btc-updown-15m-1761921000"; "0x1a2b"].
Proof.
  apply featured_conditions_round_trip.
  repeat constructor; discriminate.
Defined.

(** Blanks around an identifier and empty places between commas are
    dropped. *)
Example featured_conditions_example :
  featured_conditions " btc-updown-15m , ,0x1a2b,," = ["btc-updown-15m"; "0x1a2b"]
  /\ featured_conditions "" = []
  /\ featured_conditions " , " = []
  /\ has_15min_markets " btc-updown-15m , ,0x1a2b,," = true.
Proof. repeat split. Qed.

(** * clob_client.py: more about the fetch cascade *)

Lemma is_active_truthy (m : pydict) :
  truthy (is_active_expr m)
  = truthy (dict_get m "active" (PyBool true))
    && negb (truthy (dict_get m "closed" (PyBool false))).
Proof.
  unfold is_active_expr, py_and, py_not.
  destruct (truthy (dict_get m "active" (PyBool true))) eqn:E; [reflexivity|exact E].
Qed.

Lemma match_step_faithful (base : string) (v : py) (acc acc' : list match_entry) :
  match_step base v acc = Ok acc' ->
  Forall entry_faithful acc -> Forall entry_faithful acc'.
Proof.
  unfold match_step. destruct v as [| | | | |l|d]; try discriminate. cbn [as_dict rbind].
  destruct (negb (truthy (dict_get d "slug" (PyStr "")))) eqn:T.
  - intros [= <-] H. exact H.
  - destruct (dict_get d "slug" (PyStr "")) as [| | | |s| |] eqn:S; try discriminate.
    cbn [as_str rbind].
    destruct (contains (lower base) (lower s) || startswith (lower s) (lower base)).
    + intros [= <-] H. apply Forall_app. split; [exact H|].
      constructor; [|constructor]. split; [reflexivity|].
      cbn [m_market]. intros ->. vm_compute in S.
      injection S as <-. discriminate T.
    + intros [= <-] H. exact H.
Qed.

Lemma matching_markets_faithful (base : string) (listing : list py)
    (acc acc' : list match_entry) :
  rfor_fold listing (match_step base) acc = Ok acc' ->
  Forall entry_faithful acc -> Forall entry_faithful acc'.
Proof.
  revert acc. induction listing as [|v r IH]; intros acc H Hacc.
  - injection H as <-. exact Hacc.
  - cbn [rfor_fold] in H. destruct (match_step base v acc) as [a|e] eqn:E; [|discriminate H].
    cbn [rbind] in H. exact (IH a H (match_step_faithful base v acc a E Hacc)).
Qed.

(** The market the fallback search returns is one of the active entries. *)
Lemma fallback_search_active (base : string) (listing : list py) (m : pydict) :
  fallback_search base listing = Ok (Some m) ->
  truthy (is_active_expr m) = true /\ m <> [].
Proof.
  unfold fallback_search, matching_markets_of.
  destruct (rfor_fold listing (match_step base) []) as [ms|e] eqn:E; [|discriminate].
  cbn [rbind]. pose proof (matching_markets_faithful base listing [] ms E (Forall_nil _)) as F.
  destruct ms as [|x xs]; [discriminate|].
  destruct (filter entry_active (ranked_matches (x :: xs))) as [|best rest] eqn:A;
    [discriminate|].
  intros [= <-].
  assert (Hin : In best (filter entry_active (ranked_matches (x :: xs)))).
  { rewrite A. left. reflexivity. }
  apply filter_In in Hin as [Hin Hact].
  assert (Hin' : In best (x :: xs)).
  { apply (Permutation_in best (sort_reverse_perm rank_key (x :: xs))). exact Hin. }
  rewrite Forall_forall in F. destruct (F best Hin') as [Fa Fm].
  split; [|exact Fm].
  unfold entry_active, py_and in Hact. rewrite <- Fa.
  destruct (truthy (m_active best)) eqn:T; [reflexivity|].
  rewrite T in Hact. discriminate.
Qed.

Lemma listing_result_active (base : string) (r : reply) (m : pydict) :
  listing_result base r = Some m -> truthy (is_active_expr m) = true /\ m <> [].
Proof.
  unfold listing_result. destruct r as [|resp]; [discriminate|].
  destruct (raise_for_status resp); cbn [rbind or_default]; [|discriminate].
  destruct (response_json resp) as [v|]; cbn [rbind or_default]; [|discriminate].
  match goal with |- context [py_len ?x] => destruct (py_len x) end;
    cbn [rbind or_default]; [|discriminate].
  match goal with |- context [py_iter ?x] => destruct (py_iter x) as [items|] end;
    cbn [rbind or_default]; [|discriminate].
  destruct (fallback_search base items) as [[m'|]|] eqn:F; cbn [or_default]; try discriminate.
  intros [= <-]. exact (fallback_search_active base items m' F).
Qed.

Lemma active_market_of_reply_active (r : reply) (m : pydict) :
  active_market_of_reply r = Some m -> truthy (is_active_expr m) = true /\ m <> [].
Proof.
  unfold active_market_of_reply. destruct (market_of_reply r) as [d|]; [|discriminate].
  destruct (truthy_market (Some d) && truthy (is_active_expr d)) eqn:E; [|discriminate].
  intros [= <-]. apply andb_true_iff in E as [Em Ea]. split; [exact Ea|].
  intros ->. discriminate Em.
Qed.

Lemma probes_run_active (gamma : list request -> request -> reply)
    (slugs : list string) (w : world) (m : pydict) :
  fst (probes_run gamma slugs w) = Some m ->
  truthy (is_active_expr m) = true /\ m <> [].
Proof.
  revert w. induction slugs as [|s rest IH]; intros w; cbn [probes_run]; [discriminate|].
  destruct (active_market_of_reply (gamma (sent w) (probe_request s))) as [d|] eqn:E.
  - cbn [fst]. intros [= <-]. exact (active_market_of_reply_active _ _ E).
  - apply IH.
Qed.

Lemma probes_run_clock (gamma : list request -> request -> reply)
    (slugs : list string) (w : world) :
  clock_reads (snd (probes_run gamma slugs w)) = clock_reads w.
Proof.
  revert w. induction slugs as [|s rest IH]; intros w; cbn [probes_run]; [reflexivity|].
  destruct (active_market_of_reply (gamma (sent w) (probe_request s))).
  - reflexivity.
  - rewrite IH. reflexivity.
Qed.

Lemma probes_run_unreachable (gamma : list request -> request -> reply)
    (slugs : list string) (w : world) :
  unreachable gamma -> fst (probes_run gamma slugs w) = None.
Proof.
  intros Hg. revert w. induction slugs as [|s r IH]; intros w; [reflexivity|].
  cbn [probes_run]. rewrite Hg. cbn. apply IH.
Qed.

Lemma dicts_of_records (ds acc : list pydict) :
  rfor_fold (map PyDict ds) (fun m acc => d <~ as_dict m ;; Ok (acc ++ [d])%list) acc
  = Ok (acc ++ ds)%list.
Proof.
  revert acc. induction ds as [|d r IH]; intros acc; cbn [map rfor_fold].
  - rewrite app_nil_r. reflexivity.
  - cbn [as_dict rbind]. rewrite IH, <- app_assoc. reflexivity.
Qed.

Section CascadeFacts.

Variable gamma : list request -> request -> reply.
Variable clock : nat -> Z.

(** X7.  The fetch by slug returns a record exactly when the service
    answers with a status outside 400-599, a body that is a JSON object, and
    a [question] the log line can slice (a string, a list, or none at all);
    the record is returned as it came, active or closed. *)
Theorem fetch_by_slug_returns_record (slug : string) (w : world) (m : pydict) :
  fst (_fetch_market_by_slug gamma slug w) = Ok (Some m)
  <-> exists resp,
        gamma (sent w) (GetMarketBySlug (strip slug)) = Reply resp
        /\ (status_code resp < 400 \/ 600 <= status_code resp)
        /\ json_body resp = Some (PyDict m)
        /\ sliceable (dict_get m "question" (PyStr "Unknown")) = true.
Proof.
  rewrite fetch_market_by_slug_run. cbn [fst]. unfold market_of_reply.
  destruct (gamma (sent w) (GetMarketBySlug (strip slug))) as [|resp].
  - split; [discriminate|]. intros (resp & H & _). discriminate H.
  - destruct (status_code resp =? 404) eqn:E404.
    { apply Z.eqb_eq in E404. split; [discriminate|].
      intros (r & [= <-] & Hs & _). lia. }
    destruct ((400 <=? status_code resp) && (status_code resp <? 600)) eqn:Es.
    { apply andb_true_iff in Es as [E1 E2]. apply Z.leb_le in E1. apply Z.ltb_lt in E2.
      split; [discriminate|]. intros (r & [= <-] & Hs & _). lia. }
    assert (Hs : status_code resp < 400 \/ 600 <= status_code resp).
    { apply andb_false_iff in Es as [E|E]; [apply Z.leb_gt in E|apply Z.ltb_ge in E]; lia. }
    destruct (json_body resp) as [[ | | | | | |d]|] eqn:J;
      try (split; [discriminate|intros (r & [= <-] & _ & Hj & _); congruence]).
    destruct (slice_prefix (dict_get d "question" (PyStr "Unknown"))) as [[]|e] eqn:Q.
    + apply slice_prefix_sliceable in Q. split.
      * intros [= <-]. exists resp. auto.
      * intros (r & [= <-] & _ & Hj & _). rewrite J in Hj. injection Hj as ->. reflexivity.
    + split; [discriminate|]. intros (r & [= <-] & _ & Hj & Hq).
      rewrite J in Hj. injection Hj as ->.
      apply slice_prefix_sliceable in Hq. rewrite Hq in Q. discriminate Q.
Qed.

(** X8.  Whatever the service does, the resolution of a slug pattern
    raises nothing, reads the clock once, and returns either nothing or a
    record that is not empty, whose [active] is true (or missing) and whose
    [closed] is false (or missing): it never returns a closed or inactive
    market, from a probe or from the fallback search. *)
Theorem pattern_resolution_returns_active (slug_pattern : string) (w : world) :
  exists r w',
    _fetch_active_market_by_pattern gamma clock slug_pattern w = (Ok r, w')
    /\ clock_reads w' = S (clock_reads w)
    /\ forall m, r = Some m ->
         truthy (dict_get m "active" (PyBool true)) = true
         /\ truthy (dict_get m "closed" (PyBool false)) = false
         /\ m <> [].
Proof.
  rewrite fetch_active_market_by_pattern_run.
  set (W := get_current_15min_timestamp (clock (clock_reads w))).
  set (base := base_pattern_of slug_pattern).
  pose proof (probes_run_active gamma (probe_slugs base W) (tick w)) as Hp.
  pose proof (probes_run_clock gamma (probe_slugs base W) (tick w)) as Hc.
  destruct (probes_run gamma (probe_slugs base W) (tick w)) as [[m|] w'] eqn:E;
    cbn [fst snd] in Hp, Hc.
  - exists (Some m), w'. split; [reflexivity|]. split; [exact Hc|].
    intros m' [= <-]. destruct (Hp m eq_refl) as [Ha Hm].
    rewrite is_active_truthy in Ha. apply andb_true_iff in Ha as [Ha Hcl].
    apply negb_true_iff in Hcl. auto.
  - eexists _, _. split; [reflexivity|]. split; [exact Hc|].
    intros m Hm. destruct (listing_result_active _ _ _ Hm) as [Ha Hne].
    rewrite is_active_truthy in Ha. apply andb_true_iff in Ha as [Ha Hcl].
    apply negb_true_iff in Hcl. auto.
Qed.

(** X9.  The resolution of a slug pattern does not depend on the timestamp
    the pattern ends in: two patterns made of the same base and of any two
    timestamps that are not negative send the same requests and return the
    same result. *)
Theorem pattern_resolution_ignores_timestamp (base : string) (t t' : Z) (w : world) :
  0 <= t -> 0 <= t' ->
  _fetch_active_market_by_pattern gamma clock (slug_at base t) w
  = _fetch_active_market_by_pattern gamma clock (slug_at base t') w.
Proof.
  intros Ht Ht'. unfold _fetch_active_market_by_pattern.
  rewrite (base_pattern_slug_at base t Ht), (base_pattern_slug_at base t' Ht').
  reflexivity.
Qed.

(** X10.  When the service answers the condition-id query with status 200
    and a list of records, the lookup returns the first record of the list
    that is active and not closed, and the first record of all when none is;
    an object is returned as it is; any status other than 200 gives
    nothing. *)
Theorem condition_id_lookup_prefers_active (identifier_clean : string) (w : world)
    (resp : response) :
  gamma (sent w) (GetMarketsByConditionIds identifier_clean) = Reply resp ->
  (forall ds, status_code resp = 200 -> json_body resp = Some (PyList (map PyDict ds)) ->
     condition_id_lookup gamma identifier_clean w
     = (Ok (match find (fun d => truthy (is_active_expr d)) ds with
            | Some m => Some m
            | None => hd_error ds
            end),
        send (GetMarketsByConditionIds identifier_clean) w))
  /\ (forall d, status_code resp = 200 -> json_body resp = Some (PyDict d) ->
        fst (condition_id_lookup gamma identifier_clean w) = Ok (Some d))
  /\ (status_code resp <> 200 ->
      fst (condition_id_lookup gamma identifier_clean w) = Ok None).
Proof.
  intros Hr. split; [|split].
  - intros ds Hs Hj.
    unfold condition_id_lookup, try_except, bind at 1, requests_get.
    rewrite Hr, Hs. cbn [Z.eqb Pos.eqb].
    unfold bind, lift, response_json. rewrite Hj.
    destruct ds as [|d ds]; [reflexivity|].
    pose proof (dicts_of_records (d :: ds) []) as Hds. cbn [map app] in Hds |- *.
    rewrite Hds. change (([] : list pydict) ++ d :: ds)%list with (d :: ds).
    rewrite <- find_filter.
    destruct (filter (fun d0 => truthy (is_active_expr d0)) (d :: ds)); reflexivity.
  - intros d Hs Hj.
    unfold condition_id_lookup, try_except, bind at 1, requests_get.
    rewrite Hr, Hs. cbn [Z.eqb Pos.eqb].
    unfold bind, lift, response_json. rewrite Hj. reflexivity.
  - intros Hs. apply Z.eqb_neq in Hs.
    unfold condition_id_lookup, try_except, bind at 1, requests_get.
    rewrite Hr, Hs. reflexivity.
Qed.

(** The requests of a pattern resolution: at most five probes and the
    listing. *)
Lemma pattern_requests (slug_pattern : string) (w : world) :
  exists r reqs,
    _fetch_active_market_by_pattern gamma clock slug_pattern w
    = (Ok r, {| sent := sent w ++ reqs; clock_reads := S (clock_reads w) |})
    /\ (1 <= List.length reqs <= 6)%nat.
Proof.
  rewrite fetch_active_market_by_pattern_run.
  set (W := get_current_15min_timestamp (clock (clock_reads w))).
  set (base := base_pattern_of slug_pattern).
  destruct (probes_run_trace gamma (probe_slugs base W) (tick w)) as (k & Hk & Hw & _ & Hr).
  destruct (probes_run gamma (probe_slugs base W) (tick w)) as [[m|] w'] eqn:E;
    cbn [fst snd] in Hw, Hr; subst w'.
  - destruct Hr as [Hk1 _].
    exists (Some m), (firstn k (map probe_request (probe_slugs base W))).
    split; [reflexivity|]. rewrite length_firstn, length_map.
    change (List.length (probe_slugs base W)) with 5%nat in *. lia.
  - destruct Hr as [-> _].
    eexists _, (firstn (List.length (probe_slugs base W))
                       (map probe_request (probe_slugs base W)) ++ [GetMarkets 500])%list.
    split.
    + unfold send. cbn [sent clock_reads tick]. rewrite <- app_assoc. reflexivity.
    + rewrite length_app, length_firstn, length_map.
      change (List.length (probe_slugs base W)) with 5%nat. cbn. lia.
Qed.

(** The cascade is the pattern resolution, for a 15-minute identifier, and
    the direct lookup after it. *)
Lemma fetch_cascade_unfold (identifier : string) (w : world) :
  _fetch_market_by_slug_or_condition_id gamma clock identifier w
  = try_except
      (hit <- (if is_15min_interval_market (strip identifier) then
                 market <- _fetch_active_market_by_pattern gamma clock (strip identifier) ;;
                 if truthy_market market then ret market else ret None
               else ret None) ;;
       match hit with
       | Some market => ret (Some market)
       | None => direct_lookup gamma (strip identifier)
       end)
      (fun _ => ret None) w.
Proof.
  unfold _fetch_market_by_slug_or_condition_id, direct_lookup, try_except.
  match goal with |- match ?x with _ => _ end = _ => destruct x as [[r|e] w'] end;
    [reflexivity|destruct e; reflexivity].
Qed.

Lemma direct_lookup_run (sid : string) (w : world) :
  strip sid = sid ->
  exists r reqs,
    direct_lookup gamma sid w
    = (Ok r, {| sent := sent w ++ reqs; clock_reads := clock_reads w |})
    /\ (1 <= List.length reqs <= 2)%nat.
Proof.
  intros Hs. unfold direct_lookup. cbv zeta.
  destruct (contains "-" sid && negb (startswith sid "0x")).
  - unfold bind at 1. rewrite fetch_market_by_slug_run, !Hs.
    set (market := market_of_reply (gamma (sent w) (GetMarketBySlug sid))).
    cbn [andb].
    match goal with |- context [if ?c then ret market else _] => destruct c end.
    + exists market, [GetMarketBySlug sid]. split; [reflexivity|cbn; lia].
    + match goal with
      | |- context [if ?c then condition_id_lookup _ _ else _] => destruct c
      end.
      * destruct (condition_id_lookup_run gamma sid (send (GetMarketBySlug sid) w))
          as [r Hr].
        rewrite Hr. exists r, [GetMarketBySlug sid; GetMarketsByConditionIds sid].
        split; [|cbn; lia].
        unfold send. cbn [sent clock_reads]. rewrite <- app_assoc. reflexivity.
      * exists None, [GetMarketBySlug sid]. split; [reflexivity|cbn; lia].
  - unfold bind at 1. cbn [ret andb truthy_market negb orb].
    destruct (condition_id_lookup_run gamma sid w) as [r Hr]. rewrite Hr.
    exists r, [GetMarketsByConditionIds sid]. split; [reflexivity|cbn; lia].
Qed.

(** X11.  An identifier that is not a 15-minute one and either has no dash
    or starts with "0x" (a condition id) is resolved by the condition-id
    query alone: the cascade is that one lookup, on the identifier stripped
    of outer blanks, with no request by slug and no reading of the clock. *)
Theorem identifier_without_slug_lookup (identifier : string) (w : world) :
  is_15min_interval_market (strip identifier) = false ->
  contains "-" (strip identifier) = false \/ startswith (strip identifier) "0x" = true ->
  _fetch_market_by_slug_or_condition_id gamma clock identifier w
  = condition_id_lookup gamma (strip identifier) w.
Proof.
  intros H15 Hs.
  assert (Hslug : contains "-" (strip identifier)
                  && negb (startswith (strip identifier) "0x") = false).
  { destruct Hs as [-> | ->]; [reflexivity|apply andb_false_r]. }
  rewrite fetch_cascade_unfold. unfold try_except, direct_lookup. rewrite H15, Hslug.
  unfold bind at 1. cbn [ret]. unfold bind at 1. cbn [ret andb truthy_market negb orb].
  destruct (condition_id_lookup_run gamma (strip identifier) w) as [r Hr].
  rewrite Hr. reflexivity.
Qed.

(** X12.  The resolution of one identifier never raises and sends at least
    one request; it sends at most two requests and leaves the clock alone
    for an identifier that is not a 15-minute one, and at most eight
    requests (five probes, the listing, the slug, the condition id) with one
    reading of the clock for a 15-minute one. *)
Theorem identifier_request_bound (identifier : string) (w : world) :
  exists r reqs,
    _fetch_market_by_slug_or_condition_id gamma clock identifier w
    = (Ok r,
       {| sent := sent w ++ reqs;
          clock_reads := if is_15min_interval_market (strip identifier)
                         then S (clock_reads w) else clock_reads w |})
    /\ (1 <= List.length reqs
        <= if is_15min_interval_market (strip identifier) then 8 else 2)%nat.
Proof.
  rewrite fetch_cascade_unfold. unfold try_except.
  pose proof (strip_idempotent identifier) as Hs.
  destruct (is_15min_interval_market (strip identifier)).
  - unfold bind at 1. unfold bind at 1.
    destruct (pattern_requests (strip identifier) w) as (r0 & reqs0 & Hp & Hl). rewrite Hp.
    destruct (truthy_market r0) eqn:T.
    + cbn [ret]. destruct r0 as [m|]; [|discriminate T].
      exists (Some m), reqs0. split; [reflexivity|lia].
    + cbn [ret].
      destruct (direct_lookup_run (strip identifier)
                  {| sent := sent w ++ reqs0; clock_reads := S (clock_reads w) |} Hs)
        as (r & reqs & Hr & Hn).
      rewrite Hr. exists r, (reqs0 ++ reqs)%list. split.
      * cbn [sent clock_reads]. rewrite <- app_assoc. reflexivity.
      * rewrite length_app. lia.
  - unfold bind at 1. cbn [ret].
    destruct (direct_lookup_run (strip identifier) w Hs) as (r & reqs & Hr & Hn).
    rewrite Hr. exists r, reqs. split; [reflexivity|lia].
Qed.

End CascadeFacts.

Lemma pattern_resolution_ignores_timestamp_witness :
  _fetch_active_market_by_pattern gamma_next_window clock_1761921650
    (slug_at "btc-updown-15m" 1761920100) fresh_world
  = _fetch_active_market_by_pattern gamma_next_window clock_1761921650
      (slug_at "btc-updown-15m" 1761921000) fresh_world.
Proof. apply pattern_resolution_ignores_timestamp; lia. Defined.

Lemma condition_id_lookup_prefers_active_witness :
  condition_id_lookup gamma_condition_ids "0x1a2b" fresh_world
  = (Ok (Some market_btc_100k), send (GetMarketsByConditionIds "0x1a2b") fresh_world).
Proof.
  destruct (condition_id_lookup_prefers_active gamma_condition_ids "0x1a2b" fresh_world
              {| status_code := 200;
                 json_body := Some (PyList (map PyDict [market_btc_closed; market_btc_100k])) |}
              eq_refl) as (H & _ & _).
  apply (H [market_btc_closed; market_btc_100k]); reflexivity.
Defined.

Lemma identifier_without_slug_lookup_witness :
  _fetch_market_by_slug_or_condition_id gamma_404 clock_1761921650 " 0x1a2b " fresh_world
  = condition_id_lookup gamma_404 (strip " 0x1a2b ") fresh_world.
Proof.
  apply (identifier_without_slug_lookup gamma_404 clock_1761921650 " 0x1a2b " fresh_world).
  - reflexivity.
  - right. reflexivity.
Defined.

(** A 15-minute identifier the service does not know costs eight requests. *)
Example unknown_periodic_identifier_costs_eight :
  List.length (sent (snd (_fetch_market_by_slug_or_condition_id gamma_404 clock_1761921650
                            "btc-updown-15m-1761920100" fresh_world)))
  = 8%nat.
Proof. vm_compute. reflexivity. Qed.

(** * clob_client.py: more about the batch *)

Lemma resolve_batch_Forall (resolve : string -> world -> option pydict * world)
    (P : pydict -> Prop) (identifiers : list string) (w : world) :
  (forall c w0 f, fst (resolve c w0) = Some f -> P f) ->
  Forall P (fst (fst (resolve_batch resolve identifiers w))).
Proof.
  intros HP. revert w. induction identifiers as [|c rest IH]; intros w; [constructor|].
  cbn [resolve_batch]. pose proof (HP c w) as Hc.
  destruct (resolve c w) as [r w1]. specialize (IH w1).
  destruct (resolve_batch resolve rest w1) as [[resolved misses] w2].
  destruct r as [f|]; cbn [fst snd] in *; [|exact IH].
  constructor; [apply Hc; reflexivity|exact IH].
Qed.

Lemma slice_to_length {A : Type} (n : Z) (l : list A) :
  0 <= n -> Z.of_nat (List.length (slice_to n l)) <= n.
Proof.
  intros Hn. unfold slice_to. apply Z.leb_le in Hn as Hb. rewrite Hb.
  rewrite length_firstn. lia.
Qed.

Section BatchMore.

Variable gamma : list request -> request -> reply.
Variable clock : nat -> Z.
Variable simplified_markets : list request -> option py.
Variable rt : PyRuntime.

Lemma resolve_identifier_entry (condition_id : string) (w : world) (f : pydict) :
  fst (resolve_identifier gamma clock rt condition_id w) = Some f -> featured_entry f.
Proof.
  unfold resolve_identifier.
  destruct (_fetch_market_by_slug_or_condition_id gamma clock (strip condition_id) w)
    as [[[[|kv m']|]|e] w']; try discriminate.
  set (m := kv :: m').
  destruct (truthy (is_active_expr m)) eqn:Ea; [|discriminate].
  destruct (_format_market rt m) as [c|e] eqn:Ef; [|discriminate].
  cbn [fst]. intros [= <-].
  pose proof (format_market_active rt m c condition_id Ef) as Hact.
  rewrite Ea in Hact.
  destruct (format_market_shape rt m c Ef) as (tokens & _ & _ & Hc).
  split.
  - rewrite Hc. unfold tag_15min.
    destruct (is_15min_interval_market condition_id); [right|left]; reflexivity.
  - unfold py_and in Hact.
    destruct (truthy (dict_get (tag_15min condition_id c) "active" (PyBool true))) eqn:A;
      [|rewrite A in Hact; discriminate Hact].
    split; [reflexivity|]. cbn [py_not truthy] in Hact. apply negb_true_iff in Hact.
    exact Hact.
Qed.

(** X13.  With at least one identifier configured, whatever the service
    answers, every market [get_featured_markets] returns is open for
    trading ([active] true, [closed] false) and has the nine keys of a
    canonical market, in their order, followed by the two tags of a
    15-minute entry when it has them; and the list has at most one market
    per identifier. *)
Theorem featured_markets_are_active (featured_conditions : list string) (limit : Z)
    (w : world) :
  featured_conditions <> [] ->
  exists l w',
    get_featured_markets gamma clock simplified_markets rt featured_conditions limit w
    = (Ok l, w')
    /\ Forall featured_entry l
    /\ (List.length l <= List.length featured_conditions)%nat.
Proof.
  intros Hne. unfold get_featured_markets, try_except.
  destruct featured_conditions as [|c rest]; [contradiction|].
  unfold bind at 1. rewrite featured_loop_run.
  pose proof (resolve_batch_Forall (resolve_identifier gamma clock rt) featured_entry
                (c :: rest) w resolve_identifier_entry) as HF.
  pose proof (resolve_batch_accounts (resolve_identifier gamma clock rt) (c :: rest) w) as HL.
  destruct (resolve_batch (resolve_identifier gamma clock rt) (c :: rest) w)
    as [[resolved misses] w'].
  cbn [fst snd app] in *. destruct resolved as [|m ms].
  - eexists _, _. split; [reflexivity|]. split; [constructor|cbn; lia].
  - unfold bind, lift. change ([] ++ m :: ms)%list with (m :: ms).
    destruct (rfor_fold (m :: ms) report_step tt).
    + eexists _, _. split; [reflexivity|]. split; [exact HF|lia].
    + eexists _, _. split; [reflexivity|]. split; [constructor|cbn; lia].
Qed.

Lemma popular_loop_run (items : list py) (featured : list pydict) :
  exists l,
    rfor_fold items (popular_step rt) featured = Ok l
    /\ (List.length l <= List.length featured + List.length items)%nat
    /\ (Forall (fun f => map fst f = canonical_keys) featured ->
        Forall (fun f => map fst f = canonical_keys) l).
Proof.
  revert featured. induction items as [|x r IH]; intros featured.
  - exists featured. split; [reflexivity|]. split; [cbn; lia|auto].
  - cbn [rfor_fold]. unfold popular_step at 1. cbn [rbind].
    set (acc := or_default _ featured).
    assert (Hacc : (List.length acc <= S (List.length featured))%nat
                   /\ (Forall (fun f => map fst f = canonical_keys) featured ->
                       Forall (fun f => map fst f = canonical_keys) acc)).
    { subst acc. destruct (as_dict x) as [d|]; cbn [rbind or_default]; [|split; [lia|auto]].
      destruct (_format_market rt d) as [c|] eqn:Ef; cbn [rbind or_default];
        [|split; [lia|auto]].
      split; [rewrite length_app; cbn; lia|].
      intros H. apply Forall_app. split; [exact H|]. constructor; [|constructor].
      destruct (format_market_shape rt d c Ef) as (tokens & _ & _ & ->). reflexivity. }
    destruct (IH acc) as (l & Hl & Hn & HF). exists l. split; [exact Hl|].
    destruct Hacc as [Ha Hf]. split; [cbn [List.length]; lia|auto].
Qed.

(** X14.  With no identifier configured and a limit that is not negative,
    [get_featured_markets] never raises, sends no request to the listing
    service and does not read the clock, and returns at most [limit]
    markets, each with the nine keys of a canonical market; nothing checks
    that they are active. *)
Theorem popular_markets_bounded (limit : Z) (w : world) :
  0 <= limit ->
  exists l,
    get_featured_markets gamma clock simplified_markets rt [] limit w = (Ok l, w)
    /\ Z.of_nat (List.length l) <= limit
    /\ Forall (fun f => map fst f = canonical_keys) l.
Proof.
  intros Hl. unfold get_featured_markets, try_except, bind at 1, get_simplified_markets.
  assert (Nil : exists l : list pydict,
            (Ok ([] : list pydict), w) = (Ok l, w)
            /\ Z.of_nat (List.length l) <= limit
            /\ Forall (fun f => map fst f = canonical_keys) l).
  { exists []. split; [reflexivity|]. split; [cbn; lia|constructor]. }
  destruct (simplified_markets (sent w)) as [v|]; [|exact Nil].
  unfold bind at 1.
  destruct (truthy v); [|exact Nil].
  unfold bind at 1, lift at 1.
  destruct (has_data v) as [[|]|]; try exact Nil.
  unfold bind at 1, lift at 1.
  destruct (get_data v) as [markets_data|]; [|exact Nil].
  unfold bind at 1, lift at 1.
  destruct (popular_items markets_data limit) as [items|] eqn:Ei; [|exact Nil].
  destruct (popular_loop_run items []) as (l & Hr & Hn & HF).
  unfold lift. rewrite Hr. cbn [ret]. exists l. split; [reflexivity|].
  split; [|apply HF; constructor].
  assert (Z.of_nat (List.length items) <= limit).
  { unfold popular_items in Ei.
    destruct markets_data; try discriminate; injection Ei as <-; apply slice_to_length; exact Hl. }
  cbn [List.length] in Hn. lia.
Qed.

End BatchMore.

Lemma featured_markets_are_active_witness :
  exists l w',
    get_featured_markets gamma_two_markets clock_1761921650 no_simplified_markets
      scenario_runtime three_identifiers 4 fresh_world
    = (Ok l, w')
    /\ Forall featured_entry l
    /\ (List.length l <= List.length three_identifiers)%nat.
Proof. apply featured_markets_are_active. discriminate. Defined.

Lemma popular_markets_bounded_witness :
  exists l,
    get_featured_markets gamma_404 clock_1761921650
      (fun _ => Some (PyDict [("data", PyList [PyDict market_btc_100k])]))
      scenario_runtime [] 4 fresh_world
    = (Ok l, fresh_world)
    /\ Z.of_nat (List.length l) <= 4
    /\ Forall (fun f => map fst f = canonical_keys) l.
Proof. apply popular_markets_bounded. lia. Defined.

(** In the fallback mode a closed market is listed like any other. *)
Example popular_mode_lists_closed_market :
  fst (get_featured_markets gamma_404 clock_1761921650
         (fun _ => Some (PyDict [("data", PyList [PyDict market_btc_closed])]))
         scenario_runtime [] 4 fresh_world)
  = Ok [formatted_dict market_btc_closed (PyStr "0x1a2b")
          [token "101" "Yes" 0.625%float; token "102" "No" 0.375%float]].
Proof. vm_compute. reflexivity. Qed.

(** * clob_client.py: more about normalization *)

Lemma dict_lookup_set_other (d : pydict) (k k' : string) (v : py) :
  k' <> k -> dict_lookup (dict_set d k v) k' = dict_lookup d k'.
Proof.
  intros Hk. induction d as [|[k0 v0] r IH]; cbn [dict_set dict_lookup].
  - destruct (String.eqb_spec k k'); [congruence|reflexivity].
  - destruct (String.eqb_spec k0 k) as [->|Hne]; cbn [dict_lookup].
    + destruct (String.eqb_spec k k'); [congruence|reflexivity].
    + destruct (String.eqb_spec k0 k'); [reflexivity|exact IH].
Qed.

Lemma dict_get_set_other (d : pydict) (k k' : string) (v default : py) :
  k' <> k -> dict_get (dict_set d k v) k' default = dict_get d k' default.
Proof. intros Hk. unfold dict_get. rewrite dict_lookup_set_other by exact Hk. reflexivity. Qed.

Section FormatMore.

Variable rt : PyRuntime.

Lemma clob_tokens_total (items acc : list py) :
  (exists tokens, rfor_fold items (clob_token rt) acc = Ok tokens)
  <-> Forall (price_ok rt) items.
Proof.
  revert acc. induction items as [|t r IH]; intros acc.
  - split; [constructor|]. intros _. exists acc. reflexivity.
  - cbn [rfor_fold]. split.
    + intros [tokens H]. destruct (clob_token rt t acc) as [acc'|e] eqn:E; [|discriminate H].
      cbn [rbind] in H. constructor; [|apply (IH acc'); exists tokens; exact H].
      destruct t as [| | | | | |d]; cbn [price_ok]; try exact I.
      unfold clob_token in E.
      destruct (py_float rt (dict_get d "price" (PyFloat 0.5%float))) as [f|];
        [exists f; reflexivity|discriminate E].
    + intros H. inversion H as [|? ? Ht Hr]; subst.
      assert (exists acc', clob_token rt t acc = Ok acc') as [acc' E].
      { destruct t as [| | | | | |d]; cbn [clob_token]; try (eexists; reflexivity).
        destruct Ht as [f Hf]. rewrite Hf. eexists; reflexivity. }
      rewrite E. cbn [rbind]. apply IH. exact Hr.
Qed.

(** X15.  For a record of the structured-array shape (no token ids, a
    [tokens] list) whose [condition_id] is a string, normalization returns a
    canonical market exactly when [float] accepts the price of every token
    that is an object, a missing price counting as 0.5; one price that is
    null or not a number makes the whole call raise. *)
Theorem format_market_array_total (market : pydict) (items : list py) :
  truthy (dict_get market "clobTokenIds" (PyStr "")) = false ->
  dict_lookup market "tokens" = Some (PyList items) ->
  sliceable (dict_get market "condition_id" (PyStr "")) = true ->
  (exists c, _format_market rt market = Ok c) <-> Forall (price_ok rt) items.
Proof.
  intros Hids Htok Hcid.
  assert (Ht : forall d, dict_get market "tokens" d = PyList items).
  { intros d. unfold dict_get. rewrite Htok. reflexivity. }
  unfold _format_market. rewrite Hids, !Ht.
  apply slice_prefix_sliceable in Hcid.
  assert (Hw : forall tokens,
             warn_no_tokens tokens (dict_get market "condition_id" (PyStr "")) = Ok tt).
  { intros tokens. unfold warn_no_tokens.
    destruct (_ && _); [exact Hcid|reflexivity]. }
  destruct items as [|t r].
  - cbn [truthy rbind]. rewrite Hw. split; [constructor|]. intros _. eexists; reflexivity.
  - cbn [truthy py_iter rbind]. rewrite <- (clob_tokens_total (t :: r) []). split.
    + intros [c H]. destruct (rfor_fold (t :: r) (clob_token rt) []) as [tokens|];
        [exists tokens; reflexivity|discriminate H].
    + intros [tokens ->]. cbn [rbind]. rewrite Hw. eexists; reflexivity.
Qed.

Lemma gamma_tokens_ids (market : pydict) (outcome_list : py) (token_ids : list string)
    (i : nat) (acc tokens : list py) :
  gamma_tokens rt market outcome_list i token_ids acc = Ok tokens ->
  map token_id_of tokens = (map token_id_of acc ++ map PyStr token_ids)%list
  /\ (Forall (fun t => exists tid outcome price,
                t = token_dict tid outcome price (PyBool false)) acc ->
      Forall (fun t => exists tid outcome price,
                t = token_dict tid outcome price (PyBool false)) tokens).
Proof.
  revert i acc. induction token_ids as [|tid rest IH]; intros i acc.
  - cbn [gamma_tokens map]. intros [= <-]. rewrite app_nil_r. auto.
  - cbn [gamma_tokens]. destruct (outcome_at outcome_list i) as [outcome|]; [|discriminate].
    cbn [rbind]. intros H. apply IH in H as [Hm HF]. split.
    + rewrite Hm, map_app. cbn [map app token_id_of token_dict dict_get dict_lookup String.eqb].
      rewrite <- app_assoc. reflexivity.
    + intros Hacc. apply HF. apply Forall_app. split; [exact Hacc|].
      constructor; [|constructor]. eexists _, _, _. reflexivity.
Qed.

(** The loop over the token ids reads the record through [outcomePrices]
    only. *)
Lemma gamma_tokens_ext (m1 m2 : pydict) (outcome_list : py) (token_ids : list string)
    (i : nat) (acc : list py) :
  dict_get m1 "outcomePrices" (PyStr "") = dict_get m2 "outcomePrices" (PyStr "") ->
  gamma_tokens rt m1 outcome_list i token_ids acc
  = gamma_tokens rt m2 outcome_list i token_ids acc.
Proof.
  intros H. revert i acc. induction token_ids as [|tid rest IH]; intros i acc; [reflexivity|].
  cbn [gamma_tokens]. destruct (outcome_at outcome_list i) as [outcome|]; [|reflexivity].
  cbn [rbind]. unfold price_at. rewrite H. apply IH.
Qed.

(** X16.  When a record carries token ids ([clobTokenIds] not empty), its
    [tokens] array is not read: setting [tokens] to any value at all leaves
    the result of normalization, a market or an exception, as it was. *)
Theorem format_market_ids_take_precedence (market : pydict) (v : py) :
  truthy (dict_get market "clobTokenIds" (PyStr "")) = true ->
  _format_market rt (dict_set market "tokens" v) = _format_market rt market.
Proof.
  intros Hids. unfold _format_market, outcome_list_of, formatted_dict.
  rewrite !dict_get_set_other by discriminate. rewrite Hids.
  rewrite (gamma_tokens_ext (dict_set market "tokens" v) market)
    by (apply dict_get_set_other; discriminate).
  match goal with |- context [gamma_tokens ?a ?b ?c ?d ?e ?f] =>
    destruct (gamma_tokens a b c d e f) as [tokens|]
  end; [|reflexivity].
  cbn [rbind]. rewrite !dict_get_set_other by discriminate. reflexivity.
Qed.

(** X17.  When normalization of a record whose [clobTokenIds] is not empty
    returns a market, every token of the market has [winner] false, and the
    tokens follow the ids kept, one token per id and in their order.  Of a
    comma-separated string the ids kept are the segments that are not blank,
    each stripped: every [token_id] is then a string that is not empty and
    has no outer blank.  Of a list the ids kept are the elements that are
    true values, each as [str(element).strip()]: an element that is a blank
    string is kept, with the empty [token_id], and an element 0 is not.  Any
    other value gives no token. *)
Theorem format_market_keeps_token_ids (market c : pydict) :
  truthy (dict_get market "clobTokenIds" (PyStr "")) = true ->
  _format_market rt market = Ok c ->
  exists tokens,
    dict_get c "tokens" PyNone = PyList tokens
    /\ Forall (fun t => exists tid outcome price,
                 t = token_dict tid outcome price (PyBool false)) tokens
    /\ (forall s, dict_get market "clobTokenIds" (PyStr "") = PyStr s ->
          map token_id_of tokens
          = map (fun tid => PyStr (strip tid))
                (filter (fun tid => negb (String.eqb (strip tid) EmptyString))
                        (split "," s))
          /\ Forall (fun t => exists tid, token_id_of t = PyStr tid
                                         /\ tid <> EmptyString /\ strip tid = tid) tokens)
    /\ (forall l, dict_get market "clobTokenIds" (PyStr "") = PyList l ->
          map token_id_of tokens
          = map (fun tid => PyStr (strip (py_str rt tid))) (filter truthy l))
    /\ match dict_get market "clobTokenIds" (PyStr "") with
       | PyStr _ | PyList _ => True
       | _ => tokens = []
       end.
Proof.
  intros Hids. unfold _format_market. rewrite Hids.
  destruct (gamma_tokens rt market (outcome_list_of rt market) 0
              (token_ids_of rt (dict_get market "clobTokenIds" (PyStr ""))) [])
    as [tokens|] eqn:G; [|discriminate].
  cbn [rbind]. destruct (warn_no_tokens tokens _); [|discriminate]. cbn [rbind].
  intros [= <-]. exists tokens. split; [reflexivity|].
  destruct (gamma_tokens_ids _ _ _ _ _ _ G) as [Hm HF].
  cbn [map app] in Hm.
  split; [apply HF; constructor|]. split; [|split].
  - intros s Hs. rewrite Hs in Hm. cbn [token_ids_of] in Hm. rewrite map_map in Hm.
    split; [exact Hm|].
    apply (Forall_map token_id_of
             (fun v => exists tid, v = PyStr tid /\ tid <> EmptyString /\ strip tid = tid)).
    rewrite Hm. apply Forall_map. apply Forall_forall. intros tid Hin.
    apply filter_In in Hin as [_ Hne]. exists (strip tid).
    split; [reflexivity|]. split; [|apply strip_idempotent].
    intros E. rewrite E in Hne. discriminate Hne.
  - intros l Hl. rewrite Hl in Hm. cbn [token_ids_of] in Hm. rewrite map_map in Hm.
    exact Hm.
  - destruct (dict_get market "clobTokenIds" (PyStr "")); try exact I;
      cbn [token_ids_of map] in Hm; apply map_eq_nil in Hm; exact Hm.
Qed.

(** A list of token ids is filtered by the truth of its elements, before
    they are made strings and stripped: the blank string gets a token whose
    id is empty, the number 0 gets none. *)
Example format_market_blank_token_id :
  token_ids_of scenario_runtime (PyList [PyStr " "; PyStr "7"; PyNone; PyInt 0; PyInt 12])
  = [""; "7"; "12"]
  /\ token_ids_of scenario_runtime (PyStr " , 7,, 12 ") = ["7"; "12"].
Proof. split; vm_compute; reflexivity. Qed.

Lemma default_outcome_at (i : nat) :
  outcome_at (PyList [PyStr "Yes"; PyStr "No"]) i = Ok (PyStr (default_outcome i)).
Proof.
  unfold outcome_at. cbn [py_len rbind List.length].
  destruct i as [|[|i]]; [reflexivity|reflexivity|].
  replace (Z.of_nat (S (S i)) <? Z.of_nat 2) with false; [reflexivity|].
  symmetry. apply Z.ltb_ge. lia.
Qed.

Lemma gamma_tokens_default (market : pydict) (token_ids : list string) (i : nat)
    (acc : list py) :
  truthy (dict_get market "outcomePrices" (PyStr "")) = false ->
  gamma_tokens rt market (PyList [PyStr "Yes"; PyStr "No"]) i token_ids acc
  = Ok (acc ++ default_tokens i token_ids)%list.
Proof.
  intros Hp. revert i acc. induction token_ids as [|tid rest IH]; intros i acc.
  - cbn [gamma_tokens default_tokens]. rewrite app_nil_r. reflexivity.
  - cbn [gamma_tokens default_tokens]. rewrite default_outcome_at. cbn [rbind].
    unfold price_at. rewrite Hp, IH, <- app_assoc. reflexivity.
Qed.

(** X18.  A record with at least one token id and with no outcomes, no
    short outcomes and no outcome prices (missing, null or empty) is
    normalized without raising: its tokens are named "Yes", "No",
    "Outcome 3", "Outcome 4" and so on, each at the price 0.5. *)
Theorem format_market_default_outcomes (market : pydict) :
  truthy (dict_get market "clobTokenIds" (PyStr "")) = true ->
  token_ids_of rt (dict_get market "clobTokenIds" (PyStr "")) <> [] ->
  truthy (dict_get market "outcomes" (PyStr "")) = false ->
  truthy (dict_get market "shortOutcomes" (PyStr "")) = false ->
  truthy (dict_get market "outcomePrices" (PyStr "")) = false ->
  _format_market rt market
  = Ok (formatted_dict market (dict_get market "condition_id" (PyStr ""))
          (default_tokens 0 (token_ids_of rt (dict_get market "clobTokenIds" (PyStr ""))))).
Proof.
  intros Hids Hne Ho Hs Hp. unfold _format_market, outcome_list_of.
  rewrite Hids, Ho, Hs. cbn [negb andb truthy].
  rewrite (gamma_tokens_default _ _ _ _ Hp). cbn [rbind app].
  destruct (token_ids_of rt (dict_get market "clobTokenIds" (PyStr ""))) as [|tid rest];
    [contradiction|].
  reflexivity.
Qed.

End FormatMore.

Lemma format_market_array_total_witness :
  (exists c, _format_market scenario_runtime market_btc_100k = Ok c)
  <-> Forall (price_ok scenario_runtime)
             [token "101" "Yes" 0.625%float; token "102" "No" 0.375%float].
Proof. apply format_market_array_total; reflexivity. Defined.

Lemma format_market_ids_take_precedence_witness :
  _format_market scenario_runtime
    (dict_set market_two_token_ids "tokens" (PyList [token "999" "Maybe" 0.625%float]))
  = _format_market scenario_runtime market_two_token_ids.
Proof. apply format_market_ids_take_precedence. reflexivity. Defined.

Lemma format_market_keeps_token_ids_witness :
  exists tokens,
    dict_get (formatted_dict market_blank_token_id (PyStr "")
                [token "" "Yes" 0.5%float; token "7" "No" 0.5%float])
             "tokens" PyNone
    = PyList tokens
    /\ map token_id_of tokens = [PyStr ""; PyStr "7"].
Proof.
  destruct (format_market_keeps_token_ids scenario_runtime market_blank_token_id
              (formatted_dict market_blank_token_id (PyStr "")
                 [token "" "Yes" 0.5%float; token "7" "No" 0.5%float])
              eq_refl eq_refl)
    as (tokens & Ht & _ & _ & Hl & _).
  exists tokens. split; [exact Ht|]. exact (Hl _ eq_refl).
Defined.

Lemma format_market_default_outcomes_witness :
  _format_market scenario_runtime
    [("question", PyStr "Who wins?"); ("clobTokenIds", PyStr "11, 12 ,13")]
  = Ok (formatted_dict [("question", PyStr "Who wins?"); ("clobTokenIds", PyStr "11, 12 ,13")]
          (PyStr "")
          [token "11" "Yes" 0.5%float; token "12" "No" 0.5%float;
           token "13" "Outcome 3" 0.5%float]).
Proof.
  apply (format_market_default_outcomes scenario_runtime
           [("question", PyStr "Who wins?"); ("clobTokenIds", PyStr "11, 12 ,13")]);
    first [reflexivity | discriminate].
Defined.

(** * clob_client.py: market details *)

Section DetailsFacts.

Variable rt : PyRuntime.
Variable read_client : ReadClient.

Lemma py_len_nonneg (v : py) (n : Z) : py_len v = Ok n -> 0 <= n.
Proof. destruct v; cbn [py_len]; intros [= <-]; lia. Qed.

Lemma book_depth_nonneg (order_book : option OrderBookSummary)
    (side : OrderBookSummary -> py) (n : Z) :
  book_depth order_book side = Ok n -> 0 <= n.
Proof.
  destruct order_book as [ob|]; cbn [book_depth].
  - apply py_len_nonneg.
  - intros [= <-]. lia.
Qed.

Lemma default_details_record (token_id : string) :
  details_record token_id (default_details token_id).
Proof. unfold details_record, default_details. repeat eexists; lia. Qed.

(** One more step of [get_market_details]: the step raises and the
    goal holds of the default record, or it returns. *)
Ltac details_step tac :=
  match goal with
  | |- context [rbind ?r _] =>
      let E := fresh "E" in
      destruct r eqn:E; cbn [rbind or_default]; [|solve [tac]]
  end.

(** X19.  Whatever the read-only client returns or raises,
    [get_market_details] raises nothing and returns a record of one fixed
    shape: the token id it was asked about, four prices that are floats,
    and an order book with a market and two counts that are not negative. *)
Theorem market_details_well_formed (token_id : string) :
  details_record token_id (get_market_details rt read_client token_id).
Proof.
  unfold get_market_details.
  do 4 details_step ltac:(apply default_details_record). cbv zeta.
  do 4 details_step ltac:(apply default_details_record).
  destruct (book_depth _ ob_bids) as [bids|] eqn:Eb; cbn [rbind or_default];
    [|apply default_details_record].
  destruct (book_depth _ ob_asks) as [asks|] eqn:Ea; cbn [rbind or_default];
    [|apply default_details_record].
  unfold details_record. repeat eexists.
  - exact (book_depth_nonneg _ _ _ Eb).
  - exact (book_depth_nonneg _ _ _ Ea).
Qed.

(** X20.  When the order-book call, one of the two price calls or the
    midpoint call raises, or when a price comes back in a form [float]
    rejects, [get_market_details] returns the default record: 0.5 for each
    of the four prices and an empty book, with nothing to tell it from a
    market that does trade at 0.5. *)
Theorem market_details_on_failure (token_id : string) :
  (exists e, get_order_book read_client token_id = Raise e)
  \/ (exists side e, (side = "BUY" \/ side = "SELL")
                     /\ get_price read_client token_id side = Raise e)
  \/ (exists e, get_midpoint read_client token_id = Raise e)
  \/ (exists side v e, (side = "BUY" \/ side = "SELL")
                       /\ get_price read_client token_id side = Ok v
                       /\ float_or_half rt v = Raise e) ->
  get_market_details rt read_client token_id = default_details token_id.
Proof.
  unfold get_market_details. intros H.
  destruct (get_order_book read_client token_id) as [order_book|] eqn:Eo;
    cbn [rbind or_default]; [|reflexivity].
  destruct (get_price read_client token_id "BUY") as [buy_price|] eqn:Eb;
    cbn [rbind or_default]; [|reflexivity].
  destruct (get_price read_client token_id "SELL") as [sell_price|] eqn:Es;
    cbn [rbind or_default]; [|reflexivity].
  destruct (get_midpoint read_client token_id) as [midpoint|] eqn:Em;
    cbn [rbind or_default]; [|reflexivity].
  cbv zeta.
  destruct H as [[e H]|[(side & e & [-> | ->] & H)|[[e H]|(side & v & e & [-> | ->] & H & F)]]];
    try congruence.
  - assert (v = buy_price) by congruence. subst v. rewrite F. reflexivity.
  - assert (v = sell_price) by congruence. subst v. rewrite F.
    destruct (float_or_half rt buy_price); reflexivity.
Qed.

(** X21.  In the record [get_market_details] returns, a buy price, sell
    price or midpoint that the client gives as a false value (null, zero, an
    empty string) is reported as 0.5; and when the call for the last trade
    price raises, the last trade price reported is the midpoint reported. *)
Theorem market_details_fallbacks (token_id : string) :
  (forall side key v,
     (side = "BUY" /\ key = "buy_price") \/ (side = "SELL" /\ key = "sell_price") ->
     get_price read_client token_id side = Ok v -> truthy v = false ->
     dict_get (get_market_details rt read_client token_id) key PyNone = PyFloat 0.5%float)
  /\ (forall v, get_midpoint read_client token_id = Ok v -> truthy v = false ->
        dict_get (get_market_details rt read_client token_id) "midpoint" PyNone
        = PyFloat 0.5%float)
  /\ (forall e, get_last_trade_price read_client token_id = Raise e ->
        dict_get (get_market_details rt read_client token_id) "last_trade" PyNone
        = dict_get (get_market_details rt read_client token_id) "midpoint" PyNone).
Proof.
  assert (D : forall r : pydict, r = default_details token_id ->
    (forall side key (v : py),
       (side = "BUY" /\ key = "buy_price") \/ (side = "SELL" /\ key = "sell_price") ->
       get_price read_client token_id side = Ok v -> truthy v = false ->
       dict_get r key PyNone = PyFloat 0.5%float)
    /\ (forall v : py, get_midpoint read_client token_id = Ok v -> truthy v = false ->
          dict_get r "midpoint" PyNone = PyFloat 0.5%float)
    /\ (forall e : exn, get_last_trade_price read_client token_id = Raise e ->
          dict_get r "last_trade" PyNone = dict_get r "midpoint" PyNone)).
  { intros r ->. repeat split; intros; try reflexivity.
    match goal with H : _ \/ _ |- _ => destruct H as [[_ ->]|[_ ->]]; reflexivity end. }
  unfold get_market_details.
  destruct (get_order_book read_client token_id) as [order_book|];
    cbn [rbind or_default]; [|apply D; reflexivity].
  destruct (get_price read_client token_id "BUY") as [buy_price|] eqn:Eb;
    cbn [rbind or_default]; [|apply D; reflexivity].
  destruct (get_price read_client token_id "SELL") as [sell_price|] eqn:Es;
    cbn [rbind or_default]; [|apply D; reflexivity].
  destruct (get_midpoint read_client token_id) as [midpoint|] eqn:Em;
    cbn [rbind or_default]; [|apply D; reflexivity].
  cbv zeta.
  destruct (float_or_half rt buy_price) as [buy|] eqn:Fb; cbn [rbind or_default];
    [|apply D; reflexivity].
  destruct (float_or_half rt sell_price) as [sell|] eqn:Fs; cbn [rbind or_default];
    [|apply D; reflexivity].
  destruct (float_or_half rt midpoint) as [mid|] eqn:Fm; cbn [rbind or_default];
    [|apply D; reflexivity].
  destruct (float_or_half rt (or_default (get_last_trade_price read_client token_id) midpoint))
    as [last|] eqn:Fl; cbn [rbind or_default]; [|apply D; reflexivity].
  destruct (book_depth order_book ob_bids) as [bids|]; cbn [rbind or_default];
    [|apply D; reflexivity].
  destruct (book_depth order_book ob_asks) as [asks|]; cbn [rbind or_default];
    [|apply D; reflexivity].
  split; [|split].
  - intros side key v [[-> ->]|[-> ->]] Hv Ht.
    + assert (v = buy_price) by congruence. subst v.
      unfold float_or_half in Fb. rewrite Ht in Fb. injection Fb as <-. reflexivity.
    + assert (v = sell_price) by congruence. subst v.
      unfold float_or_half in Fs. rewrite Ht in Fs. injection Fs as <-. reflexivity.
  - intros v [= ->] Ht.
    unfold float_or_half in Fm. rewrite Ht in Fm. injection Fm as <-. reflexivity.
  - intros e He. rewrite He in Fl. cbn [or_default] in Fl.
    assert (last = mid) by congruence. subst last. reflexivity.
Qed.

End DetailsFacts.

Lemma market_details_on_failure_witness :
  get_market_details scenario_runtime read_client_down "101" = default_details "101".
Proof.
  apply market_details_on_failure. left. exists ClobError. reflexivity.
Defined.

(** A midpoint of zero is reported as 0.5, next to a last trade at 0.25. *)
Example zero_midpoint_reported_as_half :
  get_market_details scenario_runtime
    {| get_order_book := fun _ => Ok None;
       get_price := fun _ _ => Ok (PyFloat 0.25%float);
       get_midpoint := fun _ => Ok (PyInt 0);
       get_last_trade_price := fun _ => Ok (PyFloat 0.25%float) |}
    "101"
  = [("token_id", PyStr "101");
     ("buy_price", PyFloat 0.25%float);
     ("sell_price", PyFloat 0.25%float);
     ("midpoint", PyFloat 0.5%float);
     ("last_trade", PyFloat 0.25%float);
     ("order_book", PyDict [("market", PyStr "101"); ("bids", PyInt 0); ("asks", PyInt 0)])].
Proof. vm_compute. reflexivity. Qed.

(** * clob_client.py: orders *)

Lemma upper_cons (c : ascii) (r : string) : upper (String c r) = (upper_char c ++ upper r)%list.
Proof. reflexivity. Qed.

(** Only the two cases of B, U and Y have B, U and Y as their upper
    case. *)
Lemma upper_char_letter (c : ascii) (k : N) (rest tail : list N) :
  (k = 66 \/ k = 85 \/ k = 89)%N ->
  (upper_char c ++ rest)%list = k :: tail ->
  rest = tail /\ (code c = k \/ code c = k + 32)%N.
Proof.
  intros Hk H.
  destruct c as [[] [] [] [] [] [] [] []]; vm_compute in H;
    injection H as H1 H2; subst k;
    first [ solve [split; [exact H2|vm_compute; auto]]
          | exfalso; destruct Hk as [Hk|[Hk|Hk]]; discriminate Hk ].
Qed.

Lemma upper_char_nonempty (c : ascii) (rest : list N) : (upper_char c ++ rest)%list <> [].
Proof. destruct c as [[] [] [] [] [] [] [] []]; vm_compute; discriminate. Qed.

Lemma code_letter (c : ascii) (k : N) (l u : ascii) :
  code u = k -> code l = (k + 32)%N ->
  (code c = k \/ code c = k + 32)%N -> letter l u c.
Proof.
  unfold code, letter. intros Hu Hl [H|H]; [right|left];
    apply (f_equal ascii_of_N) in H; rewrite ascii_N_embedding in H; subst c;
    [rewrite <- Hu|rewrite <- Hl]; apply ascii_N_embedding.
Qed.

(** X22.  [place_limit_order] and [place_market_order] build a BUY order
    exactly when the side they are given is one of the eight spellings of
    "buy" in upper and lower case; every other string - empty, with a blank
    before or after, misspelt - makes a SELL order. *)
Theorem order_side_spelling (side : string) :
  order_side_of side = BUY
  <-> exists b u y,
        side = String b (String u (String y EmptyString))
        /\ letter "b" "B" b /\ letter "u" "U" u /\ letter "y" "Y" y.
Proof.
  unfold order_side_of, upper_is.
  change (code_points "BUY") with [66; 85; 89]%N.
  destruct (list_eq_dec N.eq_dec (upper side) [66; 85; 89]%N) as [E|N].
  - split; [intros _|reflexivity].
    destruct side as [|b side]; [discriminate E|].
    rewrite upper_cons in E. apply upper_char_letter in E as [E Hb]; [|auto].
    destruct side as [|u side]; [discriminate E|].
    rewrite upper_cons in E. apply upper_char_letter in E as [E Hu]; [|auto].
    destruct side as [|y side]; [discriminate E|].
    rewrite upper_cons in E. apply upper_char_letter in E as [E Hy]; [|auto].
    destruct side as [|c side]; [|rewrite upper_cons in E; destruct (upper_char_nonempty _ _ E)].
    exists b, u, y. split; [reflexivity|].
    repeat split; eapply code_letter; try eassumption; reflexivity.
  - split; [discriminate|]. intros (b & u & y & -> & Hb & Hu & Hy). exfalso. apply N.
    destruct Hb as [-> | ->], Hu as [-> | ->], Hy as [-> | ->]; reflexivity.
Qed.

Example order_side_examples :
  order_side_of "BUY" = BUY /\ order_side_of "buy" = BUY /\ order_side_of "SELL" = SELL
  /\ order_side_of " BUY" = SELL /\ order_side_of "" = SELL /\ order_side_of "hold" = SELL.
Proof. repeat split; vm_compute; reflexivity. Qed.

Section OrderFacts.

Variable tc : TradeClient.

(** A limit order is signed, then posted as signed with the type GTC; the
    response is returned when it is an object. *)
Lemma place_limit_order_calls (token_id side : string) (price size : float)
    (calls : list trade_call) :
  let order := limit_order token_id side price size in
  let run := place_limit_order (Some tc) token_id side price size calls in
  match tc calls (create_order order) with
  | Raise e => run = (inr (Exn e), calls ++ [create_order order])%list
  | Ok signed_order =>
      snd run = (calls ++ [create_order order; post_order signed_order GTC])%list
      /\ match tc (calls ++ [create_order order])%list (post_order signed_order GTC) with
         | Raise e => fst run = inr (Exn e)
         | Ok (PyDict response) => fst run = inl (PyDict response)
         | Ok _ => fst run = inr (Exn AttributeError)
         end
  end.
Proof.
  cbv zeta. unfold place_limit_order, limit_order, st_bind, trade, st_lift, st_ret.
  destruct (tc calls _) as [signed_order|e]; [|reflexivity].
  destruct (tc (calls ++ _)%list (post_order signed_order GTC)) as [response|e];
    cbn [fst snd]; rewrite <- ?app_assoc; [|split; reflexivity].
  destruct response; split; reflexivity.
Qed.

End OrderFacts.

(** The order is posted, and the call raises all the same, when the
    client answers the post with something that is not an object. *)
Example limit_order_posted_yet_raises :
  place_limit_order (Some (fun _ _ => Ok (PyStr "accepted"))) "101" "BUY"
    0.625%float 10%float []
  = (inr (Exn AttributeError),
     [create_order (limit_order "101" "BUY" 0.625%float 10%float);
      post_order (PyStr "accepted") GTC]).
Proof. vm_compute. reflexivity. Qed.

Section TradesFacts.

Variable trade_client : option TradeClient.

(** X23.  [get_trades] never raises: it returns a value that has a
    length, at most [limit] when [limit] is not negative.  After its one
    call of the client it returns the empty list when the call raises or
    when the value returned cannot be sliced, and the slice [trades[:limit]]
    otherwise; with no authenticated client it returns the empty list
    without any call. *)
Theorem get_trades_bounded (limit : Z) (calls : list trade_call) :
  (exists trades, fst (get_trades trade_client limit calls) = inl trades
                  /\ exists n, py_len trades = Ok n /\ (0 <= limit -> n <= limit))
  /\ (forall tc e, trade_client = Some tc -> tc calls get_trades_call = Raise e ->
        get_trades trade_client limit calls
        = (inl (PyList []), (calls ++ [get_trades_call])%list))
  /\ (forall tc v e, trade_client = Some tc -> tc calls get_trades_call = Ok v ->
        py_slice_to limit v = Raise e ->
        get_trades trade_client limit calls
        = (inl (PyList []), (calls ++ [get_trades_call])%list))
  /\ (forall tc v r, trade_client = Some tc -> tc calls get_trades_call = Ok v ->
        py_slice_to limit v = Ok r ->
        get_trades trade_client limit calls = (inl r, (calls ++ [get_trades_call])%list))
  /\ (trade_client = None -> get_trades trade_client limit calls = (inl (PyList []), calls)).
Proof.
  assert (Hslice : forall v r, py_slice_to limit v = Ok r ->
                     exists n, py_len r = Ok n /\ (0 <= limit -> n <= limit)).
  { intros v r H. destruct v; try discriminate H; injection H as <-; cbn [py_len];
      eexists; (split; [reflexivity|]); intros Hl.
    - rewrite length_string_of_list_ascii. apply slice_to_length. exact Hl.
    - apply slice_to_length. exact Hl. }
  assert (Hnil : exists n, py_len (PyList []) = Ok n /\ (0 <= limit -> n <= limit)).
  { exists 0. split; [reflexivity|]. intros; lia. }
  split; [|split; [|split; [|split]]].
  - unfold get_trades, st_try, st_bind, st_lift.
    destruct trade_client as [tc|].
    + unfold trade. destruct (tc calls get_trades_call) as [v|e].
      * destruct (py_slice_to limit v) as [r|e] eqn:E.
        -- exists r. split; [reflexivity|]. exact (Hslice v r E).
        -- exists (PyList []). split; [reflexivity|exact Hnil].
      * exists (PyList []). split; [reflexivity|exact Hnil].
    + cbn [st_ret]. destruct (py_slice_to limit (PyList [])) as [r|e] eqn:E.
      * exists r. split; [reflexivity|]. exact (Hslice _ r E).
      * exists (PyList []). split; [reflexivity|exact Hnil].
  - intros tc e -> He. unfold get_trades, st_try, st_bind, trade. rewrite He. reflexivity.
  - intros tc v e -> Hv He. unfold get_trades, st_try, st_bind, st_lift, trade.
    rewrite Hv, He. reflexivity.
  - intros tc v r -> Hv Hr. unfold get_trades, st_try, st_bind, st_lift, trade.
    rewrite Hv, Hr. reflexivity.
  - intros ->. unfold get_trades, st_try, st_bind, st_lift, st_ret, py_slice_to, slice_to.
    destruct (0 <=? limit); cbn; rewrite firstn_nil; reflexivity.
Qed.

End TradesFacts.

(** * app.py: the endpoints *)

Section OutageFacts.

Variable gamma : list request -> request -> reply.
Variable clock : nat -> Z.
Variable simplified_markets : list request -> option py.
Variable rt : PyRuntime.

Hypothesis gamma_unreachable : unreachable gamma.

Lemma pattern_unreachable (slug_pattern : string) (w : world) :
  fst (_fetch_active_market_by_pattern gamma clock slug_pattern w) = Ok None.
Proof.
  rewrite fetch_active_market_by_pattern_run.
  pose proof (probes_run_unreachable gamma
                (probe_slugs (base_pattern_of slug_pattern)
                             (get_current_15min_timestamp (clock (clock_reads w))))
                (tick w) gamma_unreachable) as Hp.
  destruct (probes_run gamma _ (tick w)) as [[m|] w']; cbn [fst] in Hp; [discriminate Hp|].
  cbn [fst]. rewrite gamma_unreachable. reflexivity.
Qed.

Lemma condition_id_lookup_unreachable (identifier_clean : string) (w : world) :
  fst (condition_id_lookup gamma identifier_clean w) = Ok None.
Proof.
  unfold condition_id_lookup, try_except, bind at 1, requests_get.
  rewrite gamma_unreachable. reflexivity.
Qed.

Lemma direct_lookup_unreachable (sid : string) (w : world) :
  fst (direct_lookup gamma sid w) = Ok None.
Proof.
  unfold direct_lookup. cbv zeta.
  destruct (contains "-" sid && negb (startswith sid "0x")).
  - unfold bind at 1. rewrite fetch_market_by_slug_run, gamma_unreachable.
    cbn [market_of_reply andb truthy_market negb orb].
    apply condition_id_lookup_unreachable.
  - unfold bind at 1. cbn [ret andb truthy_market negb orb].
    apply condition_id_lookup_unreachable.
Qed.

Lemma resolution_unreachable (identifier : string) (w : world) :
  fst (_fetch_market_by_slug_or_condition_id gamma clock identifier w) = Ok None.
Proof.
  rewrite fetch_cascade_unfold. unfold try_except.
  destruct (is_15min_interval_market (strip identifier)).
  - unfold bind at 1. unfold bind at 1.
    pose proof (pattern_unreachable (strip identifier) w) as Hp.
    destruct (_fetch_active_market_by_pattern gamma clock (strip identifier) w) as [r0 w0].
    cbn [fst] in Hp. subst r0. cbn [truthy_market ret].
    pose proof (direct_lookup_unreachable (strip identifier) w0) as Hd.
    destruct (direct_lookup gamma (strip identifier) w0) as [[r|e] w2];
      cbn [fst] in *; [exact Hd|discriminate Hd].
  - unfold bind at 1. cbn [ret].
    pose proof (direct_lookup_unreachable (strip identifier) w) as Hd.
    destruct (direct_lookup gamma (strip identifier) w) as [[r|e] w2];
      cbn [fst] in *; [exact Hd|discriminate Hd].
Qed.

Lemma resolve_batch_unreachable (identifiers : list string) (w : world) :
  fst (fst (resolve_batch (resolve_identifier gamma clock rt) identifiers w)) = [].
Proof.
  revert w. induction identifiers as [|c r IH]; intros w; [reflexivity|].
  cbn [resolve_batch]. unfold resolve_identifier at 1.
  pose proof (resolution_unreachable (strip c) w) as Hr.
  destruct (_fetch_market_by_slug_or_condition_id gamma clock (strip c) w) as [r0 w1].
  cbn [fst] in Hr. subst r0. specialize (IH w1).
  destruct (resolve_batch (resolve_identifier gamma clock rt) r w1) as [[resolved misses] w2].
  exact IH.
Qed.

(** With the service out of reach no identifier resolves. *)
Lemma featured_markets_unreachable (featured_conditions : list string) (limit : Z)
    (w : world) :
  featured_conditions <> [] ->
  fst (get_featured_markets gamma clock simplified_markets rt featured_conditions limit w)
  = Ok [].
Proof.
  intros Hne.
  rewrite (featured_batch_run gamma clock simplified_markets rt featured_conditions limit w Hne).
  - cbn [fst]. rewrite resolve_batch_unreachable. reflexivity.
  - rewrite resolve_batch_unreachable. reflexivity.
Qed.

End OutageFacts.

Section EndpointFacts.

Variable sessions : pydict.
Variable gamma : list request -> request -> reply.
Variable clock : nat -> Z.
Variable simplified_markets : list request -> option py.
Variable trade_client : option TradeClient.
Variable featured_conditions : list string.
Variable has_15min_markets : bool.
Variable rt : PyRuntime.
Variable exception_str : failure -> string.
Variable isoformat : Z -> result string.

Lemma internal_error_answer {S A : Type} (body : St S A) (s : S) :
  answer_or_500 (fst (st_try body (app.internal_error exception_str) s)).
Proof.
  unfold st_try. destruct (body s) as [[a|f] s'].
  - left. exists a. reflexivity.
  - right. eexists. reflexivity.
Qed.

(** X24.  When [POST /order] makes any call on the authenticated client,
    the request has passed every check - the session is known, the side is
    "BUY" or "SELL" as written, the price lies strictly between 0 and 1, the
    size is not at most 0 - and the first call signs an order with the
    token, price and size of the request and the side the request names. *)
Theorem place_order_validates (request : OrderRequest) (calls : list trade_call) :
  snd (app.place_order sessions trade_client rt exception_str request calls) <> calls ->
  dict_has sessions (or_session_id request) = true
  /\ (or_side request = "BUY" \/ or_side request = "SELL")
  /\ PrimFloat.ltb 0 (or_price request) = true
  /\ PrimFloat.ltb (or_price request) 1 = true
  /\ PrimFloat.leb (or_size request) 0 = false
  /\ exists tc,
       trade_client = Some tc
       /\ firstn 1 (skipn (List.length calls)
                      (snd (app.place_order sessions trade_client rt exception_str
                              request calls)))
          = [create_order
               {| oa_token_id := or_token_id request;
                  oa_price := or_price request;
                  oa_size := or_size request;
                  oa_side := if String.eqb (or_side request) "BUY" then BUY else SELL |}].
Proof.
  remember (app.place_order sessions trade_client rt exception_str request calls)
    as run eqn:Hrun.
  intros Hne. unfold app.place_order, st_try in Hrun.
  destruct (dict_has sessions (or_session_id request)); cbn [negb] in Hrun;
    [|subst run; contradiction Hne; reflexivity].
  destruct (String.eqb (or_side request) "BUY" || String.eqb (or_side request) "SELL") eqn:Es;
    cbn [negb] in Hrun; [|subst run; contradiction Hne; reflexivity].
  destruct (PrimFloat.ltb 0 (or_price request)) eqn:Ep0; cbn [negb andb] in Hrun;
    [|subst run; contradiction Hne; reflexivity].
  destruct (PrimFloat.ltb (or_price request) 1) eqn:Ep1; cbn [negb andb] in Hrun;
    [|subst run; contradiction Hne; reflexivity].
  destruct (PrimFloat.leb (or_size request) 0) eqn:Ez;
    [subst run; contradiction Hne; reflexivity|].
  destruct trade_client as [tc|]; [|subst run; contradiction Hne; reflexivity].
  assert (Hside : order_side_of (or_side request)
                  = if String.eqb (or_side request) "BUY" then BUY else SELL).
  { apply orb_true_iff in Es as [E|E]; apply String.eqb_eq in E; rewrite E; reflexivity. }
  repeat split.
  - apply orb_true_iff in Es as [E|E]; apply String.eqb_eq in E; auto.
  - exists tc. split; [reflexivity|]. rewrite <- Hside.
    fold (limit_order (or_token_id request) (or_side request)
                      (or_price request) (or_size request)).
    pose proof (place_limit_order_calls tc (or_token_id request) (or_side request)
                  (or_price request) (or_size request) calls) as Hcalls.
    cbv zeta in Hcalls. unfold st_bind at 1 in Hrun.
    destruct (place_limit_order (Some tc) (or_token_id request) (or_side request)
                (or_price request) (or_size request) calls) as [r calls'] eqn:Er.
    assert (Hc : firstn 1 (skipn (List.length calls) calls')
                 = [create_order (limit_order (or_token_id request) (or_side request)
                                              (or_price request) (or_size request))]).
    { destruct (tc calls (create_order _)) as [signed_order|e].
      - destruct Hcalls as [Hs _]. cbn [snd] in Hs. rewrite Hs.
        rewrite skipn_app, skipn_all, Nat.sub_diag. reflexivity.
      - injection Hcalls as _ Hs. rewrite Hs.
        rewrite skipn_app, skipn_all, Nat.sub_diag. reflexivity. }
    destruct r as [response|f]; [|subst run; exact Hc].
    unfold st_bind, st_lift in Hrun. destruct (as_dict response); subst run; exact Hc.
Qed.

(** X25.  With a known session and an authenticated client, [POST /cancel]
    without an order id, or with an empty one, cancels every open order: its
    one call on the client is [cancel_all]; with an order id that is not
    empty its one call cancels that order. *)
Theorem cancel_without_id_cancels_all (request : CancelOrderRequest)
    (calls : list trade_call) (tc : TradeClient) :
  dict_has sessions (co_session_id request) = true ->
  (co_order_id request = None \/ co_order_id request = Some ""
   -> snd (app.cancel_order sessions (Some tc) exception_str request calls)
      = (calls ++ [cancel_all])%list)
  /\ (forall order_id, co_order_id request = Some order_id -> order_id <> "" ->
        snd (app.cancel_order sessions (Some tc) exception_str request calls)
        = (calls ++ [cancel order_id])%list).
Proof.
  intros Hs. unfold app.cancel_order, st_try. rewrite Hs. cbn [negb]. split.
  - intros [-> | ->]; unfold st_bind, cancel_all_orders, trade;
      destruct (tc calls cancel_all); reflexivity.
  - intros order_id -> Hne. destruct order_id as [|c r]; [contradiction|].
    unfold st_bind, cancel_order, trade. destruct (tc calls (cancel (String c r))); reflexivity.
Qed.

(** X26.  With a known session and an authenticated client, [GET /orders]
    always answers with success after one call on the client: the orders
    the client returned when they have a length, and an empty list when the
    call raised or returned something without a length - so that an empty
    list does not tell a failure from an account without open orders. *)
Theorem open_orders_hide_failures (session_id : string) (calls : list trade_call)
    (tc : TradeClient) :
  dict_has sessions session_id = true ->
  exists orders,
    app.get_orders sessions (Some tc) exception_str (Some session_id) calls
    = (inl [("success", PyBool true); ("orders", orders)], (calls ++ [get_orders])%list)
    /\ get_open_orders (Some tc) calls = (inl orders, (calls ++ [get_orders])%list)
    /\ (exists n, py_len orders = Ok n)
    /\ ((exists e, tc calls get_orders = Raise e) -> orders = PyList [])
    /\ (forall v e, tc calls get_orders = Ok v -> py_len v = Raise e -> orders = PyList [])
    /\ (forall v n, tc calls get_orders = Ok v -> py_len v = Ok n -> orders = v).
Proof.
  intros Hs. unfold app.get_orders, st_try at 1. rewrite Hs. cbn [negb].
  unfold st_bind at 1, get_open_orders, st_try, st_bind, trade, st_lift.
  destruct (tc calls get_orders) as [v|e].
  - destruct (py_len v) as [n|e] eqn:En.
    + exists v. unfold st_ret. cbn beta iota zeta. rewrite ?En.
      refine (conj eq_refl (conj eq_refl (conj _ (conj _ (conj _ _))))).
      * exists n. reflexivity.
      * intros [e He]. discriminate He.
      * intros v' e' [= <-] He. congruence.
      * intros v' n' [= <-] _. reflexivity.
    + exists (PyList []). unfold st_ret. cbn beta iota zeta. rewrite ?En.
      refine (conj eq_refl (conj eq_refl (conj _ (conj _ (conj _ _))))).
      * exists 0. reflexivity.
      * intros _. reflexivity.
      * intros _ _ _ _. reflexivity.
      * intros v' n' [= <-] Hn. congruence.
  - exists (PyList []).
    refine (conj eq_refl (conj eq_refl (conj _ (conj _ (conj _ _))))).
    + exists 0. reflexivity.
    + intros _. reflexivity.
    + intros _ _ _ _. reflexivity.
    + intros v n H. discriminate H.
Qed.

(** X27.  Each of the endpoints [GET /markets], [GET /markets/next-refresh],
    [POST /order], [POST /cancel] and [GET /orders] either answers or fails
    with status 500, never with another status: the 401 of an unknown
    session and the 400 of a bad side are raised inside the [try] whose
    handler turns every exception into a 500, and reach the caller as the
    detail of that 500, before any call on the client. *)
Theorem endpoint_errors_are_500 (w : world) (calls : list trade_call)
    (order : OrderRequest) (cancellation : CancelOrderRequest) (session_id : option string) :
  answer_or_500 (fst (app.get_markets gamma clock simplified_markets featured_conditions
                        rt exception_str w))
  /\ answer_or_500 (fst (app.get_next_refresh_time clock has_15min_markets exception_str
                           isoformat w))
  /\ answer_or_500 (fst (app.place_order sessions trade_client rt exception_str order calls))
  /\ answer_or_500 (fst (app.cancel_order sessions trade_client exception_str
                           cancellation calls))
  /\ answer_or_500 (fst (app.get_orders sessions trade_client exception_str session_id calls))
  /\ (dict_has sessions (or_session_id order) = false ->
      app.place_order sessions trade_client rt exception_str order calls
      = (inr (HTTPException 500 (exception_str (HTTPException 401 "Invalid session"))),
         calls))
  /\ (dict_has sessions (or_session_id order) = true ->
      or_side order <> "BUY" -> or_side order <> "SELL" ->
      app.place_order sessions trade_client rt exception_str order calls
      = (inr (HTTPException 500
                (exception_str (HTTPException 400 "Side must be BUY or SELL"))),
         calls)).
Proof.
  repeat split; try apply internal_error_answer.
  - intros H. unfold app.place_order, st_try. rewrite H. reflexivity.
  - intros H Hb Hs. unfold app.place_order, st_try. rewrite H.
    apply String.eqb_neq in Hb, Hs. rewrite Hb, Hs. reflexivity.
Qed.

(** X28.  [GET /markets] never fails: it answers with success and with the
    list [get_featured_markets] returns for the limit 10, whatever the
    listing service does; when the service cannot be reached and
    identifiers are configured, the answer is success with no market. *)
Theorem get_markets_always_succeeds (w : world) :
  (exists l w',
     get_featured_markets gamma clock simplified_markets rt featured_conditions 10 w
     = (Ok l, w')
     /\ app.get_markets gamma clock simplified_markets featured_conditions rt exception_str w
        = (inl [("success", PyBool true); ("markets", PyList (map PyDict l))], w'))
  /\ (unreachable gamma -> featured_conditions <> [] ->
      fst (app.get_markets gamma clock simplified_markets featured_conditions rt
             exception_str w)
      = inl [("success", PyBool true); ("markets", PyList [])]).
Proof.
  split.
  - destruct (get_featured_markets_total gamma clock simplified_markets rt
                featured_conditions 10 w) as (l & w' & H).
    exists l, w'. split; [exact H|].
    unfold app.get_markets, st_try, st_bind, of_M. rewrite H. reflexivity.
  - intros Hg Hne.
    pose proof (featured_markets_unreachable gamma clock simplified_markets rt Hg
                  featured_conditions 10 w Hne) as H.
    unfold app.get_markets, st_try, st_bind, of_M.
    destruct (get_featured_markets gamma clock simplified_markets rt featured_conditions 10 w)
      as [r w'].
    cbn [fst] in H. subst r. reflexivity.
Qed.

(** X29.  When [GET /markets/next-refresh] answers, the current window it
    reports is computed from the first reading of the clock, the next window
    from the third, the seconds from the fourth and fifth, and the minutes
    are the seconds divided by 60, rounded down.  On a clock that never goes
    back the next window starts at least 900 seconds after the current one
    and the seconds are not negative; on a clock that stands still the next
    window is the current one plus 900, the seconds lie between 0 and 900
    and the minutes between 0 and 15. *)
Theorem next_refresh_reads_clock (w : world) (r : pydict) :
  fst (app.get_next_refresh_time clock has_15min_markets exception_str isoformat w) = inl r ->
  let t := fun k => clock (clock_reads w + k)%nat in
  let current := get_current_15min_timestamp (t 0%nat) in
  let next := get_next_15min_timestamp (t 2%nat) in
  let seconds := get_seconds_until_next_15min (t 3%nat) (t 4%nat) in
  field_of r "current_interval" "timestamp" = PyInt current
  /\ field_of r "next_interval" "timestamp" = PyInt next
  /\ dict_get r "seconds_until_next" PyNone = PyInt seconds
  /\ dict_get r "minutes_until_next" PyNone = PyInt (seconds / 60)
  /\ ((forall n, clock n <= clock (S n)) ->
      current + 900 <= next /\ 0 <= seconds /\ 0 <= seconds / 60)
  /\ ((forall n, clock n = clock 0%nat) ->
      next = current + 900 /\ 0 <= seconds <= 900 /\ 0 <= seconds / 60 <= 15).
Proof.
  unfold app.get_next_refresh_time, st_try, st_bind, of_M, datetime_now, st_lift.
  cbn [clock_reads sent]. rewrite <- !plus_n_O.
  replace (S (clock_reads w)) with (clock_reads w + 1)%nat by lia.
  replace (S (clock_reads w + 1)) with (clock_reads w + 2)%nat by lia.
  replace (S (clock_reads w + 2)) with (clock_reads w + 3)%nat by lia.
  replace (S (clock_reads w + 3)) with (clock_reads w + 4)%nat by lia.
  destruct (isoformat (get_current_15min_timestamp (clock (clock_reads w))));
    [|discriminate].
  destruct (isoformat (get_next_15min_timestamp (clock (clock_reads w + 2))));
    [|discriminate].
  cbn [fst st_ret]. intros [= <-]. cbv zeta.
  repeat (split; [reflexivity|]). split.
  - intros Hmono.
    assert (Hle : forall i j, (i <= j)%nat -> clock i <= clock j).
    { intros i j Hij. induction Hij as [|j Hij IH]; [lia|]. specialize (Hmono j). lia. }
    pose proof (Hle (clock_reads w) (clock_reads w + 2)%nat ltac:(lia)) as H02.
    pose proof (Hle (clock_reads w + 3)%nat (clock_reads w + 4)%nat ltac:(lia)) as H34.
    pose proof (seconds_until_next_nonneg _ _ H34) as Hs.
    split; [|split; [exact Hs|apply Z.div_pos; lia]].
    unfold get_next_15min_timestamp. rewrite !current_window_value. floor_arith.
  - intros Hfrozen.
    rewrite (Hfrozen (clock_reads w)), (Hfrozen (clock_reads w + 2)%nat),
      (Hfrozen (clock_reads w + 3)%nat), (Hfrozen (clock_reads w + 4)%nat).
    split; [reflexivity|].
    rewrite (seconds_until_value (clock 0%nat) (clock 0%nat)) by lia.
    split; floor_arith.
Qed.

End EndpointFacts.

Lemma place_order_validates_witness :
  dict_has one_session (or_session_id buy_request) = true
  /\ (or_side buy_request = "BUY" \/ or_side buy_request = "SELL")
  /\ PrimFloat.ltb 0 (or_price buy_request) = true
  /\ PrimFloat.ltb (or_price buy_request) 1 = true
  /\ PrimFloat.leb (or_size buy_request) 0 = false
  /\ exists tc,
       Some trade_client_ok = Some tc
       /\ firstn 1 (skipn (List.length ([] : list trade_call))
                      (snd (app.place_order one_session (Some trade_client_ok)
                              scenario_runtime no_exception_str buy_request [])))
          = [create_order
               {| oa_token_id := or_token_id buy_request;
                  oa_price := or_price buy_request;
                  oa_size := or_size buy_request;
                  oa_side := if String.eqb (or_side buy_request) "BUY" then BUY else SELL |}].
Proof.
  apply (place_order_validates one_session (Some trade_client_ok) scenario_runtime
           no_exception_str buy_request []).
  vm_compute. discriminate.
Defined.

Lemma cancel_without_id_cancels_all_witness :
  snd (app.cancel_order one_session (Some trade_client_ok) no_exception_str
         cancel_request_without_id [])
  = [cancel_all].
Proof.
  destruct (cancel_without_id_cancels_all one_session no_exception_str
              cancel_request_without_id [] trade_client_ok eq_refl) as [H _].
  apply H. left. reflexivity.
Defined.

Lemma open_orders_hide_failures_witness :
  exists orders,
    app.get_orders one_session (Some (fun _ _ => Raise ClobError)) no_exception_str
      (Some "session_7_0x1a2b3c4d") []
    = (inl [("success", PyBool true); ("orders", orders)], [get_orders])
    /\ orders = PyList [].
Proof.
  destruct (open_orders_hide_failures one_session no_exception_str "session_7_0x1a2b3c4d" []
              (fun _ _ => Raise ClobError) eq_refl) as (orders & H & _ & _ & He & _).
  exists orders. split; [exact H|]. apply He. exists ClobError. reflexivity.
Defined.

Lemma next_refresh_reads_clock_witness :
  field_of [("success", PyBool true);
            ("current_interval",
             PyDict [("timestamp", PyInt 1761921000);
                     ("datetime", PyStr "2025-10-31T14:30:00+00:00")]);
            ("next_interval",
             PyDict [("timestamp", PyInt 1761921900);
                     ("datetime", PyStr "2025-10-31T14:45:00+00:00")]);
            ("seconds_until_next", PyInt 250);
            ("minutes_until_next", PyInt 4);
            ("has_15min_markets", PyBool true)]
           "next_interval" "timestamp"
  = PyInt (get_next_15min_timestamp (clock_1761921650 2%nat))
  /\ get_seconds_until_next_15min (clock_1761921650 3%nat) (clock_1761921650 4%nat) = 250.
Proof.
  destruct (next_refresh_reads_clock clock_1761921650 true no_exception_str
              isoformat_1761921000 fresh_world
              [("success", PyBool true);
               ("current_interval",
                PyDict [("timestamp", PyInt 1761921000);
                        ("datetime", PyStr "2025-10-31T14:30:00+00:00")]);
               ("next_interval",
                PyDict [("timestamp", PyInt 1761921900);
                        ("datetime", PyStr "2025-10-31T14:45:00+00:00")]);
               ("seconds_until_next", PyInt 250);
               ("minutes_until_next", PyInt 4);
               ("has_15min_markets", PyBool true)]
              eq_refl) as (_ & Hn & _).
  split; [exact Hn|reflexivity].
Defined.

(** The checks of [POST /order] let through a size that is not a number. *)
Example order_size_nan_passes :
  snd (app.place_order one_session (Some trade_client_ok) scenario_runtime no_exception_str
         {| or_session_id := "session_7_0x1a2b3c4d"; or_token_id := "101";
            or_side := "SELL"; or_price := 0.5%float; or_size := nan |} [])
  <> [].
Proof. vm_compute. discriminate. Qed.

